(** * Pybricks motor observer, tacho setup and blocking wait wrappers

    A shallow embedding of

    - [lib/pbio/src/observer.c]: the model-based state observer and its
      stall detection,
    - [lib/pbio/src/tacho.c]: tacho setup,
    - [pybricks/pupdevices/pb_type_pupdevices_remote.c] and the [wait]
      helper of the device layer: the blocking wrappers around a task.

    C [int32_t] and [uint32_t] values are integers of [Z]; every arithmetic
    operation of the source is written with its 32-bit wrap-around. *)

From Stdlib Require Import ZArith List Bool Lia.
Import ListNotations.

Local Open Scope Z_scope.

(** ** 32-bit machine arithmetic *)

Module Int32.

Definition min_signed : Z := - 2 ^ 31.
Definition max_signed : Z := 2 ^ 31 - 1.

(** A mathematical integer seen as a two's complement [int32_t]. *)
Definition wrap (z : Z) : Z := (z + 2 ^ 31) mod 2 ^ 32 - 2 ^ 31.

Definition in_range (z : Z) : Prop := min_signed <= z <= max_signed.

Definition add (a b : Z) : Z := wrap (a + b).
Definition sub (a b : Z) : Z := wrap (a - b).
Definition mul (a b : Z) : Z := wrap (a * b).
Definition neg (a : Z) : Z := wrap (- a).

(** C division truncates toward zero. A zero divisor is outside the
    defined behaviour of C; the model is total there and follows
    [Z.quot]. *)
Definition div (a b : Z) : Z := wrap (Z.quot a b).

(** Subtraction of two [uint32_t]. *)
Definition usub (a b : Z) : Z := (a - b) mod 2 ^ 32.

(** An [int32_t] converted to [uint32_t]. *)
Definition unsigned (a : Z) : Z := a mod 2 ^ 32.

End Int32.

(** ** Observer data *)

(** Values generated by pbio/doc/control/model.py *)
Definition MAX_NUM_SPEED : Z := 2500000.
Definition MAX_NUM_ACCELERATION : Z := 2500000.
Definition MAX_NUM_CURRENT : Z := 30000.
Definition MAX_NUM_VOLTAGE : Z := 12000.
Definition MAX_NUM_TORQUE : Z := 1000000.
Definition PRESCALE_SPEED : Z := 858.
Definition PRESCALE_ACCELERATION : Z := 858.
Definition PRESCALE_CURRENT : Z := 71582.
Definition PRESCALE_VOLTAGE : Z := 178956.
Definition PRESCALE_TORQUE : Z := 2147.

(** The actuation kinds of a DC motor ([pbio_dcmotor_actuation_t]). *)
Inductive pbio_dcmotor_actuation_t : Set :=
| PBIO_DCMOTOR_ACTUATION_COAST
| PBIO_DCMOTOR_ACTUATION_BRAKE
| PBIO_DCMOTOR_ACTUATION_VOLTAGE
| PBIO_DCMOTOR_ACTUATION_TORQUE.

Definition is_voltage (a : pbio_dcmotor_actuation_t) : bool :=
  match a with
  | PBIO_DCMOTOR_ACTUATION_VOLTAGE => true
  | _ => false
  end.

(** Calibration constants of the discretized motor model
    ([pbio_observer_model_t]); every field is an [int32_t]. *)
Record pbio_observer_model_t : Set := {
  d_angle_d_speed : Z;
  d_speed_d_speed : Z;
  d_current_d_speed : Z;
  d_angle_d_current : Z;
  d_speed_d_current : Z;
  d_current_d_current : Z;
  d_angle_d_voltage : Z;
  d_speed_d_voltage : Z;
  d_current_d_voltage : Z;
  d_angle_d_torque : Z;
  d_speed_d_torque : Z;
  d_current_d_torque : Z;
  d_voltage_d_torque : Z;
  d_torque_d_voltage : Z;
  d_torque_d_speed : Z;
  d_torque_d_acceleration : Z;
  torque_friction : Z
}.

(** [pbio_observer_settings_t]: [stall_time] is a [uint32_t] tick count,
    the other two are [int32_t]. *)
Record pbio_observer_settings_t : Set := {
  stall_speed_limit : Z;
  stall_time : Z;
  feedback_gain : Z
}.

(** Modelled from the spec: [pbio_int_math_clamp] is declared in
    pbio/int_math.h, which is not part of the sources. The spec describes
    the clamps as symmetric and inclusive: a value beyond [abs_max] in
    either direction is replaced by the bound it exceeds. *)
Definition pbio_int_math_clamp (value abs_max : Z) : Z :=
  if value >? abs_max then abs_max
  else if value <? - abs_max then - abs_max
  else value.

(** The collaborators of the observer whose code is not part of the
    sources: the angle type with its two operators, the gain
    multiplication of the control settings and the differentiator. The
    observer is written against this interface. *)
Class Collaborators : Type := {
  pbio_angle_t : Type;
  pbio_differentiator_t : Type;
  (** [pbio_angle_diff_mdeg a b]: signed millidegree difference. *)
  pbio_angle_diff_mdeg : pbio_angle_t -> pbio_angle_t -> Z;
  (** [pbio_angle_add_mdeg a mdeg]: the angle advanced by [mdeg]. *)
  pbio_angle_add_mdeg : pbio_angle_t -> Z -> pbio_angle_t;
  pbio_control_settings_mul_by_gain : Z -> Z -> Z;
  pbio_differentiator_reset :
    pbio_differentiator_t -> pbio_angle_t -> pbio_differentiator_t;
  (** The differentiator stores the sample and returns the speed. *)
  pbio_differentiator_get_speed :
    pbio_differentiator_t -> pbio_angle_t -> pbio_differentiator_t * Z
}.

Section Observer.

Context {collab : Collaborators}.

(** [pbio_observer_t]: the model is shared and read-only, the rest is
    the state of one observer. *)
Record pbio_observer_t : Type := {
  model : pbio_observer_model_t;
  settings : pbio_observer_settings_t;
  angle : pbio_angle_t;
  speed : Z;
  current : Z;
  speed_numeric : Z;
  stalled : bool;
  stall_start : Z;
  differentiator : pbio_differentiator_t
}.

(** Resets the observer to a new angle. Speed and current are reset to
    zero. *)
Definition pbio_observer_reset (obs : pbio_observer_t) (a : pbio_angle_t)
  : pbio_observer_t :=
  {| model := model obs;
     settings := settings obs;
     angle := a;
     speed := 0;
     current := 0;
     speed_numeric := speed_numeric obs;
     stalled := false;
     stall_start := stall_start obs;
     differentiator := pbio_differentiator_reset (differentiator obs) a |}.

(** Returns [(speed_num, angle_est, speed_est)]. *)
Definition pbio_observer_get_estimated_state (obs : pbio_observer_t)
  : Z * pbio_angle_t * Z :=
  (speed_numeric obs, angle obs, speed obs).

Definition pbio_observer_torque_to_voltage
    (m : pbio_observer_model_t) (desired_torque : Z) : Z :=
  Int32.div
    (Int32.mul PRESCALE_TORQUE
       (pbio_int_math_clamp desired_torque MAX_NUM_TORQUE))
    (d_voltage_d_torque m).

Definition pbio_observer_voltage_to_torque
    (m : pbio_observer_model_t) (voltage : Z) : Z :=
  Int32.div
    (Int32.mul PRESCALE_VOLTAGE
       (pbio_int_math_clamp voltage MAX_NUM_VOLTAGE))
    (d_torque_d_voltage m).

(** The four stall conditions of [update_stall_state], on the values
    already converted to forward motion. *)
Definition stall_conditions
    (obs : pbio_observer_t) (speed voltage feedback_voltage : Z) : bool :=
  (speed <? stall_speed_limit (settings obs))
  && (feedback_voltage <? 0)
  && (Int32.neg feedback_voltage >? Int32.div (Int32.mul voltage 3) 4)
  && (voltage >?
      Int32.mul 5
        (pbio_observer_torque_to_voltage (model obs)
           (Int32.div (torque_friction (model obs)) 2))).

Definition set_stall (obs : pbio_observer_t) (flag : bool) (start : Z)
  : pbio_observer_t :=
  {| model := model obs;
     settings := settings obs;
     angle := angle obs;
     speed := speed obs;
     current := current obs;
     speed_numeric := speed_numeric obs;
     stalled := flag;
     stall_start := start;
     differentiator := differentiator obs |}.

Definition update_stall_state
    (obs : pbio_observer_t) (time : Z)
    (actuation : pbio_dcmotor_actuation_t)
    (voltage feedback_voltage : Z) : pbio_observer_t :=
  (* Anything other than voltage actuation is not included in the
     observer model, so it should not cause any stall flags to be
     raised. *)
  if negb (is_voltage actuation) then
    set_stall obs false (stall_start obs)
  else
    (* Convert to forward motion to simplify checks. *)
    let '(speed', voltage', feedback_voltage') :=
      if voltage <? 0 then
        (Int32.mul (speed obs) (-1),
         Int32.mul voltage (-1),
         Int32.mul feedback_voltage (-1))
      else (speed obs, voltage, feedback_voltage) in
    (* Check stall conditions. *)
    if stall_conditions obs speed' voltage' feedback_voltage' then
      (* If this is the rising edge of the stall flag, reset start
         time. *)
      set_stall obs true
        (if negb (stalled obs) then time else stall_start obs)
    else
      (* Otherwise the motor is not stalled. *)
      set_stall obs false (stall_start obs).

(** Gets observer feedback voltage that keep it close to measured
    value. *)
Definition pbio_observer_get_feedback_voltage
    (obs : pbio_observer_t) (a : pbio_angle_t) : Z :=
  let error := pbio_angle_diff_mdeg a (angle obs) in
  pbio_int_math_clamp
    (pbio_control_settings_mul_by_gain error
       (feedback_gain (settings obs)))
    MAX_NUM_VOLTAGE.

(** The local [torque] of [pbio_observer_update]: the only modeled
    torque is a static friction torque. *)
Definition update_torque (obs : pbio_observer_t) : Z :=
  if speed obs >? 0
  then Int32.div (torque_friction (model obs)) 2
  else Int32.div (Int32.neg (torque_friction (model obs))) 2.

(** One term [PRESCALE * x / coefficient] of the state equations. *)
Definition term (prescale x coefficient : Z) : Z :=
  Int32.div (Int32.mul prescale x) coefficient.

(** [0 + a + b + c + d], added from the left as C does. *)
Definition sum4 (a b c d : Z) : Z :=
  Int32.add (Int32.add (Int32.add (Int32.add 0 a) b) c) d.

(** The speed sum of [pbio_observer_update] before it is clamped;
    [voltage] already includes the feedback voltage. *)
Definition speed_sum (obs : pbio_observer_t) (voltage : Z) : Z :=
  let m := model obs in
  sum4 (term PRESCALE_SPEED (speed obs) (d_speed_d_speed m))
       (term PRESCALE_CURRENT (current obs) (d_speed_d_current m))
       (term PRESCALE_VOLTAGE voltage (d_speed_d_voltage m))
       (term PRESCALE_TORQUE (update_torque obs) (d_speed_d_torque m)).

(** The current sum of [pbio_observer_update] before it is clamped. *)
Definition current_sum (obs : pbio_observer_t) (voltage : Z) : Z :=
  let m := model obs in
  sum4 (term PRESCALE_SPEED (speed obs) (d_current_d_speed m))
       (term PRESCALE_CURRENT (current obs) (d_current_d_current m))
       (term PRESCALE_VOLTAGE voltage (d_current_d_voltage m))
       (term PRESCALE_TORQUE (update_torque obs) (d_current_d_torque m)).

(** The angle increment of [pbio_observer_update]; the source adds the
    four terms without a leading zero. *)
Definition angle_sum (obs : pbio_observer_t) (voltage : Z) : Z :=
  let m := model obs in
  Int32.add
    (Int32.add
       (Int32.add
          (term PRESCALE_SPEED (speed obs) (d_angle_d_speed m))
          (term PRESCALE_CURRENT (current obs) (d_angle_d_current m)))
       (term PRESCALE_VOLTAGE voltage (d_angle_d_voltage m)))
    (term PRESCALE_TORQUE (update_torque obs) (d_angle_d_torque m)).

(** The test of the friction guard on the clamped [speed_next]. *)
Definition zero_crossing
    (obs : pbio_observer_t) (speed_next : Z) : bool :=
  negb (Bool.eqb
          (speed_next <? 0)
          (Int32.sub speed_next
             (term PRESCALE_TORQUE (update_torque obs)
                (d_speed_d_torque (model obs))) <? 0)).

(** Predicts next system state and corrects the model using a
    measurement. *)
Definition pbio_observer_update
    (obs : pbio_observer_t) (time : Z) (a : pbio_angle_t)
    (actuation : pbio_dcmotor_actuation_t) (voltage : Z)
  : pbio_observer_t :=
  (* Update numerical derivative as speed sanity check. *)
  let '(dif, speed_num) :=
    pbio_differentiator_get_speed (differentiator obs) a in
  (* Apply observer error feedback as voltage. *)
  let feedback_voltage := pbio_observer_get_feedback_voltage obs a in
  (* Check stall condition. *)
  let obs1 := update_stall_state obs time actuation voltage
                feedback_voltage in
  (* The observer will get the applied voltage plus the feedback
     voltage to keep it in sync with the real system. *)
  let voltage := Int32.add voltage feedback_voltage in
  (* Get next state based on current state and input. *)
  let angle_next := pbio_angle_add_mdeg (angle obs) (angle_sum obs voltage) in
  let speed_next :=
    pbio_int_math_clamp (speed_sum obs voltage) MAX_NUM_SPEED in
  let current_next :=
    pbio_int_math_clamp (current_sum obs voltage) MAX_NUM_CURRENT in
  let speed_next :=
    if zero_crossing obs speed_next then 0 else speed_next in
  (* Save new state. *)
  {| model := model obs;
     settings := settings obs;
     angle := angle_next;
     speed := speed_next;
     current := current_next;
     speed_numeric := speed_num;
     stalled := stalled obs1;
     stall_start := stall_start obs1;
     differentiator := dif |}.

(** Checks whether system is stalled; returns the flag together with
    the value written to [stall_duration]. *)
Definition pbio_observer_is_stalled (obs : pbio_observer_t) (time : Z)
  : bool * Z :=
  if stalled obs
     && (Int32.usub time (stall_start obs) >? stall_time (settings obs))
  then (true, Int32.usub time (stall_start obs))
  else (false, 0).

End Observer.

(** ** Error codes *)

(** [pbio_error_t], restricted to the codes the sources and the error
    taxonomy name. [PBIO_ERROR_AGAIN] means "not yet complete". *)
Inductive pbio_error_t : Set :=
| PBIO_SUCCESS
| PBIO_ERROR_FAILED
| PBIO_ERROR_INVALID_ARG
| PBIO_ERROR_INVALID_PORT
| PBIO_ERROR_NO_DEV
| PBIO_ERROR_BUSY
| PBIO_ERROR_AGAIN
| PBIO_ERROR_TIMEDOUT
| PBIO_ERROR_CANCELED.

Definition is_success (e : pbio_error_t) : bool :=
  match e with PBIO_SUCCESS => true | _ => false end.

Definition is_again (e : pbio_error_t) : bool :=
  match e with PBIO_ERROR_AGAIN => true | _ => false end.

(** ** Tacho setup *)

Module Tacho.

Inductive pbio_direction_t : Set :=
| PBIO_DIRECTION_CLOCKWISE
| PBIO_DIRECTION_COUNTERCLOCKWISE.

Definition is_counterclockwise (d : pbio_direction_t) : bool :=
  match d with
  | PBIO_DIRECTION_COUNTERCLOCKWISE => true
  | PBIO_DIRECTION_CLOCKWISE => false
  end.

(** The calls a tacho makes to the counter driver. *)
Inductive counter_call : Set :=
| Call_counter_get (counter_id : Z)
| Call_counter_get_abs_count
| Call_counter_get_count.

Section WithDriver.

(** The counter driver and the fixed-point library are not part of
    the sources; they are parameters. [driver] is the state of the
    counter devices, [counter_dev] a handle to one of them. The value
    a driver call writes through its output pointer is returned next
    to the error code. *)
Variable driver : Type.
Variable counter_dev : Type.
Variable fix16_mul : Z -> Z -> Z.
Variable pbdrv_counter_get :
  Z -> counter_dev -> driver -> driver * (pbio_error_t * counter_dev).
Variable pbdrv_counter_get_abs_count :
  counter_dev -> driver -> driver * (pbio_error_t * Z).
Variable pbdrv_counter_get_count :
  counter_dev -> driver -> driver * (pbio_error_t * Z).
Variable PBDRV_CONFIG_FIRST_MOTOR_PORT : Z.
Variable PBDRV_CONFIG_LAST_MOTOR_PORT : Z.

Record pbio_tacho_t : Type := {
  direction : pbio_direction_t;
  offset : Z;
  counts_per_degree : Z;
  counts_per_output_unit : Z;
  counter : counter_dev
}.

(** The counter devices together with the log of the calls made to
    them. *)
Record io : Type := { devices : driver; calls : list counter_call }.

(** State passing over [io]. *)
Definition M (A : Type) : Type := io -> A * io.
Definition ret {A} (a : A) : M A := fun s => (a, s).
Definition bind {A B} (m : M A) (k : A -> M B) : M B :=
  fun s => let '(a, s') := m s in k a s'.
Definition call {A} (c : counter_call) (f : driver -> driver * A) : M A :=
  fun s =>
    let '(d, a) := f (devices s) in
    (a, {| devices := d; calls := calls s ++ [c] |}).

Notation "x <- m ;; k" := (bind m (fun x => k))
  (at level 61, m at next level, right associativity).

Definition pbio_tacho_get_count (tacho : pbio_tacho_t)
  : M (pbio_error_t * Z) :=
  r <- call Call_counter_get_count
         (pbdrv_counter_get_count (counter tacho)) ;;
  let '(err, count) := r in
  if negb (is_success err) then ret (err, count)
  else
    let count :=
      if is_counterclockwise (direction tacho)
      then Int32.neg count else count in
    ret (PBIO_SUCCESS, Int32.sub count (offset tacho)).

Definition pbio_tacho_reset_count (tacho : pbio_tacho_t) (reset_count : Z)
  : M (pbio_error_t * pbio_tacho_t) :=
  (* First get the counter value without any offsets, but with the
     appropriate polarity/sign. *)
  r <- pbio_tacho_get_count tacho ;;
  let '(err, count_no_offset) := r in
  if negb (is_success err) then ret (err, tacho)
  else
    let count_no_offset := Int32.add count_no_offset (offset tacho) in
    (* Calculate the new offset *)
    ret (PBIO_SUCCESS,
         {| direction := direction tacho;
            offset := Int32.sub count_no_offset reset_count;
            counts_per_degree := counts_per_degree tacho;
            counts_per_output_unit := counts_per_output_unit tacho;
            counter := counter tacho |}).

Definition pbio_tacho_setup
    (tacho : pbio_tacho_t) (counter_id : Z) (dir : pbio_direction_t)
    (cpd gear_ratio : Z) : M (pbio_error_t * pbio_tacho_t) :=
  (* Assert that scaling factors are positive *)
  if (gear_ratio <? 0) || (cpd <? 0) then
    ret (PBIO_ERROR_INVALID_ARG, tacho)
  else
    (* Get overal ratio from counts to output variable, including
       gear train; configure direction *)
    let tacho :=
      {| direction := dir;
         offset := offset tacho;
         counts_per_degree := cpd;
         counts_per_output_unit := fix16_mul cpd gear_ratio;
         counter := counter tacho |} in
    (* Get counter device *)
    r <- call (Call_counter_get counter_id)
           (pbdrv_counter_get counter_id (counter tacho)) ;;
    let '(err, dev) := r in
    let tacho :=
      {| direction := direction tacho;
         offset := offset tacho;
         counts_per_degree := counts_per_degree tacho;
         counts_per_output_unit := counts_per_output_unit tacho;
         counter := dev |} in
    if negb (is_success err) then ret (err, tacho)
    else
      r <- call Call_counter_get_abs_count
             (pbdrv_counter_get_abs_count (counter tacho)) ;;
      let abs_count := if is_success (fst r) then snd r else 0 in
      let abs_count :=
        if is_counterclockwise dir
        then Int32.neg abs_count else abs_count in
      (* Set the offset such that tacho output is 0 or the current
         absolute count if the motor supports it. *)
      pbio_tacho_reset_count tacho abs_count.

(** Replaces element [i] of the static array. *)
Fixpoint store (i : nat) (t : pbio_tacho_t) (l : list pbio_tacho_t)
  : list pbio_tacho_t :=
  match l, i with
  | [], _ => []
  | _ :: l', O => t :: l'
  | x :: l', S i' => x :: store i' t l'
  end.

(** [pbio_tacho_get] on the static array [tachos]. The result holds
    the error code, the index stored in [*tacho] when it was written,
    and the array afterwards. An index outside the array (a port
    range wider than the array) has no defined behaviour in C and
    yields [None]. *)
Definition pbio_tacho_get
    (tachos : list pbio_tacho_t) (port : Z) (dir : pbio_direction_t)
    (cpd gear_ratio : Z)
  : M (option (pbio_error_t * option nat * list pbio_tacho_t)) :=
  (* Validate port *)
  if (port <? PBDRV_CONFIG_FIRST_MOTOR_PORT)
     || (port >? PBDRV_CONFIG_LAST_MOTOR_PORT) then
    ret (Some (PBIO_ERROR_INVALID_PORT, None, tachos))
  else
    (* Get pointer to tacho *)
    let index := Z.to_nat (port - PBDRV_CONFIG_FIRST_MOTOR_PORT) in
    (* FIXME: Make proper way to get counter id *)
    let counter_id := (port - PBDRV_CONFIG_FIRST_MOTOR_PORT) mod 256 in
    match nth_error tachos index with
    | None => ret None
    | Some tacho =>
        (* Initialize and set up tacho properties *)
        r <- pbio_tacho_setup tacho counter_id dir cpd gear_ratio ;;
        let '(err, tacho') := r in
        ret (Some (err, Some index, store index tacho' tachos))
    end.

End WithDriver.

Arguments direction {counter_dev} _.
Arguments offset {counter_dev} _.
Arguments counts_per_degree {counter_dev} _.
Arguments counts_per_output_unit {counter_dev} _.
Arguments counter {counter_dev} _.
Arguments devices {driver} _.
Arguments calls {driver} _.

End Tacho.

(** ** Blocking wrappers around a task *)

Module Blocking.

(** The exceptions that unwind the wrappers. *)
Inductive exn : Set :=
| OSError_ETIMEDOUT
| Pending (id : Z).

(** How a wrapper ends: it returns, [pb_assert] raises for a terminal
    error status after the handler was popped, or the handler re-raises
    the exception that unwound the protected block. *)
Inductive outcome : Set :=
| Returned
| AssertRaised (err : pbio_error_t)
| Reraised (e : exn).

(** How the block protected by [nlr_push] ends. *)
Inductive protected : Set :=
| Finished (status : pbio_error_t)
| Unwound (e : exn).

(** What a wrapper does to the task and the event loop, in order. *)
Inductive event : Set :=
| EvPollHook
| EvVmHook
| EvStatus (status : pbio_error_t)
| EvCancel.

(** [pb_assert] raises for every code but [PBIO_SUCCESS]. *)
Definition pb_assert (err : pbio_error_t) : outcome :=
  if is_success err then Returned else AssertRaised err.

Section WithWorld.

(** Everything outside the wrappers is a parameter: [world] is the
    state of the hub (task, drivers, clock, pending exceptions).
    [event_poll_hook] is MICROPY_EVENT_POLL_HOOK, which runs the event
    loop and may deliver a pending exception; [vm_hook_loop] is
    MICROPY_VM_HOOK_LOOP, which only runs the event loop. *)
Variable world : Type.
Variable mp_hal_ticks_ms : world -> Z.
Variable event_poll_hook : world -> world * option exn.
Variable vm_hook_loop : world -> world.

Definition result : Type := outcome * world * list event.

(** The world after [n] runs of MICROPY_VM_HOOK_LOOP. *)
Fixpoint after_hooks (n : nat) (w : world) : world :=
  match n with
  | O => w
  | S n' => after_hooks n' (vm_hook_loop w)
  end.

(** The world at the test of a polling loop that ran
    MICROPY_EVENT_POLL_HOOK [n] times without an exception. *)
Fixpoint polled (n : nat) (w : world) : world :=
  match n with
  | O => w
  | S n' => polled n' (fst (event_poll_hook w))
  end.

(** The loop test of [pb_remote_connect],
    [timeout == -1 || mp_hal_ticks_ms() - start < timeout].
    [mp_hal_ticks_ms] returns an [mp_uint_t], so the difference with
    the [mp_int_t] [start] is unsigned and [timeout] is converted to
    unsigned for the comparison; both types have 32 bits on the hubs. *)
Definition within_timeout (timeout start : Z) (w : world) : bool :=
  (timeout =? -1)
  || (Int32.usub (mp_hal_ticks_ms w) start <? Int32.unsigned timeout).

Section Remote.

(** [task_status] reads [remote->task.status]; [scan_and_connect]
    is the start of the operation (clearing the singleton, setting
    the notification handler, [pbdrv_bluetooth_scan_and_connect]). *)
Variable task_status : world -> pbio_error_t.
Variable scan_and_connect : world -> world.
Variable pbio_task_cancel : world -> world.

(** The loop of the protected block of [pb_remote_connect]. *)
Fixpoint connect_poll (fuel : nat) (timeout start : Z) (w : world)
  : option (protected * world * list event) :=
  match fuel with
  | O => None
  | S fuel' =>
      if within_timeout timeout start w then
        let '(w1, pending) := event_poll_hook w in
        match pending with
        | Some e => Some (Unwound e, w1, [EvPollHook])
        | None =>
            if negb (is_again (task_status w1)) then
              Some (Finished (task_status w1), w1,
                    [EvPollHook; EvStatus (task_status w1)])
            else
              match connect_poll fuel' timeout start w1 with
              | None => None
              | Some (p, w2, evs) =>
                  Some (p, w2,
                        EvPollHook :: EvStatus (task_status w1) :: evs)
              end
        end
      else
        (* mp_raise_OSError(MP_ETIMEDOUT) *)
        Some (Unwound OSError_ETIMEDOUT, w, [])
  end.

(** The loop of the handler of [pb_remote_connect]. *)
Fixpoint connect_drain (fuel : nat) (w : world)
  : option (world * list event) :=
  match fuel with
  | O => None
  | S fuel' =>
      if is_again (task_status w) then
        match connect_drain fuel' (vm_hook_loop w) with
        | None => None
        | Some (w', evs) =>
            Some (w', EvStatus (task_status w) :: EvVmHook :: evs)
        end
      else Some (w, [EvStatus (task_status w)])
  end.

Definition pb_remote_connect (fuel : nat) (timeout : Z) (w : world)
  : option result :=
  let w0 := scan_and_connect w in
  let start := mp_hal_ticks_ms w0 in
  match connect_poll fuel timeout start w0 with
  | None => None
  | Some (Finished status, w1, evs) =>
      Some (pb_assert status, w1, evs)
  | Some (Unwound e, w1, evs) =>
      match connect_drain fuel (pbio_task_cancel w1) with
      | None => None
      | Some (w2, evs') => Some (Reraised e, w2, evs ++ EvCancel :: evs')
      end
  end.

End Remote.

Section Wait.

(** [wait (end, cancel, iodev)]: [end_] polls the operation and
    returns its status, [cancel] requests its termination. *)
Variable end_ : world -> world * pbio_error_t.
Variable cancel : world -> world.

Fixpoint wait_poll (fuel : nat) (w : world)
  : option (protected * world * list event) :=
  match fuel with
  | O => None
  | S fuel' =>
      let '(w1, err) := end_ w in
      if is_again err then
        let '(w2, pending) := event_poll_hook w1 in
        match pending with
        | Some e => Some (Unwound e, w2, [EvStatus err; EvPollHook])
        | None =>
            match wait_poll fuel' w2 with
            | None => None
            | Some (p, w3, evs) =>
                Some (p, w3, EvStatus err :: EvPollHook :: evs)
            end
        end
      else Some (Finished err, w1, [EvStatus err])
  end.

Fixpoint wait_drain (fuel : nat) (w : world)
  : option (world * list event) :=
  match fuel with
  | O => None
  | S fuel' =>
      let '(w1, err) := end_ w in
      if is_again err then
        match wait_drain fuel' (vm_hook_loop w1) with
        | None => None
        | Some (w', evs) => Some (w', EvStatus err :: EvVmHook :: evs)
        end
      else Some (w1, [EvStatus err])
  end.

Definition wait (fuel : nat) (w : world) : option result :=
  match wait_poll fuel w with
  | None => None
  | Some (Finished err, w1, evs) => Some (pb_assert err, w1, evs)
  | Some (Unwound e, w1, evs) =>
      match wait_drain fuel (cancel w1) with
      | None => None
      | Some (w2, evs') => Some (Reraised e, w2, evs ++ EvCancel :: evs')
      end
  end.

End Wait.

End WithWorld.

(** The events of a drain that saw [n] times "again" and then the
    terminal [status]. *)
Fixpoint drain_events (n : nat) (status : pbio_error_t) : list event :=
  match n with
  | O => [EvStatus status]
  | S n' => EvStatus PBIO_ERROR_AGAIN :: EvVmHook :: drain_events n' status
  end.

(** The events of [n] rounds of the loop of [pb_remote_connect] that
    found the task at "again". *)
Fixpoint connect_polls (n : nat) : list event :=
  match n with
  | O => []
  | S n' => EvPollHook :: EvStatus PBIO_ERROR_AGAIN :: connect_polls n'
  end.

(** The events of [n] rounds of the loop of [wait] that found the
    operation at "again". *)
Fixpoint wait_polls (n : nat) : list event :=
  match n with
  | O => []
  | S n' => EvStatus PBIO_ERROR_AGAIN :: EvPollHook :: wait_polls n'
  end.

(** The last status an event list reports, if any. *)
Fixpoint last_status (evs : list event) (acc : option pbio_error_t)
  : option pbio_error_t :=
  match evs with
  | [] => acc
  | EvStatus s :: evs' => last_status evs' (Some s)
  | _ :: evs' => last_status evs' acc
  end.

Definition is_cancel (ev : event) : bool :=
  match ev with EvCancel => true | _ => false end.

Definition no_cancel (evs : list event) : bool :=
  forallb (fun ev => negb (is_cancel ev)) evs.

(** An event list in which the first cancellation is followed by a
    drain, and by nothing else, up to the terminal status [final]. *)
Definition drained_after_cancel
    (evs : list event) (final : pbio_error_t) : Prop :=
  is_again final = false
  /\ exists (before : list event) (n : nat),
       evs = before ++ EvCancel :: drain_events n final
       /\ no_cancel before = true.

End Blocking.

(** ** Sequences of observer updates *)

Section ObserverRuns.

Context {collab : Collaborators}.

(** The arguments of one call of [pbio_observer_update]. *)
Record update_call : Type := {
  call_time : Z;
  call_angle : pbio_angle_t;
  call_actuation : pbio_dcmotor_actuation_t;
  call_voltage : Z
}.

Definition step (obs : pbio_observer_t) (c : update_call)
  : pbio_observer_t :=
  pbio_observer_update obs (call_time c) (call_angle c)
    (call_actuation c) (call_voltage c).

(** The observer after all the calls. *)
Definition run (obs : pbio_observer_t) (cs : list update_call)
  : pbio_observer_t :=
  fold_left step cs obs.

(** The observer after each of the calls, in order. *)
Fixpoint states (obs : pbio_observer_t) (cs : list update_call)
  : list pbio_observer_t :=
  match cs with
  | [] => []
  | c :: cs' => step obs c :: states (step obs c) cs'
  end.

(** The stall flag is raised after every one of the calls. *)
Fixpoint stalled_throughout (obs : pbio_observer_t) (cs : list update_call)
  : bool :=
  match cs with
  | [] => true
  | c :: cs' =>
      stalled (step obs c) && stalled_throughout (step obs c) cs'
  end.

(** The new speed of an update without its friction torque term, as a
    mathematical sum; [voltage] includes the feedback voltage. *)
Definition speed_without_torque (obs : pbio_observer_t) (voltage : Z) : Z :=
  let m := model obs in
  term PRESCALE_SPEED (speed obs) (d_speed_d_speed m)
  + term PRESCALE_CURRENT (current obs) (d_speed_d_current m)
  + term PRESCALE_VOLTAGE voltage (d_speed_d_voltage m).

(** The same with the friction torque term. *)
Definition speed_with_torque (obs : pbio_observer_t) (voltage : Z) : Z :=
  speed_without_torque obs voltage
  + term PRESCALE_TORQUE (update_torque obs) (d_speed_d_torque (model obs)).

(** The voltage the model equations of an update see. *)
Definition model_voltage
    (obs : pbio_observer_t) (a : pbio_angle_t) (voltage : Z) : Z :=
  Int32.add voltage (pbio_observer_get_feedback_voltage obs a).


End ObserverRuns.

(** ** A concrete instance for running the model *)

Module Sample.

(** Modelled from the spec: the angle type and its operators are
    declared in pbio/angle.h, which is not part of the sources. An angle
    is a count of whole rotations and a remainder in millidegrees, with
    [0 <= millidegrees < 360000]. *)
Record angle_t : Set := { rotations : Z; millidegrees : Z }.

Definition angle_diff_mdeg (a b : angle_t) : Z :=
  Int32.add
    (Int32.mul (Int32.sub (rotations a) (rotations b)) 360000)
    (Int32.sub (millidegrees a) (millidegrees b)).

Definition angle_add_mdeg (a : angle_t) (mdeg : Z) : angle_t :=
  let total := millidegrees a + mdeg in
  {| rotations := Int32.add (rotations a) (total / 360000);
     millidegrees := total mod 360000 |}.

(** Modelled from the spec: the feedback voltage is the clamped product
    of the error and the feedback gain. *)
Definition mul_by_gain (value gain : Z) : Z := Int32.mul value gain.

(** Modelled from the spec: the differentiator is a numeric derivative
    of the angle samples; this one keeps the previous sample and reports
    the difference to it. *)
Definition differentiator_reset (d a : angle_t) : angle_t := a.
Definition differentiator_get_speed (d a : angle_t) : angle_t * Z :=
  (a, angle_diff_mdeg a d).

#[export] Instance collaborators : Collaborators := {|
  pbio_angle_t := angle_t;
  pbio_differentiator_t := angle_t;
  pbio_angle_diff_mdeg := angle_diff_mdeg;
  pbio_angle_add_mdeg := angle_add_mdeg;
  pbio_control_settings_mul_by_gain := mul_by_gain;
  pbio_differentiator_reset := differentiator_reset;
  pbio_differentiator_get_speed := differentiator_get_speed
|}.

Definition origin : angle_t := {| rotations := 0; millidegrees := 0 |}.
Definition mdeg (n : Z) : angle_t := {| rotations := 0; millidegrees := n |}.

(** A model whose coefficients are all [d], with the voltage/torque
    conversion [dvt], the speed/torque coefficient [dst] and the
    friction torque [tf]. *)
Definition model_of (d dvt dst tf : Z) : pbio_observer_model_t :=
  {| d_angle_d_speed := d; d_speed_d_speed := d; d_current_d_speed := d;
     d_angle_d_current := d; d_speed_d_current := d;
     d_current_d_current := d;
     d_angle_d_voltage := d; d_speed_d_voltage := d;
     d_current_d_voltage := d;
     d_angle_d_torque := d; d_speed_d_torque := dst;
     d_current_d_torque := d;
     d_voltage_d_torque := dvt; d_torque_d_voltage := d;
     d_torque_d_speed := d; d_torque_d_acceleration := d;
     torque_friction := tf |}.

Definition settings_of (limit time gain : Z) : pbio_observer_settings_t :=
  {| stall_speed_limit := limit; stall_time := time; feedback_gain := gain |}.

(** An observer at rest at the angle [a]. *)
Definition observer_at
    (m : pbio_observer_model_t) (s : pbio_observer_settings_t)
    (a : angle_t) (v : Z) : pbio_observer_t :=
  {| model := m; settings := s; angle := a; speed := v; current := 0;
     speed_numeric := 0; stalled := false; stall_start := 0;
     differentiator := a |}.

(** A motor held in place: the model is 10 degrees ahead of the
    measured angle and 6 V are applied. *)
Definition held_model : pbio_observer_model_t :=
  model_of 1000000 2147 1000000 2000.
Definition held_observer : pbio_observer_t :=
  observer_at held_model (settings_of 50000 200 1) (mdeg 10000) 0.
Definition held_call (t : Z) : update_call :=
  {| call_time := t; call_angle := origin;
     call_actuation := PBIO_DCMOTOR_ACTUATION_VOLTAGE;
     call_voltage := 6000 |}.

(** A model with a strong friction term on the speed. *)
Definition sticky_model : pbio_observer_model_t :=
  model_of 1000000 2147 (-1) 4000.
Definition sticky_observer : pbio_observer_t :=
  observer_at sticky_model (settings_of 50000 200 1) origin 0.

(** A slowly turning motor whose friction term is larger than its
    speed. *)
Definition slow_model : pbio_observer_model_t :=
  model_of 858 2147 (-2147) 400.
Definition slow_observer : pbio_observer_t :=
  observer_at slow_model (settings_of 50000 200 1) origin 100.

(** A model whose conversions between torque and voltage are the
    identity. *)
Definition unit_model : pbio_observer_model_t :=
  model_of PRESCALE_VOLTAGE PRESCALE_TORQUE 1000000 2000.

(** A model whose conversion coefficients multiply to the product of
    the prescale constants: 19884 * 19323 = 2147 * 178956. *)
Definition geared_model : pbio_observer_model_t :=
  model_of 19323 19884 1000000 2000.

(** A motor turning close to the speed bound. *)
Definition fast_observer : pbio_observer_t :=
  observer_at (model_of 400 2147 1000000 2000) (settings_of 50000 200 1)
    origin 2400000.

Definition idle_call (t : Z) (actuation : pbio_dcmotor_actuation_t)
  : update_call :=
  {| call_time := t; call_angle := origin; call_actuation := actuation;
     call_voltage := 0 |}.

(** A hub whose task completes only by being cancelled: the clock
    advances by one millisecond per poll of the event loop, an interrupt
    is pending at [interrupt_at], and after a cancellation the task
    needs [teardown] more runs of the event loop. *)
Record hub : Set := {
  clock : Z;
  interrupt_at : Z;
  cancelling : bool;
  teardown : nat
}.

Definition hub_status (h : hub) : pbio_error_t :=
  if cancelling h then
    match teardown h with
    | O => PBIO_ERROR_CANCELED
    | S _ => PBIO_ERROR_AGAIN
    end
  else PBIO_ERROR_AGAIN.

Definition hub_poll_hook (h : hub) : hub * option Blocking.exn :=
  ({| clock := clock h + 1; interrupt_at := interrupt_at h;
      cancelling := cancelling h; teardown := teardown h |},
   if clock h + 1 =? interrupt_at h then Some (Blocking.Pending 1)
   else None).

Definition hub_vm_hook (h : hub) : hub :=
  {| clock := clock h; interrupt_at := interrupt_at h;
     cancelling := cancelling h;
     teardown := if cancelling h then pred (teardown h) else teardown h |}.

Definition hub_cancel (h : hub) : hub :=
  {| clock := clock h; interrupt_at := interrupt_at h;
     cancelling := true; teardown := teardown h |}.

Definition hub_end (h : hub) : hub * pbio_error_t := (h, hub_status h).

Definition idle_hub (interrupt : Z) : hub :=
  {| clock := 0; interrupt_at := interrupt; cancelling := false;
     teardown := 2 |}.

Definition hub_connect (fuel : nat) (timeout : Z) (h : hub)
  : option (Blocking.result hub) :=
  Blocking.pb_remote_connect hub clock hub_poll_hook hub_vm_hook
    hub_status (fun h => h) hub_cancel fuel timeout h.

Definition hub_wait (fuel : nat) (h : hub) : option (Blocking.result hub) :=
  Blocking.wait hub hub_poll_hook hub_vm_hook hub_end hub_cancel fuel h.

(** A counter driver with a single device that always reads [count];
    the driver state counts the calls. *)
Definition counter_get (id : Z) (dev : Z) (d : nat)
  : nat * (pbio_error_t * Z) := (S d, (PBIO_SUCCESS, id)).
Definition counter_read (count : Z) (dev : Z) (d : nat)
  : nat * (pbio_error_t * Z) := (S d, (PBIO_SUCCESS, count)).

Definition tacho_setup :=
  Tacho.pbio_tacho_setup nat Z (fun a b => Z.shiftr (a * b) 16)
    counter_get (counter_read 0) (counter_read 90).

Definition tacho_get :=
  Tacho.pbio_tacho_get nat Z (fun a b => Z.shiftr (a * b) 16)
    counter_get (counter_read 0) (counter_read 90) 65 68.

Definition blank_tacho : Tacho.pbio_tacho_t Z :=
  {| Tacho.direction := Tacho.PBIO_DIRECTION_CLOCKWISE;
     Tacho.offset := 0;
     Tacho.counts_per_degree := 0;
     Tacho.counts_per_output_unit := 0;
     Tacho.counter := 0 |}.

Definition fresh_io : Tacho.io nat :=
  {| Tacho.devices := O; Tacho.calls := [] |}.

End Sample.

(** ** The rest of the observer *)

(** Modelled from the spec: [pbio_int_math_sign] is declared in
    pbio/int_math.h, which is not part of the sources; the friction
    compensation takes the sign of the reference rate, which is -1, 0
    or 1. *)
Definition pbio_int_math_sign (a : Z) : Z :=
  if a =? 0 then 0 else if a >? 0 then 1 else -1.

Definition pbio_observer_get_feedforward_torque
    (m : pbio_observer_model_t) (rate_ref acceleration_ref : Z) : Z :=
  let friction_compensation_torque :=
    Int32.mul (Int32.div (torque_friction m) 2) (pbio_int_math_sign rate_ref) in
  let back_emf_compensation_torque :=
    Int32.div
      (Int32.mul PRESCALE_SPEED (pbio_int_math_clamp rate_ref MAX_NUM_SPEED))
      (d_torque_d_speed m) in
  let acceleration_torque :=
    Int32.div
      (Int32.mul PRESCALE_ACCELERATION
         (pbio_int_math_clamp acceleration_ref MAX_NUM_ACCELERATION))
      (d_torque_d_acceleration m) in
  (* Total feedforward torque *)
  pbio_int_math_clamp
    (Int32.add
       (Int32.add friction_compensation_torque back_emf_compensation_torque)
       acceleration_torque)
    MAX_NUM_TORQUE.

Section ObserverMirror.

Context {collab : Collaborators}.

(** The observer with another estimated speed. *)
Definition set_speed (obs : pbio_observer_t) (s : Z) : pbio_observer_t :=
  {| model := model obs;
     settings := settings obs;
     angle := angle obs;
     speed := s;
     current := current obs;
     speed_numeric := speed_numeric obs;
     stalled := stalled obs;
     stall_start := stall_start obs;
     differentiator := differentiator obs |}.

(** The friction torque term of the speed equation. *)
Definition friction_term (obs : pbio_observer_t) : Z :=
  term PRESCALE_TORQUE (update_torque obs) (d_speed_d_torque (model obs)).

(** What every observer of a run has in common with the first one. *)
Definition kept (obs o : pbio_observer_t) : Prop :=
  model o = model obs
  /\ settings o = settings obs
  /\ - MAX_NUM_SPEED <= speed o <= MAX_NUM_SPEED
  /\ - MAX_NUM_CURRENT <= current o <= MAX_NUM_CURRENT.

End ObserverMirror.

(** ** Tacho angles *)

Module TachoAngle.

Section WithDriver.

(** The fixed-point helpers of pbio/math.h are not part of the sources;
    they are parameters, like the counter driver. *)
Variable driver : Type.
Variable counter_dev : Type.
Variable pbdrv_counter_get_count :
  counter_dev -> driver -> driver * (pbio_error_t * Z).
Variable pbio_math_div_i32_fix16 : Z -> Z -> Z.
Variable pbio_math_mul_i32_fix16 : Z -> Z -> Z.

(** [pbio_tacho_get_angle]: the angle is written only on success. *)
Definition pbio_tacho_get_angle (tacho : Tacho.pbio_tacho_t counter_dev)
  : Tacho.M driver (pbio_error_t * option Z) :=
  Tacho.bind driver
    (Tacho.pbio_tacho_get_count driver counter_dev pbdrv_counter_get_count
       tacho)
    (fun r =>
       let '(err, encoder_count) := r in
       if negb (is_success err) then Tacho.ret driver (err, None)
       else
         Tacho.ret driver
           (PBIO_SUCCESS,
            Some (pbio_math_div_i32_fix16 encoder_count
                    (Tacho.counts_per_output_unit tacho)))).

Definition pbio_tacho_reset_angle
    (tacho : Tacho.pbio_tacho_t counter_dev) (reset_angle : Z)
  : Tacho.M driver (pbio_error_t * Tacho.pbio_tacho_t counter_dev) :=
  Tacho.pbio_tacho_reset_count driver counter_dev pbdrv_counter_get_count
    tacho
    (pbio_math_mul_i32_fix16 reset_angle
       (Tacho.counts_per_output_unit tacho)).

End WithDriver.

(** The count a tacho reports for the raw count [c] of its counter. *)
Definition reported_count {counter_dev : Type}
    (tacho : Tacho.pbio_tacho_t counter_dev) (c : Z) : Z :=
  Int32.sub
    (if Tacho.is_counterclockwise (Tacho.direction tacho)
     then Int32.neg c else c)
    (Tacho.offset tacho).

(** Two tachos with the same configuration, whatever their offsets. *)
Definition same_configuration {counter_dev : Type}
    (t1 t2 : Tacho.pbio_tacho_t counter_dev) : Prop :=
  Tacho.direction t1 = Tacho.direction t2
  /\ Tacho.counts_per_degree t1 = Tacho.counts_per_degree t2
  /\ Tacho.counts_per_output_unit t1 = Tacho.counts_per_output_unit t2
  /\ Tacho.counter t1 = Tacho.counter t2.

End TachoAngle.

Module SampleTacho.

(** A counter driver whose device can be absent and whose reads can
    fail; the driver state counts the calls. *)
Definition failing_get (err : pbio_error_t) (id : Z) (dev : Z) (d : nat)
  : nat * (pbio_error_t * Z) := (S d, (err, dev)).
Definition failing_read (err : pbio_error_t) (dev : Z) (d : nat)
  : nat * (pbio_error_t * Z) := (S d, (err, 0)).

(** Fixed-point helpers in 16.16 format. *)
Definition fix16_mul (a b : Z) : Z := Z.shiftr (a * b) 16.
Definition div_i32_fix16 (a b : Z) : Z := Z.quot (a * 65536) b.
Definition mul_i32_fix16 (a b : Z) : Z := Z.shiftr (a * b) 16.

(** A tacho turning counterclockwise with an offset of 40 counts and two
    counts per degree. *)
Definition reversed_tacho : Tacho.pbio_tacho_t Z :=
  {| Tacho.direction := Tacho.PBIO_DIRECTION_COUNTERCLOCKWISE;
     Tacho.offset := 40;
     Tacho.counts_per_degree := 131072;
     Tacho.counts_per_output_unit := 131072;
     Tacho.counter := 7 |}.

End SampleTacho.

(** ** Undisturbed waits and the mode setter *)

Module BlockingRuns.

Import Blocking.

Section WithWorld.

Variable world : Type.
Variable event_poll_hook : world -> world * option exn.
Variable vm_hook_loop : world -> world.
Variable end_ : world -> world * pbio_error_t.
Variable cancel : world -> world.

(** The world in which [wait] polls the operation for the time [n + 1],
    when the polls before saw "again" and no exception was delivered. *)
Fixpoint before_poll (n : nat) (w : world) : world :=
  match n with
  | O => w
  | S n' => before_poll n' (fst (event_poll_hook (fst (end_ w))))
  end.

(** The world in which the handler of [wait] polls the operation for
    the time [n + 1], when the polls before saw "again". *)
Fixpoint before_drain (n : nat) (w : world) : world :=
  match n with
  | O => w
  | S n' => before_drain n' (vm_hook_loop (fst (end_ w)))
  end.

(** The events of a wait that saw [n] times "again" and then the
    terminal [status], without an exception. *)
Fixpoint poll_events (n : nat) (status : pbio_error_t) : list event :=
  match n with
  | O => [EvStatus status]
  | S n' => EvStatus PBIO_ERROR_AGAIN :: EvPollHook :: poll_events n' status
  end.

(** [iodev->mode] and the start of a mode change
    ([pbio_iodev_set_mode_begin]) are parameters like the rest of the I/O
    device layer. *)
Variable mode : world -> Z.
Variable pbio_iodev_set_mode_begin : Z -> world -> world * pbio_error_t.

(** The world in which [pbio_iodev_set_mode_begin] is called for the
    time [n + 1], when the calls before returned "again". *)
Fixpoint before_begin (n : nat) (new_mode : Z) (w : world) : world :=
  match n with
  | O => w
  | S n' =>
      before_begin n' new_mode (fst (pbio_iodev_set_mode_begin new_mode w))
  end.

(** [while ((err = pbio_iodev_set_mode_begin(iodev, new_mode)) ==
    PBIO_ERROR_AGAIN);] *)
Fixpoint begin_spin (fuel : nat) (new_mode : Z) (w : world)
  : option (world * pbio_error_t) :=
  match fuel with
  | O => None
  | S fuel' =>
      let '(w1, err) := pbio_iodev_set_mode_begin new_mode w in
      if is_again err then begin_spin fuel' new_mode w1 else Some (w1, err)
  end.

(** [pb_iodevice_set_mode]; [end_] and [cancel] stand for
    [pbio_iodev_set_mode_end] and [pbio_iodev_set_mode_cancel]. *)
Definition pb_iodevice_set_mode (fuel : nat) (new_mode : Z) (w : world)
  : option (result world) :=
  if mode w =? new_mode then Some (Returned, w, [])
  else
    match begin_spin fuel new_mode w with
    | None => None
    | Some (w1, err) =>
        match pb_assert err with
        | Returned => wait world event_poll_hook vm_hook_loop end_ cancel fuel w1
        | raised => Some (raised, w1, [])
        end
    end.

End WithWorld.

End BlockingRuns.

(** ** The handset: notifications and buttons *)

Module Remote.

(** [uint8_t left[3]] and [uint8_t right[3]]. *)
Record triple : Set := { b0 : Z; b1 : Z; b2 : Z }.

(** The button state of [pb_remote_t]; its task and its connection
    context belong to the blocking connect above. *)
Record pb_remote_t : Set := {
  left : triple;
  right : triple;
  center : Z
}.

(** The state after [memset(remote, 0, sizeof( *remote))]. *)
Definition cleared : pb_remote_t :=
  {| left := {| b0 := 0; b1 := 0; b2 := 0 |};
     right := {| b0 := 0; b1 := 0; b2 := 0 |};
     center := 0 |}.

(** What [remote_button_is_pressed] does: it raises [OSError(ENODEV)] or
    returns [PBIO_SUCCESS] with the flags of the pressed buttons. *)
Inductive pressed_result : Set :=
| Raised_ENODEV
| Pressed (flags : Z).

Section WithConstants.

(** The message constants of lego_lwp3.h and the button flags of
    pbio/button.h are not part of the sources; they are parameters. *)
Variable LWP3_MSG_TYPE_HW_NET_CMDS : Z.
Variable LWP3_HW_NET_CMD_CONNECTION_REQ : Z.
Variable LWP3_MSG_TYPE_PORT_VALUE : Z.
Variable PBIO_BUTTON_LEFT_UP : Z.
Variable PBIO_BUTTON_LEFT : Z.
Variable PBIO_BUTTON_LEFT_DOWN : Z.
Variable PBIO_BUTTON_RIGHT_UP : Z.
Variable PBIO_BUTTON_RIGHT : Z.
Variable PBIO_BUTTON_RIGHT_DOWN : Z.
Variable PBIO_BUTTON_CENTER : Z.

(** [memcpy(dst, &value[4], 3)]; [None] when the message is shorter. *)
Definition copy3 (value : list Z) : option triple :=
  match nth_error value 4, nth_error value 5, nth_error value 6 with
  | Some x, Some y, Some z => Some {| b0 := x; b1 := y; b2 := z |}
  | _, _, _ => None
  end.

(** [value[0] == 5 && value[2] == LWP3_MSG_TYPE_HW_NET_CMDS &&
    value[3] == LWP3_HW_NET_CMD_CONNECTION_REQ], read from the left and
    only as far as needed; [None] when a byte that is read lies outside
    the message. *)
Definition is_connection_request (value : list Z) : option bool :=
  match nth_error value 0 with
  | None => None
  | Some v0 =>
      if v0 =? 5 then
        match nth_error value 2 with
        | None => None
        | Some v2 =>
            if v2 =? LWP3_MSG_TYPE_HW_NET_CMDS then
              match nth_error value 3 with
              | None => None
              | Some v3 => Some (v3 =? LWP3_HW_NET_CMD_CONNECTION_REQ)
              end
            else Some false
        end
      else Some false
  end.

(** [value[0] == 7 && value[2] == LWP3_MSG_TYPE_PORT_VALUE]. *)
Definition is_port_value (value : list Z) : option bool :=
  match nth_error value 0 with
  | None => None
  | Some v0 =>
      if v0 =? 7 then
        match nth_error value 2 with
        | None => None
        | Some v2 => Some (v2 =? LWP3_MSG_TYPE_PORT_VALUE)
        end
      else Some false
  end.

(** Handles LEGO Wireless protocol messages from the handset. The source
    does not look at the size of the message; [None] marks a read outside
    of it. *)
Definition handle_notification (remote : pb_remote_t) (value : list Z)
  : option pb_remote_t :=
  match is_connection_request value with
  | None => None
  | Some true =>
      (* This message is meant for something else, but contains the
         center button state *)
      match nth_error value 4 with
      | None => None
      | Some v4 =>
          Some {| left := left remote; right := right remote; center := v4 |}
      end
  | Some false =>
      match is_port_value value with
      | None => None
      | Some false => Some remote
      | Some true =>
          (* This assumes that the handset button ports have already
             been set to mode KEYSD *)
          match nth_error value 3 with
          | None => None
          | Some v3 =>
              if v3 =? 0 then
                match copy3 value with
                | None => None
                | Some t =>
                    Some {| left := t; right := right remote;
                            center := center remote |}
                end
              else if v3 =? 1 then
                match copy3 value with
                | None => None
                | Some t =>
                    Some {| left := left remote; right := t;
                            center := center remote |}
                end
              else Some remote
          end
      end
  end.

(** [if (byte) { *pressed |= flag; }] *)
Definition press (pressed byte flag : Z) : Z :=
  if byte =? 0 then pressed else Z.lor pressed flag.

(** [connected] is the answer of [pbdrv_bluetooth_is_connected] for the
    handset. *)
Definition remote_button_is_pressed (connected : bool) (remote : pb_remote_t)
  : pressed_result :=
  if negb connected then Raised_ENODEV
  else
    let pressed := 0 in
    let pressed := press pressed (b0 (left remote)) PBIO_BUTTON_LEFT_UP in
    let pressed := press pressed (b1 (left remote)) PBIO_BUTTON_LEFT in
    let pressed := press pressed (b2 (left remote)) PBIO_BUTTON_LEFT_DOWN in
    let pressed := press pressed (b0 (right remote)) PBIO_BUTTON_RIGHT_UP in
    let pressed := press pressed (b1 (right remote)) PBIO_BUTTON_RIGHT in
    let pressed := press pressed (b2 (right remote)) PBIO_BUTTON_RIGHT_DOWN in
    let pressed := press pressed (center remote) PBIO_BUTTON_CENTER in
    Pressed pressed.

End WithConstants.

(** Whether a byte of the button state is set. *)
Definition held (byte : Z) : bool := negb (byte =? 0).

(** Whether bit [n] is the flag of a held button, for the seven bit
    positions [k] of the flags in the order left up, left, left down,
    right up, right, right down, center. *)
Definition reported (k : list Z) (l r : triple) (c : Z) (n : Z) : bool :=
  (held (b0 l) && (n =? nth 0 k 0))
  || (held (b1 l) && (n =? nth 1 k 0))
  || (held (b2 l) && (n =? nth 2 k 0))
  || (held (b0 r) && (n =? nth 3 k 0))
  || (held (b1 r) && (n =? nth 4 k 0))
  || (held (b2 r) && (n =? nth 5 k 0))
  || (held c && (n =? nth 6 k 0)).

End Remote.

(** ** Light animations *)

Module Animation.

(** A pointer to an animation: [NULL], the marker
    [PBIO_LIGHT_ANIMATION_STOPPED], which is the address 1, or the address
    of an animation. *)
Inductive link : Set :=
| Null
| Stopped
| Anim (id : nat).

Definition link_eqb (p q : link) : bool :=
  match p, q with
  | Null, Null => true
  | Stopped, Stopped => true
  | Anim x, Anim y => Nat.eqb x y
  | _, _ => false
  end.

(** The calls to the Contiki process and timer library. *)
Inductive call : Set :=
| Call_process_start
| Call_process_exit
| Call_etimer_set (id : nat) (interval : Z)
| Call_etimer_stop (id : nat).

(** The list head, the [next_animation] and [next] fields of every
    animation, and the log of the library calls. *)
Record state : Type := {
  list_head : link;
  next_animation : nat -> link;
  next : nat -> nat;
  calls : list call
}.

(** How a function ends: normally, in a failed [assert], by reading a
    field through [NULL] or the stopped marker, or out of fuel. *)
Inductive outcome : Type :=
| Done (st : state)
| AssertFailed
| BadPointer
| OutOfFuel.

Definition upd {A : Type} (f : nat -> A) (a : nat) (v : A) : nat -> A :=
  fun x => if Nat.eqb x a then v else f x.

(** Initializes required fields of an animation data structure. *)
Definition pbio_light_animation_init (st : state) (a callback : nat)
  : state :=
  {| list_head := list_head st;
     next_animation := upd (next_animation st) a Stopped;
     next := upd (next st) a callback;
     calls := calls st |}.

(** Starts an animation in the background. *)
Definition pbio_light_animation_start (st : state) (a : nat) : outcome :=
  if negb (link_eqb (next_animation st a) Stopped) then AssertFailed
  else
    let st' :=
      {| list_head := Anim a;
         next_animation := upd (next_animation st) a (list_head st);
         next := next st;
         calls := calls st ++ [Call_process_start; Call_etimer_set a 0] |} in
    if link_eqb (next_animation st' a) Stopped then AssertFailed
    else Done st'.

(** The loop of [pbio_light_animation_stop] that looks for the animation
    in front of [a], from the pointer [p] on. *)
Fixpoint unlink (fuel : nat) (st : state) (p : link) (a : nat) : outcome :=
  match fuel with
  | O => OutOfFuel
  | S fuel' =>
      match p with
      | Null => Done st
      | Stopped => BadPointer
      | Anim x =>
          if link_eqb (next_animation st x) (Anim a) then
            Done {| list_head := list_head st;
                    next_animation :=
                      upd (next_animation st) x (next_animation st a);
                    next := next st;
                    calls := calls st |}
          else unlink fuel' st (next_animation st x) a
      end
  end.

(** Stops an animation. *)
Definition pbio_light_animation_stop (fuel : nat) (st : state) (a : nat)
  : outcome :=
  if link_eqb (list_head st) Null then AssertFailed
  else if link_eqb (next_animation st a) Stopped then AssertFailed
  else
    let st1 :=
      {| list_head := list_head st;
         next_animation := next_animation st;
         next := next st;
         calls := calls st ++ [Call_etimer_stop a] |} in
    let unlinked :=
      if link_eqb (list_head st1) (Anim a) then
        let h := next_animation st1 a in
        Done {| list_head := h;
                next_animation := next_animation st1;
                next := next st1;
                calls :=
                  if link_eqb h Null
                  then calls st1 ++ [Call_process_exit] else calls st1 |}
      else unlink fuel st1 (list_head st1) a in
    match unlinked with
    | Done st2 =>
        Done {| list_head := list_head st2;
                next_animation := upd (next_animation st2) a Stopped;
                next := next st2;
                calls := calls st2 |}
    | other => other
    end.

(** Stops all animations. *)
Fixpoint pbio_light_animation_stop_all (fuel : nat) (st : state) : outcome :=
  match fuel with
  | O => OutOfFuel
  | S fuel' =>
      match list_head st with
      | Null => Done st
      | Stopped => BadPointer
      | Anim a =>
          match pbio_light_animation_stop fuel' st a with
          | Done st' => pbio_light_animation_stop_all fuel' st'
          | other => other
          end
      end
  end.

(** Tests if the animation has been started. *)
Definition pbio_light_animation_is_started (st : state) (a : nat) : bool :=
  negb (link_eqb (next_animation st a) Stopped).

(** The pointers from [p] on visit the animations [l], in this order,
    and end in [NULL]. *)
Fixpoint chain (nx : nat -> link) (p : link) (l : list nat) : Prop :=
  match l with
  | [] => p = Null
  | x :: l' => p = Anim x /\ chain nx (nx x) l'
  end.

(** The state holds the started animations [l], most recently started
    first, and every other animation is marked as stopped. *)
Definition represents (st : state) (l : list nat) : Prop :=
  chain (next_animation st) (list_head st) l
  /\ NoDup l
  /\ forall x, ~ In x l -> next_animation st x = Stopped.

(** Two states with the same pointers and callbacks. *)
Definition same_pointers (st st' : state) : Prop :=
  list_head st' = list_head st
  /\ (forall x, next_animation st' x = next_animation st x)
  /\ (forall x, next st' x = next st x).

(** A state without a started animation. *)
Definition idle : state :=
  {| list_head := Null;
     next_animation := fun _ => Stopped;
     next := fun _ => O;
     calls := [] |}.

End Animation.

(** ** More concrete instances *)

Module SampleRuns.

Import Sample.

(** The slow motor of above, at rest. *)
Definition resting_observer : pbio_observer_t :=
  observer_at slow_model (settings_of 50000 200 1) origin 0.

(** A held motor whose stall flag was latched shortly before the tick
    counter wraps. *)
Definition late_observer : pbio_observer_t :=
  set_stall held_observer true 4294967290.

(** The motor is held, let go for one tick of coasting, and held again. *)
Definition held_twice : list update_call :=
  [held_call 500; idle_call 600 PBIO_DCMOTOR_ACTUATION_COAST].

(** A hub whose task succeeds on its own after some polls of the event
    loop; the state is the number of polls still needed. *)
Definition countdown_status (n : nat) : pbio_error_t :=
  match n with
  | O => PBIO_SUCCESS
  | S _ => PBIO_ERROR_AGAIN
  end.
Definition countdown_hook (n : nat) : nat * option Blocking.exn :=
  (pred n, None).
Definition countdown_end (n : nat) : nat * pbio_error_t :=
  (n, countdown_status n).

Definition countdown_connect (fuel : nat) (timeout : Z) (n : nat)
  : option (Blocking.result nat) :=
  Blocking.pb_remote_connect nat (fun _ => 0) countdown_hook (fun n => n)
    countdown_status (fun n => n) (fun n => n) fuel timeout n.

Definition countdown_wait (fuel : nat) (n : nat)
  : option (Blocking.result nat) :=
  Blocking.wait nat countdown_hook (fun n => n) countdown_end (fun n => n)
    fuel n.

(** A device in mode 0 whose mode change begins at once. *)
Definition countdown_set_mode (fuel : nat) (new_mode : Z) (n : nat)
  : option (Blocking.result nat) :=
  BlockingRuns.pb_iodevice_set_mode nat countdown_hook (fun n => n)
    countdown_end (fun n => n) (fun _ => 0)
    (fun _ n => (n, PBIO_SUCCESS)) fuel new_mode n.

(** A device in mode 0 that is busy for [n] calls of the begin of a mode
    change and then turns out to be gone. *)
Definition vanishing_begin (new_mode : Z) (n : nat) : nat * pbio_error_t :=
  (pred n,
   match n with
   | O => PBIO_ERROR_NO_DEV
   | S _ => PBIO_ERROR_AGAIN
   end).
Definition vanishing_set_mode (fuel : nat) (new_mode : Z) (n : nat)
  : option (Blocking.result nat) :=
  BlockingRuns.pb_iodevice_set_mode nat countdown_hook (fun n => n)
    countdown_end (fun n => n) (fun _ => 0) vanishing_begin
    fuel new_mode n.

(** The handset with the message constants 8, 2 and 69 and the button
    flags at the bits 7, 4, 1, 9, 6, 3 and 5. *)
Definition handset_handle :=
  Remote.handle_notification 8 2 69.
Definition handset_buttons :=
  Remote.remote_button_is_pressed (2 ^ 7) (2 ^ 4) (2 ^ 1) (2 ^ 9) (2 ^ 6)
    (2 ^ 3) (2 ^ 5).

(** Three animations started one after the other: 2, then 5, then 9. *)
Definition three_started : Animation.state :=
  {| Animation.list_head := Animation.Anim 9;
     Animation.next_animation :=
       fun x =>
         match x with
         | 9%nat => Animation.Anim 5
         | 5%nat => Animation.Anim 2
         | 2%nat => Animation.Null
         | _ => Animation.Stopped
         end;
     Animation.next := fun x => x;
     Animation.calls := [] |}.

End SampleRuns.

(** * Properties *)

(** ** Facts about the 32-bit arithmetic *)

Lemma wrap_in_range (z : Z) : Int32.in_range (Int32.wrap z).
Proof.
  unfold Int32.in_range, Int32.wrap, Int32.min_signed, Int32.max_signed.
  pose proof (Z.mod_pos_bound (z + 2 ^ 31) (2 ^ 32)) as B.
  lia.
Qed.

Lemma wrap_small (z : Z) : Int32.in_range z -> Int32.wrap z = z.
Proof.
  unfold Int32.in_range, Int32.wrap, Int32.min_signed, Int32.max_signed.
  intros R. rewrite Z.mod_small by lia. lia.
Qed.

Lemma wrap_add_l (a b : Z) :
  Int32.wrap (Int32.wrap a + b) = Int32.wrap (a + b).
Proof.
  unfold Int32.wrap. f_equal.
  replace ((a + 2 ^ 31) mod 2 ^ 32 - 2 ^ 31 + b + 2 ^ 31)
    with ((a + 2 ^ 31) mod 2 ^ 32 + b) by lia.
  rewrite Zplus_mod_idemp_l. f_equal. lia.
Qed.

Lemma sum4_exact (a b c d : Z) :
  Int32.in_range (a + b + c + d) -> sum4 a b c d = a + b + c + d.
Proof.
  intros R. unfold sum4, Int32.add.
  rewrite Z.add_0_l.
  rewrite (wrap_add_l a b), (wrap_add_l (a + b) c), (wrap_add_l (a + b + c) d).
  now apply wrap_small.
Qed.

Lemma div_in_range (a b : Z) : Int32.in_range (Int32.div a b).
Proof. apply wrap_in_range. Qed.

Lemma usub_small (t T : Z) :
  0 <= T <= t -> t < 2 ^ 32 -> Int32.usub t T = t - T.
Proof. intros H1 H2. unfold Int32.usub. apply Z.mod_small. lia. Qed.

Lemma clamp_bounds (v m : Z) :
  0 <= m -> - m <= pbio_int_math_clamp v m <= m.
Proof.
  intros Hm. unfold pbio_int_math_clamp.
  destruct (Z.gtb_spec v m); [lia|].
  destruct (Z.ltb_spec v (- m)); lia.
Qed.

Lemma clamp_inside (v m : Z) :
  - m <= v <= m -> pbio_int_math_clamp v m = v.
Proof.
  intros H. unfold pbio_int_math_clamp.
  destruct (Z.gtb_spec v m); [lia|].
  destruct (Z.ltb_spec v (- m)); lia.
Qed.

Lemma clamp_negative (v m : Z) :
  0 < m -> (pbio_int_math_clamp v m <? 0) = (v <? 0).
Proof.
  intros Hm. unfold pbio_int_math_clamp.
  destruct (Z.gtb_spec v m); [|destruct (Z.ltb_spec v (- m))];
    apply Bool.eq_iff_eq_true; rewrite !Z.ltb_lt; lia.
Qed.

Lemma quot_abs_le (x d : Z) : Z.abs (Z.quot x d) <= Z.abs x.
Proof.
  destruct (Z.eq_dec d 0) as [->|Hd].
  - destruct x; cbn; lia.
  - rewrite <- Z.quot_abs by assumption.
    rewrite Z.quot_div_nonneg by lia.
    apply Z.div_le_upper_bound; [lia|].
    assert (1 <= Z.abs d) by lia.
    assert (0 <= Z.abs x) by lia. nia.
Qed.

Lemma clamp_toward_zero (v m : Z) :
  0 < m ->
  (v < 0 -> v <= pbio_int_math_clamp v m < 0)
  /\ (0 <= v -> 0 <= pbio_int_math_clamp v m <= v).
Proof.
  intros Hm. unfold pbio_int_math_clamp.
  destruct (Z.gtb_spec v m); [lia|].
  destruct (Z.ltb_spec v (- m)); lia.
Qed.

Lemma clamp_above (v m : Z) : v > m -> pbio_int_math_clamp v m = m.
Proof.
  intros H. unfold pbio_int_math_clamp.
  destruct (Z.gtb_spec v m); [reflexivity|lia].
Qed.

Lemma clamp_below (v m : Z) :
  0 <= m -> v < - m -> pbio_int_math_clamp v m = - m.
Proof.
  intros Hm H. unfold pbio_int_math_clamp.
  destruct (Z.gtb_spec v m); [lia|].
  destruct (Z.ltb_spec v (- m)); [reflexivity|lia].
Qed.

(** ** The observer *)

Section ObserverProperties.

Context {collab : Collaborators}.

Implicit Types (obs : pbio_observer_t) (a : pbio_angle_t).

(** An update takes its stall flag and stall start from
    [update_stall_state] and leaves model and settings alone. *)
Lemma update_stall_fields obs time a actuation voltage :
  let obs' := pbio_observer_update obs time a actuation voltage in
  let st := update_stall_state obs time actuation voltage
              (pbio_observer_get_feedback_voltage obs a) in
  stalled obs' = stalled st /\ stall_start obs' = stall_start st
  /\ settings obs' = settings obs /\ model obs' = model obs.
Proof.
  cbv zeta. unfold pbio_observer_update.
  destruct (pbio_differentiator_get_speed (differentiator obs) a).
  cbn. auto.
Qed.

(** The three ways [update_stall_state] can end. *)
Lemma update_stall_state_cases obs time actuation voltage fb :
  let st := update_stall_state obs time actuation voltage fb in
  (stalled st = false /\ stall_start st = stall_start obs)
  \/ (stalled st = true /\ stalled obs = true
      /\ stall_start st = stall_start obs)
  \/ (stalled st = true /\ stalled obs = false /\ stall_start st = time).
Proof.
  cbv zeta. unfold update_stall_state.
  destruct (negb (is_voltage actuation)); [left; cbn; auto|].
  destruct (voltage <? 0);
    match goal with
    | |- context [if ?c then _ else _] => destruct c
    end; cbn; destruct (stalled obs); cbn; auto.
Qed.

Lemma update_not_voltage obs time a actuation voltage :
  is_voltage actuation = false ->
  stalled (pbio_observer_update obs time a actuation voltage) = false.
Proof.
  intros Hv.
  destruct (update_stall_fields obs time a actuation voltage) as [-> _].
  unfold update_stall_state. rewrite Hv. reflexivity.
Qed.

(** While the flag stays raised the latched start does not move. *)
Lemma run_keeps_latch (cs : list update_call) : forall obs,
  stalled obs = true ->
  stalled_throughout obs cs = true ->
  stalled (run obs cs) = true
  /\ stall_start (run obs cs) = stall_start obs
  /\ settings (run obs cs) = settings obs.
Proof.
  induction cs as [|c cs IH]; intros obs Hs Hall; cbn in *.
  - auto.
  - apply andb_prop in Hall. destruct Hall as [Hc Hrest].
    destruct (IH (step obs c) Hc Hrest) as (R1 & R2 & R3).
    fold (run (step obs c) cs). rewrite R1, R2, R3.
    unfold step in *.
    destruct (update_stall_fields obs (call_time c) (call_angle c)
                (call_actuation c) (call_voltage c)) as (E1 & E2 & E3 & _).
    rewrite E2, E3. rewrite E1 in Hc.
    destruct (update_stall_state_cases obs (call_time c)
                (call_actuation c) (call_voltage c)
                (pbio_observer_get_feedback_voltage obs (call_angle c)))
      as [[F _]|[(_ & _ & F)|(_ & F & _)]]; try congruence.
    auto.
Qed.

(** A rising edge latches the time of the call. *)
Lemma step_rising_edge obs (c : update_call) :
  stalled obs = false ->
  stalled (step obs c) = true ->
  stall_start (step obs c) = call_time c
  /\ settings (step obs c) = settings obs.
Proof.
  intros Hs Hc. unfold step in *.
  destruct (update_stall_fields obs (call_time c) (call_angle c)
              (call_actuation c) (call_voltage c)) as (E1 & E2 & E3 & _).
  rewrite E2, E3. rewrite E1 in Hc.
  destruct (update_stall_state_cases obs (call_time c)
              (call_actuation c) (call_voltage c)
              (pbio_observer_get_feedback_voltage obs (call_angle c)))
    as [[F _]|[(_ & F & _)|(_ & _ & F)]]; try congruence.
  auto.
Qed.

(** C1, as the code has it: when the stall flag is clear before the
    update at tick [T], is raised by it and stays raised through the
    following updates, [pbio_observer_is_stalled] at a later time [t]
    returns true exactly when [t - T] is greater than [stall_time], that
    is from [T + stall_time + 1] on, and then reports the duration
    [t - T]; otherwise it returns false and reports 0. *)
Theorem stall_latency obs (c : update_call) (cs : list update_call) (t : Z) :
  stalled obs = false ->
  stalled_throughout obs (c :: cs) = true ->
  0 <= call_time c <= t -> t < 2 ^ 32 ->
  pbio_observer_is_stalled (run obs (c :: cs)) t
  = if t - call_time c >? stall_time (settings obs)
    then (true, t - call_time c)
    else (false, 0).
Proof.
  intros Hclear Hall Ht Hmax. cbn in Hall.
  apply andb_prop in Hall. destruct Hall as [Hc Hrest].
  destruct (step_rising_edge obs c Hclear Hc) as [L1 L2].
  destruct (run_keeps_latch cs (step obs c) Hc Hrest) as (R1 & R2 & R3).
  unfold pbio_observer_is_stalled. cbn [run fold_left].
  fold (run (step obs c) cs).
  rewrite R1, R2, R3, L1, L2, usub_small by assumption.
  cbn. reflexivity.
Qed.

Lemma states_not_stalled (cs : list update_call) : forall obs,
  Forall (fun c => is_voltage (call_actuation c) = false) cs ->
  Forall (fun o => stalled o = false) (states obs cs).
Proof.
  induction cs as [|c cs IH]; intros obs Hall; cbn.
  - constructor.
  - inversion Hall as [|? ? Hc Hcs]; subst. constructor.
    + now apply update_not_voltage.
    + now apply IH.
Qed.

(** C5: through every sequence of [pbio_observer_update] calls whose
    actuation is never VOLTAGE, the stall flag is false after every
    call, whatever the other arguments and the observer before. *)
Theorem non_voltage_never_stalls obs (cs : list update_call) :
  Forall (fun c => call_actuation c <> PBIO_DCMOTOR_ACTUATION_VOLTAGE) cs ->
  Forall (fun o => stalled o = false) (states obs cs).
Proof.
  intros Hall. apply states_not_stalled.
  eapply Forall_impl; [|exact Hall].
  intros c Hc. cbn in Hc. destruct (call_actuation c); try reflexivity.
  now elim Hc.
Qed.

(** The local [torque] of an update is half the static friction torque
    of the model, positive when the estimated speed is positive and
    negative otherwise. *)
Lemma update_torque_half obs :
  - Int32.max_signed <= torque_friction (model obs) <= Int32.max_signed ->
  update_torque obs
  = if speed obs >? 0 then Z.quot (torque_friction (model obs)) 2
    else - Z.quot (torque_friction (model obs)) 2.
Proof.
  intros R. unfold update_torque, Int32.div, Int32.neg.
  set (tf := torque_friction (model obs)) in *.
  assert (Rq : Int32.in_range (Z.quot tf 2)).
  { unfold Int32.in_range, Int32.max_signed, Int32.min_signed in *.
    pose proof (Z.quot_le_mono (- (2 ^ 31 - 1)) tf 2 ltac:(lia) ltac:(lia)).
    pose proof (Z.quot_le_mono tf (2 ^ 31 - 1) 2 ltac:(lia) ltac:(lia)).
    change (Z.quot (- (2 ^ 31 - 1)) 2) with (-1073741823) in *.
    change (Z.quot (2 ^ 31 - 1) 2) with 1073741823 in *. lia. }
  assert (Rn : Int32.in_range (- tf)).
  { unfold Int32.in_range, Int32.max_signed, Int32.min_signed in *. lia. }
  assert (Rnq : Int32.in_range (- Z.quot tf 2)).
  { unfold Int32.in_range, Int32.max_signed, Int32.min_signed in *.
    pose proof (Z.quot_le_mono (- (2 ^ 31 - 1)) tf 2 ltac:(lia) ltac:(lia)).
    pose proof (Z.quot_le_mono tf (2 ^ 31 - 1) 2 ltac:(lia) ltac:(lia)).
    change (Z.quot (- (2 ^ 31 - 1)) 2) with (-1073741823) in *.
    change (Z.quot (2 ^ 31 - 1) 2) with 1073741823 in *. lia. }
  rewrite (wrap_small (- tf)) by assumption.
  rewrite Z.quot_opp_l by lia.
  rewrite (wrap_small (Z.quot tf 2)), (wrap_small (- Z.quot tf 2))
    by assumption.
  reflexivity.
Qed.

(** C6: the torque every update uses is half the static friction torque
    of the model, positive when the estimated speed is positive and
    negative otherwise, whatever the voltage; an estimated speed of
    exactly zero takes the negative half. The angle, the current and the
    speed that [pbio_observer_update] commits are the state equations
    with this torque in their torque terms, and the friction guard tests
    the speed less the torque term of this torque. *)
Theorem friction_torque_follows_speed obs (time : Z) a actuation
    (voltage : Z) :
  - Int32.max_signed <= torque_friction (model obs) <= Int32.max_signed ->
  let m := model obs in
  let torque :=
    if speed obs >? 0 then Z.quot (torque_friction m) 2
    else - Z.quot (torque_friction m) 2 in
  let v := model_voltage obs a voltage in
  let obs' := pbio_observer_update obs time a actuation voltage in
  let speed_next :=
    pbio_int_math_clamp
      (sum4 (term PRESCALE_SPEED (speed obs) (d_speed_d_speed m))
            (term PRESCALE_CURRENT (current obs) (d_speed_d_current m))
            (term PRESCALE_VOLTAGE v (d_speed_d_voltage m))
            (term PRESCALE_TORQUE torque (d_speed_d_torque m)))
      MAX_NUM_SPEED in
  angle obs'
  = pbio_angle_add_mdeg (angle obs)
      (Int32.add
         (Int32.add
            (Int32.add
               (term PRESCALE_SPEED (speed obs) (d_angle_d_speed m))
               (term PRESCALE_CURRENT (current obs) (d_angle_d_current m)))
            (term PRESCALE_VOLTAGE v (d_angle_d_voltage m)))
         (term PRESCALE_TORQUE torque (d_angle_d_torque m)))
  /\ current obs'
     = pbio_int_math_clamp
         (sum4 (term PRESCALE_SPEED (speed obs) (d_current_d_speed m))
               (term PRESCALE_CURRENT (current obs) (d_current_d_current m))
               (term PRESCALE_VOLTAGE v (d_current_d_voltage m))
               (term PRESCALE_TORQUE torque (d_current_d_torque m)))
         MAX_NUM_CURRENT
  /\ speed obs'
     = if negb (Bool.eqb
                  (speed_next <? 0)
                  (Int32.sub speed_next
                     (term PRESCALE_TORQUE torque (d_speed_d_torque m))
                   <? 0))
       then 0 else speed_next.
Proof.
  intros R. cbv zeta. rewrite <- (update_torque_half obs R).
  unfold pbio_observer_update, model_voltage.
  destruct (pbio_differentiator_get_speed (differentiator obs) a).
  cbn [angle current speed]. auto.
Qed.

(** C10: whenever [pbio_observer_is_stalled] returns false it reports
    the duration 0; it returns false with duration 0 when the stall flag
    is clear, when the flag has not been raised for longer than
    [stall_time], and right after [pbio_observer_reset]. *)
Theorem not_stalled_reports_zero obs a (time : Z) :
  (fst (pbio_observer_is_stalled obs time) = false ->
   snd (pbio_observer_is_stalled obs time) = 0)
  /\ (stalled obs = false ->
      pbio_observer_is_stalled obs time = (false, 0))
  /\ (Int32.usub time (stall_start obs) <= stall_time (settings obs) ->
      pbio_observer_is_stalled obs time = (false, 0))
  /\ pbio_observer_is_stalled (pbio_observer_reset obs a) time = (false, 0).
Proof.
  unfold pbio_observer_is_stalled. repeat split.
  - destruct (stalled obs && _); cbn; [discriminate|reflexivity].
  - intros ->. reflexivity.
  - intros Hle.
    destruct (Z.gtb_spec (Int32.usub time (stall_start obs))
                (stall_time (settings obs))); [lia|].
    now rewrite andb_false_r.
Qed.






(** The speed and the current an update commits. *)
Lemma update_speed_current obs time a actuation voltage :
  let obs' := pbio_observer_update obs time a actuation voltage in
  let v := model_voltage obs a voltage in
  let clamped := pbio_int_math_clamp (speed_sum obs v) MAX_NUM_SPEED in
  speed obs' = (if zero_crossing obs clamped then 0 else clamped)
  /\ current obs'
     = pbio_int_math_clamp (current_sum obs v) MAX_NUM_CURRENT.
Proof.
  cbv zeta. unfold pbio_observer_update, model_voltage.
  destruct (pbio_differentiator_get_speed (differentiator obs) a).
  cbn. auto.
Qed.

(** The guard fires when the clamped speed and the speed less the
    torque term lie on different sides of zero. *)
Lemma zero_crossing_fires obs (s d : Z) :
  d = term PRESCALE_TORQUE (update_torque obs)
        (d_speed_d_torque (model obs)) ->
  Int32.in_range s ->
  (s <? 0) <> (s - d <? 0) ->
  zero_crossing obs (pbio_int_math_clamp s MAX_NUM_SPEED) = true.
Proof.
  intros Hd Rs Hdiff. unfold zero_crossing. rewrite <- Hd.
  assert (Rd : Int32.in_range d) by (subst d; apply div_in_range).
  rewrite clamp_negative by (unfold MAX_NUM_SPEED; lia).
  pose proof (clamp_bounds s MAX_NUM_SPEED ltac:(unfold MAX_NUM_SPEED; lia))
    as B.
  destruct (clamp_toward_zero s MAX_NUM_SPEED
              ltac:(unfold MAX_NUM_SPEED; lia)) as [Hcl Hcr].
  unfold Int32.sub.
  unfold Int32.in_range, Int32.min_signed, Int32.max_signed in *.
  unfold MAX_NUM_SPEED in B.
  destruct (Z.ltb_spec s 0) as [Hn|Hn];
    destruct (Z.ltb_spec (s - d) 0) as [Hm|Hm]; try (now elim Hdiff).
  - specialize (Hcl Hn).
    rewrite wrap_small
      by (unfold Int32.in_range, Int32.min_signed, Int32.max_signed; lia).
    destruct (Z.ltb_spec (pbio_int_math_clamp s MAX_NUM_SPEED - d) 0);
      [lia|reflexivity].
  - specialize (Hcr Hn).
    rewrite wrap_small
      by (unfold Int32.in_range, Int32.min_signed, Int32.max_signed; lia).
    destruct (Z.ltb_spec (pbio_int_math_clamp s MAX_NUM_SPEED - d) 0);
      [reflexivity|lia].
Qed.

(** C3, as the code has it: in an update whose speed sums fit 32 bits,
    when the new speed with the friction torque term is negative and the
    new speed without it is not negative, or the other way round, the
    committed speed is exactly 0. Zero counts as not negative: when the
    two are on the same side in this sense and the speed with the torque
    term is within [MAX_NUM_SPEED], that speed is committed as it is, so
    a speed of exactly 0 without the torque term and a positive one with
    it is not set to 0. *)
Theorem zero_crossing_guard obs (time : Z) a actuation (voltage : Z) :
  let v := model_voltage obs a voltage in
  Int32.in_range (speed_without_torque obs v) ->
  Int32.in_range (speed_with_torque obs v) ->
  ((speed_with_torque obs v <? 0) <> (speed_without_torque obs v <? 0) ->
   speed (pbio_observer_update obs time a actuation voltage) = 0)
  /\ ((speed_with_torque obs v <? 0) = (speed_without_torque obs v <? 0) ->
      - MAX_NUM_SPEED <= speed_with_torque obs v <= MAX_NUM_SPEED ->
      speed (pbio_observer_update obs time a actuation voltage)
      = speed_with_torque obs v).
Proof.
  intros v R0 R1.
  destruct (update_speed_current obs time a actuation voltage) as [-> _].
  fold v.
  assert (E : speed_sum obs v = speed_with_torque obs v).
  { unfold speed_sum, speed_with_torque, speed_without_torque in *.
    cbv zeta. now apply sum4_exact. }
  rewrite E. split.
  - intros Hdiff.
    rewrite (zero_crossing_fires obs (speed_with_torque obs v)
               (term PRESCALE_TORQUE (update_torque obs)
                  (d_speed_d_torque (model obs)))); try easy.
    replace (speed_with_torque obs v
             - term PRESCALE_TORQUE (update_torque obs)
                 (d_speed_d_torque (model obs)))
      with (speed_without_torque obs v)
      by (unfold speed_with_torque; lia).
    exact Hdiff.
  - intros Hsame Hin. rewrite (clamp_inside _ _ Hin).
    unfold zero_crossing, Int32.sub.
    replace (speed_with_torque obs v
             - term PRESCALE_TORQUE (update_torque obs)
                 (d_speed_d_torque (model obs)))
      with (speed_without_torque obs v)
      by (unfold speed_with_torque; lia).
    rewrite (wrap_small _ R0), Hsame, Bool.eqb_reflx. reflexivity.
Qed.

(** C4, as the code has it: after every update the committed speed lies
    within [MAX_NUM_SPEED] and the committed current within
    [MAX_NUM_CURRENT]; a current sum beyond its bound is committed as
    exactly that bound; a speed sum beyond its bound is committed as
    exactly that bound unless the zero-crossing guard fires on the
    bound, and then the committed speed is 0. *)
Theorem clamp_invariant obs (time : Z) a actuation (voltage : Z) :
  let obs' := pbio_observer_update obs time a actuation voltage in
  let v := model_voltage obs a voltage in
  - MAX_NUM_SPEED <= speed obs' <= MAX_NUM_SPEED
  /\ - MAX_NUM_CURRENT <= current obs' <= MAX_NUM_CURRENT
  /\ (current_sum obs v > MAX_NUM_CURRENT ->
      current obs' = MAX_NUM_CURRENT)
  /\ (current_sum obs v < - MAX_NUM_CURRENT ->
      current obs' = - MAX_NUM_CURRENT)
  /\ (speed_sum obs v > MAX_NUM_SPEED ->
      speed obs'
      = if zero_crossing obs MAX_NUM_SPEED then 0 else MAX_NUM_SPEED)
  /\ (speed_sum obs v < - MAX_NUM_SPEED ->
      speed obs'
      = if zero_crossing obs (- MAX_NUM_SPEED) then 0 else - MAX_NUM_SPEED).
Proof.
  intros obs' v.
  destruct (update_speed_current obs time a actuation voltage) as [Es Ec].
  fold obs' v in Es, Ec. rewrite Es, Ec.
  pose proof (clamp_bounds (speed_sum obs v) MAX_NUM_SPEED
                ltac:(unfold MAX_NUM_SPEED; lia)) as Bs.
  pose proof (clamp_bounds (current_sum obs v) MAX_NUM_CURRENT
                ltac:(unfold MAX_NUM_CURRENT; lia)) as Bc.
  repeat split; try lia.
  - destruct (zero_crossing obs _); unfold MAX_NUM_SPEED in *; lia.
  - destruct (zero_crossing obs _); unfold MAX_NUM_SPEED in *; lia.
  - intros H. now apply clamp_above.
  - intros H. apply clamp_below; [unfold MAX_NUM_CURRENT|]; lia.
  - intros H. now rewrite clamp_above.
  - intros H. rewrite clamp_below; [reflexivity|unfold MAX_NUM_SPEED|]; lia.
Qed.

(** The two conversions on a torque and a voltage within their ranges. *)
Lemma torque_to_voltage_exact (m : pbio_observer_model_t) (t : Z) :
  - MAX_NUM_TORQUE <= t <= MAX_NUM_TORQUE ->
  pbio_observer_torque_to_voltage m t
  = Z.quot (PRESCALE_TORQUE * t) (d_voltage_d_torque m).
Proof.
  intros Ht. unfold pbio_observer_torque_to_voltage, Int32.div, Int32.mul.
  rewrite clamp_inside by assumption.
  assert (R : Z.abs (PRESCALE_TORQUE * t) <= Int32.max_signed).
  { unfold Int32.max_signed, PRESCALE_TORQUE, MAX_NUM_TORQUE in *. lia. }
  pose proof (quot_abs_le (PRESCALE_TORQUE * t) (d_voltage_d_torque m)).
  unfold Int32.max_signed in *.
  rewrite (wrap_small (PRESCALE_TORQUE * t))
    by (unfold Int32.in_range, Int32.min_signed, Int32.max_signed; lia).
  apply wrap_small.
  unfold Int32.in_range, Int32.min_signed, Int32.max_signed. lia.
Qed.

Lemma voltage_to_torque_exact (m : pbio_observer_model_t) (v : Z) :
  - MAX_NUM_VOLTAGE <= v <= MAX_NUM_VOLTAGE ->
  pbio_observer_voltage_to_torque m v
  = Z.quot (PRESCALE_VOLTAGE * v) (d_torque_d_voltage m).
Proof.
  intros Hv. unfold pbio_observer_voltage_to_torque, Int32.div, Int32.mul.
  rewrite clamp_inside by assumption.
  assert (R : Z.abs (PRESCALE_VOLTAGE * v) <= Int32.max_signed).
  { unfold Int32.max_signed, PRESCALE_VOLTAGE, MAX_NUM_VOLTAGE in *. lia. }
  pose proof (quot_abs_le (PRESCALE_VOLTAGE * v) (d_torque_d_voltage m)).
  unfold Int32.max_signed in *.
  rewrite (wrap_small (PRESCALE_VOLTAGE * v))
    by (unfold Int32.in_range, Int32.min_signed, Int32.max_signed; lia).
  apply wrap_small.
  unfold Int32.in_range, Int32.min_signed, Int32.max_signed. lia.
Qed.

(** Two truncating divisions in a row, on a non-negative value. *)
Lemma round_trip_nonneg (p q a b u : Z) :
  0 < a -> 0 < b -> 0 < p -> 0 < q -> a * b = p * q -> 0 <= u ->
  let u' := (q * ((p * u) / a)) / b in
  0 <= u' <= u /\ b * (u - u') < b + q.
Proof.
  intros Ha Hb Hp Hq Hab Hu u'.
  set (v := (p * u) / a) in *.
  assert (Hv1 : a * v <= p * u) by (apply Z.mul_div_le; lia).
  assert (Hv2 : p * u < a * (v + 1))
    by (pose proof (Z.mul_succ_div_gt (p * u) a Ha); unfold v; lia).
  assert (Hv0 : 0 <= v) by (apply Z.div_pos; nia).
  assert (Hu1 : b * u' <= q * v) by (apply Z.mul_div_le; lia).
  assert (Hu2 : q * v < b * (u' + 1))
    by (pose proof (Z.mul_succ_div_gt (q * v) b Hb); unfold u'; lia).
  assert (Hu0 : 0 <= u') by (apply Z.div_pos; nia).
  assert (Hle : a * (b * u') <= a * (b * u)).
  { replace (a * (b * u)) with (q * (p * u)) by nia.
    transitivity (a * (q * v)); [nia|]. nia. }
  assert (Hlt : a * (b * u) < a * (b * u' + b + q)).
  { replace (a * (b * u)) with (q * (p * u)) by nia.
    apply Z.lt_le_trans with (q * (a * (v + 1))); [nia|]. nia. }
  split; [split; [assumption|nia]|nia].
Qed.

(** C7, as the code has it: for a model with positive conversion
    coefficients whose product is the product of the two prescale
    constants, and a torque within [MAX_NUM_TORQUE] whose voltage lies
    within [MAX_NUM_VOLTAGE], the round trip returns a torque of the
    same sign, no larger in magnitude, and short of the original by less
    than [1 + PRESCALE_VOLTAGE / d_torque_d_voltage]. *)
Theorem torque_voltage_round_trip (m : pbio_observer_model_t) (t : Z) :
  0 < d_voltage_d_torque m ->
  0 < d_torque_d_voltage m ->
  d_voltage_d_torque m * d_torque_d_voltage m
  = PRESCALE_TORQUE * PRESCALE_VOLTAGE ->
  - MAX_NUM_TORQUE <= t <= MAX_NUM_TORQUE ->
  - MAX_NUM_VOLTAGE <= pbio_observer_torque_to_voltage m t
    <= MAX_NUM_VOLTAGE ->
  let t' :=
    pbio_observer_voltage_to_torque m
      (pbio_observer_torque_to_voltage m t) in
  Z.abs t' <= Z.abs t
  /\ 0 <= t * t'
  /\ d_torque_d_voltage m * Z.abs (t - t')
     < d_torque_d_voltage m + PRESCALE_VOLTAGE.
Proof.
  intros Ha Hb Hab Ht Hv t'. subst t'.
  rewrite voltage_to_torque_exact by assumption.
  rewrite torque_to_voltage_exact in * by assumption.
  set (a := d_voltage_d_torque m) in *.
  set (b := d_torque_d_voltage m) in *.
  destruct (Z_le_gt_dec 0 t) as [Hpos|Hneg].
  - rewrite (Z.quot_div_nonneg (PRESCALE_TORQUE * t) a)
      by (unfold PRESCALE_TORQUE; lia).
    assert (0 <= PRESCALE_TORQUE * t / a)
      by (apply Z.div_pos; unfold PRESCALE_TORQUE; lia).
    rewrite Z.quot_div_nonneg by (unfold PRESCALE_VOLTAGE; lia).
    destruct (round_trip_nonneg PRESCALE_TORQUE PRESCALE_VOLTAGE a b t)
      as [[B0 B1] B2]; try assumption;
      try (unfold PRESCALE_TORQUE, PRESCALE_VOLTAGE; lia).
    cbv zeta in *. nia.
  - replace (PRESCALE_TORQUE * t) with (- (PRESCALE_TORQUE * - t)) by lia.
    rewrite Z.quot_opp_l by lia.
    rewrite (Z.quot_div_nonneg (PRESCALE_TORQUE * - t) a)
      by (unfold PRESCALE_TORQUE; lia).
    assert (0 <= PRESCALE_TORQUE * - t / a)
      by (apply Z.div_pos; unfold PRESCALE_TORQUE; lia).
    rewrite Z.mul_opp_r, Z.quot_opp_l by lia.
    rewrite Z.quot_div_nonneg by (unfold PRESCALE_VOLTAGE; lia).
    destruct (round_trip_nonneg PRESCALE_TORQUE PRESCALE_VOLTAGE a b (- t))
      as [[B0 B1] B2]; try assumption;
      try (unfold PRESCALE_TORQUE, PRESCALE_VOLTAGE; lia).
    cbv zeta in *. nia.
Qed.

End ObserverProperties.

(** ** Tacho setup *)

Section TachoProperties.

Variables (driver counter_dev : Type).
Variable fix16_mul : Z -> Z -> Z.
Variable pbdrv_counter_get :
  Z -> counter_dev -> driver -> driver * (pbio_error_t * counter_dev).
Variables pbdrv_counter_get_abs_count pbdrv_counter_get_count :
  counter_dev -> driver -> driver * (pbio_error_t * Z).
Variables first_port last_port : Z.

Local Abbreviation setup :=
  (Tacho.pbio_tacho_setup driver counter_dev fix16_mul pbdrv_counter_get
     pbdrv_counter_get_abs_count pbdrv_counter_get_count).
Local Abbreviation get :=
  (Tacho.pbio_tacho_get driver counter_dev fix16_mul pbdrv_counter_get
     pbdrv_counter_get_abs_count pbdrv_counter_get_count
     first_port last_port).

Lemma store_same (l : list (Tacho.pbio_tacho_t counter_dev)) :
  forall i t, nth_error l i = Some t -> Tacho.store counter_dev i t l = l.
Proof.
  induction l as [|x l IH]; intros [|i] t H; cbn in *;
    try discriminate.
  - now inversion H.
  - now rewrite IH.
Qed.

(** C9: with a negative gear ratio or a negative counts-per-degree
    factor [pbio_tacho_setup] returns [PBIO_ERROR_INVALID_ARG], leaves
    the tacho as it was and makes no call to the counter driver; so does
    [pbio_tacho_get] for a motor port, on the whole array. *)
Theorem tacho_setup_rejects_negative
    (tacho : Tacho.pbio_tacho_t counter_dev) (counter_id : Z)
    (dir : Tacho.pbio_direction_t) (cpd gear_ratio : Z)
    (s : Tacho.io driver) :
  gear_ratio < 0 \/ cpd < 0 ->
  setup tacho counter_id dir cpd gear_ratio s
  = (PBIO_ERROR_INVALID_ARG, tacho, s)
  /\ forall tachos port,
       first_port <= port <= last_port ->
       nth_error tachos (Z.to_nat (port - first_port)) = Some tacho ->
       get tachos port dir cpd gear_ratio s
       = (Some (PBIO_ERROR_INVALID_ARG,
                Some (Z.to_nat (port - first_port)), tachos), s).
Proof.
  intros Hneg.
  assert (E : (gear_ratio <? 0) || (cpd <? 0) = true).
  { apply orb_true_iff. rewrite !Z.ltb_lt. exact Hneg. }
  assert (Es : setup tacho counter_id dir cpd gear_ratio s
               = (PBIO_ERROR_INVALID_ARG, tacho, s)).
  { unfold Tacho.pbio_tacho_setup. rewrite E. reflexivity. }
  split; [exact Es|].
  intros tachos port Hport Hnth.
  unfold Tacho.pbio_tacho_get.
  destruct (Z.ltb_spec port first_port); [lia|].
  destruct (Z.gtb_spec port last_port); [lia|].
  cbn [orb]. rewrite Hnth.
  unfold Tacho.bind, Tacho.pbio_tacho_setup. rewrite E.
  unfold Tacho.ret. now rewrite store_same.
Qed.

End TachoProperties.

(** ** Blocking wrappers *)

Section BlockingProperties.

Import Blocking.

Variable world : Type.
Variable mp_hal_ticks_ms : world -> Z.
Variable event_poll_hook : world -> world * option exn.
Variable vm_hook_loop : world -> world.

Lemma last_status_app (xs ys : list event) : forall acc,
  last_status (xs ++ ys) acc = last_status ys (last_status xs acc).
Proof.
  induction xs as [|x xs IH]; intros acc; cbn; [reflexivity|].
  destruct x; apply IH.
Qed.

Lemma last_status_acc (l : list event) : forall x y,
  last_status l x = last_status l y
  \/ (last_status l x = x /\ last_status l y = y).
Proof.
  induction l as [|c l IH]; intros x y; cbn; [now right|].
  destruct c; auto.
Qed.

Lemma last_status_found (l : list event) (acc : option pbio_error_t) s :
  last_status l None = Some s -> last_status l acc = Some s.
Proof.
  intros H. destruct (last_status_acc l None acc) as [E|[E _]].
  - now rewrite <- E.
  - rewrite E in H. discriminate.
Qed.

Lemma last_status_drain (n : nat) (s : pbio_error_t) : forall acc,
  last_status (drain_events n s) acc = Some s.
Proof. induction n as [|n IH]; intros acc; cbn; auto. Qed.

Local Abbreviation polled_at := (polled world event_poll_hook).
Local Abbreviation hooks := (after_hooks world vm_hook_loop).
Local Abbreviation within := (within_timeout world mp_hal_ticks_ms).

Section Remote.

Variable task_status : world -> pbio_error_t.
Variable scan_and_connect : world -> world.
Variable pbio_task_cancel : world -> world.

Local Abbreviation poll :=
  (connect_poll world mp_hal_ticks_ms event_poll_hook task_status).
Local Abbreviation drain := (connect_drain world vm_hook_loop task_status).

(** The protected loop never cancels, and it finishes only on a status
    other than "again", read from the world it ends in. *)
Lemma connect_poll_sound (fuel : nat) (timeout start : Z) :
  forall w p w' evs,
    poll fuel timeout start w = Some (p, w', evs) ->
    no_cancel evs = true
    /\ forall status, p = Finished status ->
         status = task_status w' /\ is_again status = false.
Proof.
  induction fuel as [|fuel IH]; intros w p w' evs H; cbn in H;
    [discriminate|].
  destruct (within timeout start w).
  - destruct (event_poll_hook w) as [w1 [e|]].
    + inversion H; subst. split; [reflexivity|]. discriminate.
    + destruct (is_again (task_status w1)) eqn:Ha; cbn in H.
        destruct (poll fuel timeout start w1) as [[[p2 w2] evs2]|] eqn:Hr;
          [|discriminate].
        inversion H; subst.
        destruct (IH _ _ _ _ Hr) as [Hc Hf]. split; [exact Hc|exact Hf].
      * inversion H; subst. split; [reflexivity|].
        intros status Hs. inversion Hs; subst. auto.
  - inversion H; subst. split; [reflexivity|]. discriminate.
Qed.

(** The handler loop ends on the first status other than "again". *)
Lemma connect_drain_sound (fuel : nat) : forall w w' evs,
  drain fuel w = Some (w', evs) ->
  is_again (task_status w') = false
  /\ exists n, evs = drain_events n (task_status w')
               /\ w' = after_hooks world vm_hook_loop n w.
Proof.
  induction fuel as [|fuel IH]; intros w w' evs H; cbn in H;
    [discriminate|].
  destruct (is_again (task_status w)) eqn:Ha.
    destruct (drain fuel (vm_hook_loop w)) as [[w2 evs2]|] eqn:Hr;
      [|discriminate].
    inversion H; subst.
    destruct (IH _ _ _ Hr) as [Hd [n [He Hw]]].
    split; [exact Hd|]. exists (S n). cbn. split; [|exact Hw].
    destruct (task_status w); try discriminate. now rewrite He.
  - inversion H; subst. split; [exact Ha|]. now exists O.
Qed.

(** The handler loop returns once the task has left "again". *)
Lemma connect_drain_returns (n : nat) : forall w,
  is_again (task_status (after_hooks world vm_hook_loop n w)) = false ->
  exists w' evs, drain (S n) w = Some (w', evs).
Proof.
  induction n as [|n IH]; intros w H; cbn in *.
  - rewrite H. eauto.
  - destruct (is_again (task_status w)); [|eauto].
    destruct (IH _ H) as [w' [evs E]]. cbn in E. rewrite E. eauto.
Qed.

(** The handler loop of a task that stays at "again" for [m] runs of
    the event loop and has left it after that. *)
Lemma connect_drain_exact (m : nat) : forall w fuel,
  (forall j, (j < m)%nat -> task_status (hooks j w) = PBIO_ERROR_AGAIN) ->
  is_again (task_status (hooks m w)) = false ->
  (m < fuel)%nat ->
  drain fuel w = Some (hooks m w, drain_events m (task_status (hooks m w))).
Proof.
  induction m as [|m IH]; intros w fuel Hag Hterm Hf;
    (destruct fuel as [|fuel]; [lia|]); cbn [connect_drain].
  - cbn in Hterm. cbn. now rewrite Hterm.
  - pose proof (Hag O ltac:(lia)) as H0. cbn in H0. rewrite H0. cbn.
    rewrite (IH (vm_hook_loop w) fuel); [reflexivity| |exact Hterm|lia].
    intros j Hj. exact (Hag (S j) ltac:(lia)).
Qed.

(** [n] rounds of the protected loop in which the time is not up, no
    exception is delivered and the task stays at "again". *)
Lemma connect_poll_rounds (n : nat) (timeout start : Z) :
  forall w fuel p wa tail,
    (forall i, (i < n)%nat ->
       within timeout start (polled_at i w) = true
       /\ snd (event_poll_hook (polled_at i w)) = None
       /\ task_status (fst (event_poll_hook (polled_at i w)))
          = PBIO_ERROR_AGAIN) ->
    (n < fuel)%nat ->
    (forall f, poll (S f) timeout start (polled_at n w)
               = Some (p, wa, tail)) ->
    poll fuel timeout start w = Some (p, wa, connect_polls n ++ tail).
Proof.
  induction n as [|n IH]; intros w fuel p wa tail Hq Hf Hlast;
    (destruct fuel as [|fuel]; [lia|]).
  - exact (Hlast fuel).
  - destruct (Hq O ltac:(lia)) as (Hw & Hn & Hs). cbn [polled] in Hw, Hn, Hs.
    cbn [connect_poll]. rewrite Hw.
    destruct (event_poll_hook w) as [w1 pending] eqn:Eh.
    cbn [fst snd] in Hn, Hs. subst pending. rewrite Hs.
    cbn [is_again negb].
    rewrite (IH w1 fuel p wa tail); [reflexivity| |lia|].
    + intros i Hi. specialize (Hq (S i) ltac:(lia)).
      cbn [polled] in Hq. rewrite Eh in Hq. exact Hq.
    + intros f. specialize (Hlast f). cbn [polled] in Hlast.
      rewrite Eh in Hlast. exact Hlast.
Qed.

Lemma pb_remote_connect_sound (fuel : nat) (timeout : Z) :
  forall w out w' evs,
    pb_remote_connect world mp_hal_ticks_ms event_poll_hook vm_hook_loop
      task_status scan_and_connect pbio_task_cancel fuel timeout w
    = Some (out, w', evs) ->
    is_again (task_status w') = false
    /\ (no_cancel evs = true -> out = pb_assert (task_status w'))
    /\ (no_cancel evs = false ->
        drained_after_cancel evs (task_status w')
        /\ exists e, out = Reraised e).
Proof.
  intros w out w' evs H. unfold pb_remote_connect in H.
  destruct (poll fuel timeout (mp_hal_ticks_ms (scan_and_connect w))
              (scan_and_connect w)) as [[[p w1] evs1]|] eqn:Hp;
    [|discriminate].
  destruct (connect_poll_sound _ _ _ _ _ _ _ Hp) as [Hc Hf].
  destruct p as [status|e].
  - inversion H; subst. destruct (Hf status eq_refl) as [-> Ha].
    split; [exact Ha|]. split; [reflexivity|].
    intros Hn. rewrite Hc in Hn. discriminate.
  - destruct (drain fuel (pbio_task_cancel w1)) as [[w2 evs2]|] eqn:Hd;
      [|discriminate].
    inversion H; subst.
    destruct (connect_drain_sound _ _ _ _ Hd) as [Ha [n [He _]]].
    split; [exact Ha|]. split.
    + unfold no_cancel. rewrite forallb_app. cbn.
      rewrite andb_false_r. discriminate.
    + intros _. split; [|now exists e].
      split; [exact Ha|]. exists evs1, n. now rewrite He.
Qed.

(** The connect with [n] quiet rounds of polling, then an abort that
    leaves the protected block with [e] in the world [wa], then a task
    that needs [m] runs of the event loop to leave "again". *)
Lemma pb_remote_connect_aborted (n m : nat) (timeout : Z) :
  forall w fuel e wa tail,
    (forall i, (i < n)%nat ->
       within timeout (mp_hal_ticks_ms (scan_and_connect w))
         (polled_at i (scan_and_connect w)) = true
       /\ snd (event_poll_hook (polled_at i (scan_and_connect w))) = None
       /\ task_status
            (fst (event_poll_hook (polled_at i (scan_and_connect w))))
          = PBIO_ERROR_AGAIN) ->
    (forall f, poll (S f) timeout (mp_hal_ticks_ms (scan_and_connect w))
                 (polled_at n (scan_and_connect w))
               = Some (Unwound e, wa, tail)) ->
    (forall j, (j < m)%nat ->
       task_status (hooks j (pbio_task_cancel wa)) = PBIO_ERROR_AGAIN) ->
    is_again (task_status (hooks m (pbio_task_cancel wa))) = false ->
    (n < fuel)%nat -> (m < fuel)%nat ->
    pb_remote_connect world mp_hal_ticks_ms event_poll_hook vm_hook_loop
      task_status scan_and_connect pbio_task_cancel fuel timeout w
    = Some (Reraised e, hooks m (pbio_task_cancel wa),
            (connect_polls n ++ tail)
            ++ EvCancel
               :: drain_events m
                    (task_status (hooks m (pbio_task_cancel wa)))).
Proof.
  intros w fuel e wa tail Hq Hlast Hag Hterm Hn Hm.
  unfold pb_remote_connect.
  rewrite (connect_poll_rounds n timeout _ _ fuel _ _ _ Hq Hn Hlast).
  now rewrite (connect_drain_exact m _ fuel Hag Hterm Hm).
Qed.

End Remote.

Section Wait.

Variable end_ : world -> world * pbio_error_t.
Variable cancel : world -> world.

Local Abbreviation poll := (wait_poll world event_poll_hook end_).
Local Abbreviation drain := (wait_drain world vm_hook_loop end_).
Local Abbreviation before :=
  (BlockingRuns.before_poll world event_poll_hook end_).
Local Abbreviation draining :=
  (BlockingRuns.before_drain world vm_hook_loop end_).

(** The protected loop never cancels; it finishes on the last status
    it saw, which is not "again" and which the operation returned
    together with the world the loop ends in. *)
Lemma wait_poll_sound (fuel : nat) : forall w p w' evs,
  poll fuel w = Some (p, w', evs) ->
  no_cancel evs = true
  /\ forall status, p = Finished status ->
       last_status evs None = Some status /\ is_again status = false
       /\ exists v, end_ v = (w', status).
Proof.
  induction fuel as [|fuel IH]; intros w p w' evs H; cbn in H;
    [discriminate|].
  destruct (end_ w) as [w1 err] eqn:Ew.
  destruct (is_again err) eqn:Ha.
  - destruct (event_poll_hook w1) as [w2 [e|]].
    + inversion H; subst. split; [reflexivity|]. discriminate.
    + destruct (poll fuel w2) as [[[p3 w3] evs3]|] eqn:Hr;
        [|discriminate].
      inversion H; subst.
      destruct (IH _ _ _ _ Hr) as [Hc Hf]. split; [exact Hc|].
      intros status Hs. destruct (Hf status Hs) as (Hl & Hn & Hv).
      split; [|split; [exact Hn|exact Hv]].
      change (EvStatus err :: EvPollHook :: evs3)
        with ([EvStatus err; EvPollHook] ++ evs3).
      rewrite last_status_app. now apply last_status_found.
  - inversion H; subst. split; [reflexivity|].
    intros status Hs. inversion Hs; subst.
    split; [reflexivity|]. split; [exact Ha|]. now exists w.
Qed.

(** The handler loop ends on the first status other than "again". *)
Lemma wait_drain_sound (fuel : nat) : forall w w' evs,
  drain fuel w = Some (w', evs) ->
  exists n status,
    evs = drain_events n status /\ is_again status = false
    /\ exists v, end_ v = (w', status).
Proof.
  induction fuel as [|fuel IH]; intros w w' evs H; cbn in H;
    [discriminate|].
  destruct (end_ w) as [w1 err] eqn:Ew.
  destruct (is_again err) eqn:Ha.
  - destruct (drain fuel (vm_hook_loop w1)) as [[w2 evs2]|] eqn:Hr;
      [|discriminate].
    inversion H; subst.
    destruct (IH _ _ _ Hr) as (n & status & He & Hs & Hv).
    exists (S n), status. cbn. split; [|split; [exact Hs|exact Hv]].
    destruct err; try discriminate. now rewrite He.
  - inversion H; subst. exists O, err.
    split; [reflexivity|]. split; [exact Ha|]. now exists w.
Qed.

(** The handler loop of an operation that reports "again" [m] times
    and then the terminal [status]. *)
Lemma wait_drain_exact (m : nat) : forall w fuel status,
  (forall j, (j < m)%nat ->
     snd (end_ (draining j w)) = PBIO_ERROR_AGAIN) ->
  snd (end_ (draining m w)) = status ->
  is_again status = false ->
  (m < fuel)%nat ->
  drain fuel w = Some (fst (end_ (draining m w)), drain_events m status).
Proof.
  induction m as [|m IH]; intros w fuel status Hag Hlast Hterm Hf;
    (destruct fuel as [|fuel]; [lia|]); cbn [wait_drain].
  - cbn in Hlast. cbn. destruct (end_ w) as [w1 err]. cbn in *.
    subst err. now rewrite Hterm.
  - pose proof (Hag O ltac:(lia)) as H0. cbn in H0.
    cbn [BlockingRuns.before_drain] in *.
    destruct (end_ w) as [w1 err] eqn:Ew. cbn [fst snd] in *. subst err.
    cbn [is_again].
    rewrite (IH (vm_hook_loop w1) fuel status);
      [reflexivity| |exact Hlast|exact Hterm|lia].
    intros j Hj. specialize (Hag (S j) ltac:(lia)).
    cbn [BlockingRuns.before_drain] in Hag. rewrite Ew in Hag. exact Hag.
Qed.

(** [n] rounds of the protected loop in which the operation reports
    "again" and no exception is delivered. *)
Lemma wait_poll_rounds (n : nat) : forall w fuel p wa tail,
  (forall i, (i < n)%nat ->
     snd (end_ (before i w)) = PBIO_ERROR_AGAIN
     /\ snd (event_poll_hook (fst (end_ (before i w)))) = None) ->
  (n < fuel)%nat ->
  (forall f, poll (S f) (before n w) = Some (p, wa, tail)) ->
  poll fuel w = Some (p, wa, wait_polls n ++ tail).
Proof.
  induction n as [|n IH]; intros w fuel p wa tail Hq Hf Hlast;
    (destruct fuel as [|fuel]; [lia|]).
  - exact (Hlast fuel).
  - destruct (Hq O ltac:(lia)) as (Ha & Hn).
    cbn [BlockingRuns.before_poll] in Ha, Hn.
    cbn [wait_poll].
    destruct (end_ w) as [w1 err] eqn:Ew. cbn [fst snd] in Ha, Hn.
    subst err. cbn [is_again].
    destruct (event_poll_hook w1) as [w2 pending] eqn:Eh.
    cbn [snd] in Hn. subst pending.
    rewrite (IH w2 fuel p wa tail); [reflexivity| |lia|].
    + intros i Hi. specialize (Hq (S i) ltac:(lia)).
      cbn [BlockingRuns.before_poll] in Hq. rewrite Ew in Hq.
      cbn [fst] in Hq. rewrite Eh in Hq. exact Hq.
    + intros f. specialize (Hlast f).
      cbn [BlockingRuns.before_poll] in Hlast. rewrite Ew in Hlast.
      cbn [fst] in Hlast. rewrite Eh in Hlast. exact Hlast.
Qed.

Lemma wait_sound (fuel : nat) : forall w out w' evs,
  wait world event_poll_hook vm_hook_loop end_ cancel fuel w
  = Some (out, w', evs) ->
  exists status v,
    end_ v = (w', status)
    /\ last_status evs None = Some status
    /\ is_again status = false
    /\ (no_cancel evs = true -> out = pb_assert status)
    /\ (no_cancel evs = false ->
        drained_after_cancel evs status /\ exists e, out = Reraised e).
Proof.
  intros w out w' evs H. unfold wait in H.
  destruct (poll fuel w) as [[[p w1] evs1]|] eqn:Hp; [|discriminate].
  destruct (wait_poll_sound _ _ _ _ _ Hp) as [Hc Hf].
  destruct p as [status|e].
  - inversion H; subst. destruct (Hf status eq_refl) as (Hl & Ha & v & Hv).
    exists status, v. split; [exact Hv|]. split; [exact Hl|].
    split; [exact Ha|]. split; [reflexivity|].
    intros Hn. rewrite Hc in Hn. discriminate.
  - destruct (drain fuel (cancel w1)) as [[w2 evs2]|] eqn:Hd;
      [|discriminate].
    inversion H; subst.
    destruct (wait_drain_sound _ _ _ _ Hd) as (n & status & He & Ha & v & Hv).
    exists status, v. subst evs2. split; [exact Hv|]. split.
    + rewrite last_status_app. cbn. apply last_status_drain.
    + split; [exact Ha|]. split.
      * unfold no_cancel. rewrite forallb_app. cbn.
        rewrite andb_false_r. discriminate.
      * intros _. split; [|now exists e].
        split; [exact Ha|]. now exists evs1, n.
Qed.

(** The wait with [n] quiet rounds of polling, then a round in which an
    exception is delivered, then an operation that reports "again" [m]
    times to the handler before its terminal [status]. *)
Lemma wait_aborted (n m : nat) : forall w fuel e status,
  (forall i, (i < n)%nat ->
     snd (end_ (before i w)) = PBIO_ERROR_AGAIN
     /\ snd (event_poll_hook (fst (end_ (before i w)))) = None) ->
  snd (end_ (before n w)) = PBIO_ERROR_AGAIN ->
  snd (event_poll_hook (fst (end_ (before n w)))) = Some e ->
  (forall j, (j < m)%nat ->
     snd (end_ (draining j
                  (cancel (fst (event_poll_hook (fst (end_ (before n w))))))))
     = PBIO_ERROR_AGAIN) ->
  snd (end_ (draining m
               (cancel (fst (event_poll_hook (fst (end_ (before n w))))))))
  = status ->
  is_again status = false ->
  (n < fuel)%nat -> (m < fuel)%nat ->
  wait world event_poll_hook vm_hook_loop end_ cancel fuel w
  = Some (Reraised e,
          fst (end_ (draining m
                       (cancel
                          (fst (event_poll_hook (fst (end_ (before n w)))))))),
          wait_polls (S n) ++ EvCancel :: drain_events m status).
Proof.
  intros w fuel e status Hq Hag He Hd Hlast Hterm Hn Hm.
  unfold wait.
  rewrite (wait_poll_rounds n w fuel (Unwound e)
             (fst (event_poll_hook (fst (end_ (before n w)))))
             [EvStatus PBIO_ERROR_AGAIN; EvPollHook] Hq Hn).
  - rewrite (wait_drain_exact m _ fuel status Hd Hlast Hterm Hm).
    replace (wait_polls n ++ [EvStatus PBIO_ERROR_AGAIN; EvPollHook])
      with (wait_polls (S n)); [reflexivity|].
    clear. induction n as [|n IH]; [reflexivity|].
    cbn [wait_polls app] in *. now rewrite <- IH.
  - intros f. cbn [wait_poll].
    destruct (end_ (before n w)) as [w1 err]. cbn [fst snd] in *.
    subst err. cbn [is_again].
    destruct (event_poll_hook w1) as [w2 pending]. cbn [fst snd] in *.
    now subst pending.
Qed.

End Wait.

(** C8: the blocking wrappers abort by cancelling, draining and only
    then raising. For [pb_remote_connect] whose loop runs [n] quiet
    rounds (time not up, no exception, task at "again") and is then left
    because the time is up (first part) or because the event loop
    delivers an exception (second part), and for [wait] whose loop is
    left by an exception after [n] quiet rounds (third part): when the
    cancelled task then stays at "again" for [m] more polls, the wrapper
    with enough fuel ends by re-raising that very exception, in the
    world reached by one call of the cancel function followed by the
    [m] runs of the event loop, with the log: the polls, one cancel, the
    drain up to the first status that is not "again", and nothing after
    it. The fourth and fifth part say that no run of either wrapper
    leaves the task at "again": whenever a wrapper ends, the status of
    the task in the final world is not "again"; a run without a cancel
    ended through [pb_assert] on that status, and a run with a cancel
    drained the task after it and ended by re-raising. *)
Theorem blocking_wrappers_drain :
  (forall task_status scan_and_connect pbio_task_cancel
          (timeout : Z) (w : world) (n m fuel : nat),
      let w0 := scan_and_connect w in
      let start := mp_hal_ticks_ms w0 in
      let wc := pbio_task_cancel (polled_at n w0) in
      (forall i, (i < n)%nat ->
         within timeout start (polled_at i w0) = true
         /\ snd (event_poll_hook (polled_at i w0)) = None
         /\ task_status (fst (event_poll_hook (polled_at i w0)))
            = PBIO_ERROR_AGAIN) ->
      within timeout start (polled_at n w0) = false ->
      (forall j, (j < m)%nat -> task_status (hooks j wc) = PBIO_ERROR_AGAIN) ->
      is_again (task_status (hooks m wc)) = false ->
      (n < fuel)%nat -> (m < fuel)%nat ->
      pb_remote_connect world mp_hal_ticks_ms event_poll_hook vm_hook_loop
        task_status scan_and_connect pbio_task_cancel fuel timeout w
      = Some (Reraised OSError_ETIMEDOUT, hooks m wc,
              connect_polls n
              ++ EvCancel :: drain_events m (task_status (hooks m wc))))
  /\ (forall task_status scan_and_connect pbio_task_cancel
             (timeout : Z) (w : world) (n m fuel : nat) (e : exn),
        let w0 := scan_and_connect w in
        let start := mp_hal_ticks_ms w0 in
        let wc := pbio_task_cancel
                    (fst (event_poll_hook (polled_at n w0))) in
        (forall i, (i < n)%nat ->
           within timeout start (polled_at i w0) = true
           /\ snd (event_poll_hook (polled_at i w0)) = None
           /\ task_status (fst (event_poll_hook (polled_at i w0)))
              = PBIO_ERROR_AGAIN) ->
        within timeout start (polled_at n w0) = true ->
        snd (event_poll_hook (polled_at n w0)) = Some e ->
        (forall j, (j < m)%nat ->
           task_status (hooks j wc) = PBIO_ERROR_AGAIN) ->
        is_again (task_status (hooks m wc)) = false ->
        (n < fuel)%nat -> (m < fuel)%nat ->
        pb_remote_connect world mp_hal_ticks_ms event_poll_hook vm_hook_loop
          task_status scan_and_connect pbio_task_cancel fuel timeout w
        = Some (Reraised e, hooks m wc,
                connect_polls n
                ++ EvPollHook
                   :: EvCancel
                   :: drain_events m (task_status (hooks m wc))))
  /\ (forall end_ cancel (w : world) (n m fuel : nat) (e : exn)
             (status : pbio_error_t),
        let before := BlockingRuns.before_poll world event_poll_hook end_ in
        let draining := BlockingRuns.before_drain world vm_hook_loop end_ in
        let wc := cancel (fst (event_poll_hook (fst (end_ (before n w))))) in
        (forall i, (i < n)%nat ->
           snd (end_ (before i w)) = PBIO_ERROR_AGAIN
           /\ snd (event_poll_hook (fst (end_ (before i w)))) = None) ->
        snd (end_ (before n w)) = PBIO_ERROR_AGAIN ->
        snd (event_poll_hook (fst (end_ (before n w)))) = Some e ->
        (forall j, (j < m)%nat ->
           snd (end_ (draining j wc)) = PBIO_ERROR_AGAIN) ->
        snd (end_ (draining m wc)) = status ->
        is_again status = false ->
        (n < fuel)%nat -> (m < fuel)%nat ->
        wait world event_poll_hook vm_hook_loop end_ cancel fuel w
        = Some (Reraised e, fst (end_ (draining m wc)),
                wait_polls (S n) ++ EvCancel :: drain_events m status))
  /\ (forall task_status scan_and_connect pbio_task_cancel fuel timeout
             w out w' evs,
        pb_remote_connect world mp_hal_ticks_ms event_poll_hook vm_hook_loop
          task_status scan_and_connect pbio_task_cancel fuel timeout w
        = Some (out, w', evs) ->
        is_again (task_status w') = false
        /\ (no_cancel evs = true -> out = pb_assert (task_status w'))
        /\ (no_cancel evs = false ->
            drained_after_cancel evs (task_status w')
            /\ exists e, out = Reraised e))
  /\ (forall end_ cancel fuel w out w' evs,
        wait world event_poll_hook vm_hook_loop end_ cancel fuel w
        = Some (out, w', evs) ->
        exists status v,
          end_ v = (w', status)
          /\ last_status evs None = Some status
          /\ is_again status = false
          /\ (no_cancel evs = true -> out = pb_assert status)
          /\ (no_cancel evs = false ->
              drained_after_cancel evs status
              /\ exists e, out = Reraised e)).
Proof.
  split; [|split; [|split; [|split]]].
  - intros task_status scan_and_connect pbio_task_cancel timeout w n m fuel
      w0 start wc Hq Hup Hag Hterm Hn Hm.
    rewrite (pb_remote_connect_aborted task_status scan_and_connect
               pbio_task_cancel n m timeout w fuel OSError_ETIMEDOUT
               (polled_at n w0) [] Hq); try assumption.
    + now rewrite app_nil_r.
    + intros f. cbn [connect_poll]. fold w0 start. now rewrite Hup.
  - intros task_status scan_and_connect pbio_task_cancel timeout w n m fuel
      e w0 start wc Hq Hin He Hag Hterm Hn Hm.
    rewrite (pb_remote_connect_aborted task_status scan_and_connect
               pbio_task_cancel n m timeout w fuel e
               (fst (event_poll_hook (polled_at n w0))) [EvPollHook] Hq);
      try assumption.
    + now rewrite <- app_assoc.
    + intros f. cbn [connect_poll]. fold w0 start. rewrite Hin.
      destruct (event_poll_hook (polled_at n w0)) as [w1 pending].
      cbn [fst snd] in *. now subst pending.
  - intros end_ cancel w n m fuel e status before draining wc.
    apply wait_aborted.
  - intros. eapply pb_remote_connect_sound; eassumption.
  - intros. eapply wait_sound; eassumption.
Qed.

End BlockingProperties.

(** ** Concrete runs *)

Section Runs.

Import Sample.

(** C1: the motor is held from tick 1000 on and the stall time is 200
    ticks; at tick 1200, which is [T + stall_time],
    [pbio_observer_is_stalled] still returns false. *)
Lemma stall_latency_counterexample :
  stalled held_observer = false
  /\ stalled_throughout held_observer [held_call 1000; held_call 1100] = true
  /\ stall_time (settings held_observer) = 200
  /\ pbio_observer_is_stalled
       (run held_observer [held_call 1000; held_call 1100]) (1000 + 200)
     = (false, 0).
Proof. repeat split. Qed.

Lemma stall_latency_witness :
  stalled held_observer = false
  /\ stalled_throughout held_observer [held_call 1000; held_call 1100] = true
  /\ 0 <= call_time (held_call 1000) <= 1201
  /\ 1201 < 2 ^ 32
  /\ pbio_observer_is_stalled
       (run held_observer [held_call 1000; held_call 1100]) 1201
     = (true, 201).
Proof.
  assert (H1 : stalled held_observer = false) by reflexivity.
  assert (H2 : stalled_throughout held_observer
                 [held_call 1000; held_call 1100] = true) by reflexivity.
  assert (H3 : 0 <= call_time (held_call 1000) <= 1201)
    by (split; discriminate).
  assert (H4 : 1201 < 2 ^ 32) by reflexivity.
  repeat (split; [assumption|]).
  exact (stall_latency held_observer (held_call 1000) [held_call 1100] 1201
           H1 H2 H3 H4).
Defined.


Lemma zero_crossing_guard_witness :
  Int32.in_range
    (speed_without_torque slow_observer
       (model_voltage slow_observer origin 0))
  /\ Int32.in_range
       (speed_with_torque slow_observer
          (model_voltage slow_observer origin 0))
  /\ speed_without_torque slow_observer
       (model_voltage slow_observer origin 0) = 100
  /\ speed_with_torque slow_observer
       (model_voltage slow_observer origin 0) = -100
  /\ speed (pbio_observer_update slow_observer 0 origin
              PBIO_DCMOTOR_ACTUATION_VOLTAGE 0) = 0.
Proof.
  assert (H1 : Int32.in_range
                 (speed_without_torque slow_observer
                    (model_voltage slow_observer origin 0)))
    by (split; discriminate).
  assert (H2 : Int32.in_range
                 (speed_with_torque slow_observer
                    (model_voltage slow_observer origin 0)))
    by (split; discriminate).
  assert (H3 : (speed_with_torque slow_observer
                  (model_voltage slow_observer origin 0) <? 0)
               <> (speed_without_torque slow_observer
                     (model_voltage slow_observer origin 0) <? 0))
    by discriminate.
  split; [exact H1|]. split; [exact H2|].
  split; [reflexivity|]. split; [reflexivity|].
  exact (proj1 (zero_crossing_guard slow_observer 0 origin
                  PBIO_DCMOTOR_ACTUATION_VOLTAGE 0 H1 H2) H3).
Defined.

(** C3: for this motor at rest the new speed without the friction
    torque term is 0 and the new speed with it is 200, so the signs
    differ; the committed speed is 200, not 0. *)
Lemma zero_crossing_guard_counterexample :
  speed_without_torque SampleRuns.resting_observer
    (model_voltage SampleRuns.resting_observer origin 0) = 0
  /\ speed_with_torque SampleRuns.resting_observer
       (model_voltage SampleRuns.resting_observer origin 0) = 200
  /\ Z.sgn 200 <> Z.sgn 0
  /\ speed (pbio_observer_update SampleRuns.resting_observer 0 origin
              PBIO_DCMOTOR_ACTUATION_VOLTAGE 0) = 200.
Proof.
  split; [reflexivity|]. split; [reflexivity|].
  split; [discriminate|reflexivity].
Qed.

(** C4: the speed sum of this update is 4294000, beyond the bound of
    2500000, and the committed speed is 0, not the bound. *)
Lemma clamp_invariant_counterexample :
  speed_sum sticky_observer (model_voltage sticky_observer origin 0)
  = 4294000
  /\ 4294000 > MAX_NUM_SPEED
  /\ speed (pbio_observer_update sticky_observer 0 origin
              PBIO_DCMOTOR_ACTUATION_VOLTAGE 0) = 0
  /\ 0 <> MAX_NUM_SPEED.
Proof. repeat split. discriminate. Qed.

Lemma clamp_invariant_witness :
  speed_sum fast_observer (model_voltage fast_observer origin 0)
  > MAX_NUM_SPEED
  /\ speed (pbio_observer_update fast_observer 0 origin
              PBIO_DCMOTOR_ACTUATION_VOLTAGE 0) = MAX_NUM_SPEED.
Proof.
  assert (H : speed_sum fast_observer (model_voltage fast_observer origin 0)
              > MAX_NUM_SPEED) by reflexivity.
  split; [exact H|].
  exact (proj1 (proj2 (proj2 (proj2 (proj2
           (clamp_invariant fast_observer 0 origin
              PBIO_DCMOTOR_ACTUATION_VOLTAGE 0))))) H).
Defined.

Lemma non_voltage_never_stalls_witness :
  Forall (fun c => call_actuation c <> PBIO_DCMOTOR_ACTUATION_VOLTAGE)
    [idle_call 0 PBIO_DCMOTOR_ACTUATION_COAST;
     idle_call 1 PBIO_DCMOTOR_ACTUATION_TORQUE]
  /\ Forall (fun o => stalled o = false)
       (states (set_stall held_observer true 0)
          [idle_call 0 PBIO_DCMOTOR_ACTUATION_COAST;
           idle_call 1 PBIO_DCMOTOR_ACTUATION_TORQUE]).
Proof.
  assert (H : Forall
                (fun c => call_actuation c <> PBIO_DCMOTOR_ACTUATION_VOLTAGE)
                [idle_call 0 PBIO_DCMOTOR_ACTUATION_COAST;
                 idle_call 1 PBIO_DCMOTOR_ACTUATION_TORQUE])
    by (repeat constructor; discriminate).
  split; [exact H|].
  exact (non_voltage_never_stalls (set_stall held_observer true 0) _ H).
Defined.

Lemma friction_torque_follows_speed_witness :
  - Int32.max_signed <= torque_friction (model held_observer)
    <= Int32.max_signed
  /\ speed held_observer = 0
  /\ torque_friction (model held_observer) = 2000
  /\ model_voltage held_observer origin 6000 = -4000
  /\ current (pbio_observer_update held_observer 1000 origin
                PBIO_DCMOTOR_ACTUATION_VOLTAGE 6000)
     = pbio_int_math_clamp
         (sum4 (term PRESCALE_SPEED 0 1000000)
               (term PRESCALE_CURRENT 0 1000000)
               (term PRESCALE_VOLTAGE (-4000) 1000000)
               (term PRESCALE_TORQUE (-1000) 1000000))
         MAX_NUM_CURRENT.
Proof.
  assert (H : - Int32.max_signed <= torque_friction (model held_observer)
              <= Int32.max_signed) by (split; discriminate).
  split; [exact H|]. split; [reflexivity|]. split; [reflexivity|].
  split; [reflexivity|].
  exact (proj1 (proj2 (friction_torque_follows_speed held_observer 1000
                         origin PBIO_DCMOTOR_ACTUATION_VOLTAGE 6000 H))).
Defined.

(** C7: the conversions of this model are inverse to each other, and
    the torque 1000000 is within range; the round trip returns 12000. *)
Lemma round_trip_counterexample :
  d_voltage_d_torque unit_model * d_torque_d_voltage unit_model
  = PRESCALE_TORQUE * PRESCALE_VOLTAGE
  /\ - MAX_NUM_TORQUE <= 1000000 <= MAX_NUM_TORQUE
  /\ pbio_observer_torque_to_voltage unit_model 1000000 = 1000000
  /\ pbio_observer_voltage_to_torque unit_model
       (pbio_observer_torque_to_voltage unit_model 1000000) = 12000.
Proof. repeat split; discriminate. Qed.

Lemma round_trip_witness :
  0 < d_voltage_d_torque geared_model
  /\ 0 < d_torque_d_voltage geared_model
  /\ d_voltage_d_torque geared_model * d_torque_d_voltage geared_model
     = PRESCALE_TORQUE * PRESCALE_VOLTAGE
  /\ - MAX_NUM_TORQUE <= 100000 <= MAX_NUM_TORQUE
  /\ - MAX_NUM_VOLTAGE <= pbio_observer_torque_to_voltage geared_model 100000
     <= MAX_NUM_VOLTAGE
  /\ pbio_observer_voltage_to_torque geared_model
       (pbio_observer_torque_to_voltage geared_model 100000) = 99994
  /\ d_torque_d_voltage geared_model * Z.abs (100000 - 99994)
     < d_torque_d_voltage geared_model + PRESCALE_VOLTAGE.
Proof.
  assert (H1 : 0 < d_voltage_d_torque geared_model) by reflexivity.
  assert (H2 : 0 < d_torque_d_voltage geared_model) by reflexivity.
  assert (H3 : d_voltage_d_torque geared_model
               * d_torque_d_voltage geared_model
               = PRESCALE_TORQUE * PRESCALE_VOLTAGE) by reflexivity.
  assert (H4 : - MAX_NUM_TORQUE <= 100000 <= MAX_NUM_TORQUE)
    by (split; discriminate).
  assert (H5 : - MAX_NUM_VOLTAGE
               <= pbio_observer_torque_to_voltage geared_model 100000
               <= MAX_NUM_VOLTAGE) by (split; discriminate).
  repeat (split; [assumption|]).
  split; [reflexivity|].
  exact (proj2 (proj2
           (torque_voltage_round_trip geared_model 100000 H1 H2 H3 H4 H5))).
Defined.

Lemma blocking_wrappers_drain_witness :
  (forall i, (i < 3)%nat ->
     Blocking.within_timeout hub clock 3 0
       (Blocking.polled hub hub_poll_hook i (idle_hub (-1))) = true
     /\ snd (hub_poll_hook
               (Blocking.polled hub hub_poll_hook i (idle_hub (-1)))) = None
     /\ hub_status
          (fst (hub_poll_hook
                  (Blocking.polled hub hub_poll_hook i (idle_hub (-1)))))
        = PBIO_ERROR_AGAIN)
  /\ Blocking.within_timeout hub clock 3 0
       (Blocking.polled hub hub_poll_hook 3 (idle_hub (-1))) = false
  /\ (forall j, (j < 2)%nat ->
        hub_status
          (Blocking.after_hooks hub hub_vm_hook j
             (hub_cancel
                (Blocking.polled hub hub_poll_hook 3 (idle_hub (-1)))))
        = PBIO_ERROR_AGAIN)
  /\ hub_connect 10 3 (idle_hub (-1))
     = Some (Blocking.Reraised Blocking.OSError_ETIMEDOUT,
             {| clock := 3; interrupt_at := -1; cancelling := true;
                teardown := 0 |},
             [Blocking.EvPollHook; Blocking.EvStatus PBIO_ERROR_AGAIN;
              Blocking.EvPollHook; Blocking.EvStatus PBIO_ERROR_AGAIN;
              Blocking.EvPollHook; Blocking.EvStatus PBIO_ERROR_AGAIN;
              Blocking.EvCancel;
              Blocking.EvStatus PBIO_ERROR_AGAIN; Blocking.EvVmHook;
              Blocking.EvStatus PBIO_ERROR_AGAIN; Blocking.EvVmHook;
              Blocking.EvStatus PBIO_ERROR_CANCELED])
  /\ (forall i, (i < 1)%nat ->
        snd (hub_end
               (BlockingRuns.before_poll hub hub_poll_hook hub_end i
                  (idle_hub 2))) = PBIO_ERROR_AGAIN
        /\ snd (hub_poll_hook
                  (fst (hub_end
                          (BlockingRuns.before_poll hub hub_poll_hook
                             hub_end i (idle_hub 2))))) = None)
  /\ snd (hub_poll_hook
            (fst (hub_end
                    (BlockingRuns.before_poll hub hub_poll_hook hub_end 1
                       (idle_hub 2))))) = Some (Blocking.Pending 1)
  /\ hub_wait 10 (idle_hub 2)
     = Some (Blocking.Reraised (Blocking.Pending 1),
             {| clock := 2; interrupt_at := 2; cancelling := true;
                teardown := 0 |},
             [Blocking.EvStatus PBIO_ERROR_AGAIN; Blocking.EvPollHook;
              Blocking.EvStatus PBIO_ERROR_AGAIN; Blocking.EvPollHook;
              Blocking.EvCancel;
              Blocking.EvStatus PBIO_ERROR_AGAIN; Blocking.EvVmHook;
              Blocking.EvStatus PBIO_ERROR_AGAIN; Blocking.EvVmHook;
              Blocking.EvStatus PBIO_ERROR_CANCELED]).
Proof.
  assert (H1 : forall i, (i < 3)%nat ->
             Blocking.within_timeout hub clock 3 0
               (Blocking.polled hub hub_poll_hook i (idle_hub (-1))) = true
             /\ snd (hub_poll_hook
                       (Blocking.polled hub hub_poll_hook i (idle_hub (-1))))
                = None
             /\ hub_status
                  (fst (hub_poll_hook
                          (Blocking.polled hub hub_poll_hook i
                             (idle_hub (-1)))))
                = PBIO_ERROR_AGAIN).
  { intros i Hi. destruct i as [|[|[|i]]]; [repeat split ..|lia]. }
  assert (H2 : Blocking.within_timeout hub clock 3 0
                 (Blocking.polled hub hub_poll_hook 3 (idle_hub (-1)))
               = false) by reflexivity.
  assert (H3 : forall j, (j < 2)%nat ->
             hub_status
               (Blocking.after_hooks hub hub_vm_hook j
                  (hub_cancel
                     (Blocking.polled hub hub_poll_hook 3 (idle_hub (-1)))))
             = PBIO_ERROR_AGAIN).
  { intros j Hj. destruct j as [|[|j]]; [reflexivity ..|lia]. }
  assert (H4 : forall i, (i < 1)%nat ->
             snd (hub_end
                    (BlockingRuns.before_poll hub hub_poll_hook hub_end i
                       (idle_hub 2))) = PBIO_ERROR_AGAIN
             /\ snd (hub_poll_hook
                       (fst (hub_end
                               (BlockingRuns.before_poll hub hub_poll_hook
                                  hub_end i (idle_hub 2))))) = None).
  { intros i Hi. destruct i as [|i]; [repeat split|lia]. }
  assert (H5 : snd (hub_poll_hook
                      (fst (hub_end
                              (BlockingRuns.before_poll hub hub_poll_hook
                                 hub_end 1 (idle_hub 2)))))
               = Some (Blocking.Pending 1)) by reflexivity.
  assert (H6 : forall j, (j < 2)%nat ->
             snd (hub_end
                    (BlockingRuns.before_drain hub hub_vm_hook hub_end j
                       (hub_cancel
                          (fst (hub_poll_hook
                                  (fst (hub_end
                                          (BlockingRuns.before_poll hub
                                             hub_poll_hook hub_end 1
                                             (idle_hub 2)))))))))
             = PBIO_ERROR_AGAIN).
  { intros j Hj. destruct j as [|[|j]]; [reflexivity ..|lia]. }
  split; [exact H1|]. split; [exact H2|]. split; [exact H3|].
  split.
  - exact (proj1 (blocking_wrappers_drain hub clock hub_poll_hook
                    hub_vm_hook)
             hub_status (fun h => h) hub_cancel 3 (idle_hub (-1))
             3%nat 2%nat 10%nat H1 H2 H3 eq_refl
             ltac:(lia) ltac:(lia)).
  - split; [exact H4|]. split; [exact H5|].
    exact (proj1 (proj2 (proj2 (blocking_wrappers_drain hub clock
                                  hub_poll_hook hub_vm_hook)))
             hub_end hub_cancel (idle_hub 2) 1%nat 2%nat 10%nat
             (Blocking.Pending 1) PBIO_ERROR_CANCELED
             H4 eq_refl H5 H6 eq_refl eq_refl ltac:(lia) ltac:(lia)).
Defined.

Lemma tacho_setup_rejects_negative_witness :
  (-65536 < 0 \/ 65536 < 0)
  /\ tacho_setup blank_tacho 0 Tacho.PBIO_DIRECTION_CLOCKWISE
       65536 (-65536) fresh_io
     = (PBIO_ERROR_INVALID_ARG, blank_tacho, fresh_io)
  /\ tacho_get [blank_tacho; blank_tacho] 66 Tacho.PBIO_DIRECTION_CLOCKWISE
       65536 (-65536) fresh_io
     = (Some (PBIO_ERROR_INVALID_ARG, Some 1%nat, [blank_tacho; blank_tacho]),
        fresh_io).
Proof.
  assert (H : -65536 < 0 \/ 65536 < 0) by (left; reflexivity).
  split; [exact H|].
  destruct (tacho_setup_rejects_negative nat Z
              (fun a b => Z.shiftr (a * b) 16)
              counter_get (counter_read 0) (counter_read 90) 65 68
              blank_tacho 0 Tacho.PBIO_DIRECTION_CLOCKWISE
              65536 (-65536) fresh_io H) as [S G].
  split; [exact S|].
  apply (G [blank_tacho; blank_tacho] 66); [split; discriminate|reflexivity].
Defined.

Lemma not_stalled_reports_zero_witness :
  fst (pbio_observer_is_stalled held_observer 5) = false
  /\ snd (pbio_observer_is_stalled held_observer 5) = 0.
Proof.
  split; [reflexivity|].
  exact (proj1 (not_stalled_reports_zero held_observer origin 5) eq_refl).
Defined.

End Runs.

(** ** More about the observer *)

Lemma clamp_opp (x m : Z) :
  0 <= m -> pbio_int_math_clamp (- x) m = - pbio_int_math_clamp x m.
Proof.
  intros Hm. unfold pbio_int_math_clamp.
  destruct (Z.gtb_spec (- x) m); destruct (Z.gtb_spec x m);
    destruct (Z.ltb_spec (- x) (- m)); destruct (Z.ltb_spec x (- m)); lia.
Qed.

Lemma clamp_monotone (x y m : Z) :
  0 <= m -> x <= y -> pbio_int_math_clamp x m <= pbio_int_math_clamp y m.
Proof.
  intros Hm Hxy. unfold pbio_int_math_clamp.
  destruct (Z.gtb_spec x m); destruct (Z.gtb_spec y m);
    destruct (Z.ltb_spec x (- m)); destruct (Z.ltb_spec y (- m)); lia.
Qed.

Lemma quot_opp_any (x d : Z) : Z.quot (- x) d = - Z.quot x d.
Proof.
  destruct (Z.eq_dec d 0) as [->|Hd].
  - destruct x; reflexivity.
  - now apply Z.quot_opp_l.
Qed.

(** A conversion [P * clamp x M / d] whose product fits 32 bits is the
    truncated quotient of the mathematical product. *)
Lemma scaled_exact (P M d x : Z) :
  0 <= P -> 0 <= M -> P * M <= Int32.max_signed ->
  Int32.div (Int32.mul P (pbio_int_math_clamp x M)) d
  = Z.quot (P * pbio_int_math_clamp x M) d
  /\ Z.abs (Z.quot (P * pbio_int_math_clamp x M) d) <= P * M.
Proof.
  intros HP HM Hfit.
  pose proof (clamp_bounds x M HM) as B.
  assert (R : Z.abs (P * pbio_int_math_clamp x M) <= P * M) by nia.
  pose proof (quot_abs_le (P * pbio_int_math_clamp x M) d) as Q.
  unfold Int32.div, Int32.mul, Int32.max_signed in *.
  rewrite (wrap_small (P * pbio_int_math_clamp x M))
    by (unfold Int32.in_range, Int32.min_signed, Int32.max_signed; lia).
  split; [|lia]. apply wrap_small.
  unfold Int32.in_range, Int32.min_signed, Int32.max_signed. lia.
Qed.

(** The shape shared by the two conversions between torque and voltage. *)
Lemma scaled_shape (P M d x : Z) :
  0 <= P -> 0 <= M -> P * M <= Int32.max_signed ->
  let f := fun y => Int32.div (Int32.mul P (pbio_int_math_clamp y M)) d in
  f (- x) = - f x
  /\ (M <= x -> f x = f M)
  /\ (x <= - M -> f x = f (- M))
  /\ Z.abs (f x) <= P * M
  /\ (0 < d -> forall y, x <= y -> f x <= f y).
Proof.
  intros HP HM Hfit f. subst f. cbv beta.
  destruct (scaled_exact P M d x HP HM Hfit) as [Ex Bx].
  destruct (scaled_exact P M d (- x) HP HM Hfit) as [En _].
  rewrite Ex, En. repeat split.
  - rewrite clamp_opp by assumption.
    rewrite Z.mul_opp_r. apply quot_opp_any.
  - intros Hx. destruct (scaled_exact P M d M HP HM Hfit) as [-> _].
    destruct (Z.eq_dec x M) as [->|Hne]; [reflexivity|].
    rewrite (clamp_above x M) by lia.
    rewrite (clamp_inside M M) by lia. reflexivity.
  - intros Hx. destruct (scaled_exact P M d (- M) HP HM Hfit) as [-> _].
    destruct (Z.eq_dec x (- M)) as [->|Hne]; [reflexivity|].
    rewrite (clamp_below x M) by lia.
    rewrite (clamp_inside (- M) M) by lia. reflexivity.
  - exact Bx.
  - intros Hd y Hxy. destruct (scaled_exact P M d y HP HM Hfit) as [-> _].
    apply Z.quot_le_mono; [assumption|].
    pose proof (clamp_monotone x y M HM Hxy). nia.
Qed.

(** X5: [pbio_observer_torque_to_voltage] is an odd function of the
    torque, constant beyond [MAX_NUM_TORQUE] in either direction, never
    larger in magnitude than [PRESCALE_TORQUE * MAX_NUM_TORQUE], and
    non-decreasing when the coefficient is positive. *)
Theorem torque_to_voltage_shape (m : pbio_observer_model_t) (t : Z) :
  pbio_observer_torque_to_voltage m (- t)
  = - pbio_observer_torque_to_voltage m t
  /\ (MAX_NUM_TORQUE <= t ->
      pbio_observer_torque_to_voltage m t
      = pbio_observer_torque_to_voltage m MAX_NUM_TORQUE)
  /\ (t <= - MAX_NUM_TORQUE ->
      pbio_observer_torque_to_voltage m t
      = pbio_observer_torque_to_voltage m (- MAX_NUM_TORQUE))
  /\ Z.abs (pbio_observer_torque_to_voltage m t)
     <= PRESCALE_TORQUE * MAX_NUM_TORQUE
  /\ (0 < d_voltage_d_torque m ->
      forall t', t <= t' ->
        pbio_observer_torque_to_voltage m t
        <= pbio_observer_torque_to_voltage m t').
Proof.
  unfold pbio_observer_torque_to_voltage.
  apply (scaled_shape PRESCALE_TORQUE MAX_NUM_TORQUE (d_voltage_d_torque m) t);
    unfold PRESCALE_TORQUE, MAX_NUM_TORQUE, Int32.max_signed; lia.
Qed.

(** X6: [pbio_observer_voltage_to_torque] is an odd function of the
    voltage, constant beyond [MAX_NUM_VOLTAGE] in either direction, never
    larger in magnitude than [PRESCALE_VOLTAGE * MAX_NUM_VOLTAGE], and
    non-decreasing when the coefficient is positive. *)
Theorem voltage_to_torque_shape (m : pbio_observer_model_t) (v : Z) :
  pbio_observer_voltage_to_torque m (- v)
  = - pbio_observer_voltage_to_torque m v
  /\ (MAX_NUM_VOLTAGE <= v ->
      pbio_observer_voltage_to_torque m v
      = pbio_observer_voltage_to_torque m MAX_NUM_VOLTAGE)
  /\ (v <= - MAX_NUM_VOLTAGE ->
      pbio_observer_voltage_to_torque m v
      = pbio_observer_voltage_to_torque m (- MAX_NUM_VOLTAGE))
  /\ Z.abs (pbio_observer_voltage_to_torque m v)
     <= PRESCALE_VOLTAGE * MAX_NUM_VOLTAGE
  /\ (0 < d_torque_d_voltage m ->
      forall v', v <= v' ->
        pbio_observer_voltage_to_torque m v
        <= pbio_observer_voltage_to_torque m v').
Proof.
  unfold pbio_observer_voltage_to_torque.
  apply (scaled_shape PRESCALE_VOLTAGE MAX_NUM_VOLTAGE
           (d_torque_d_voltage m) v);
    unfold PRESCALE_VOLTAGE, MAX_NUM_VOLTAGE, Int32.max_signed; lia.
Qed.

Lemma quot_quarter (x d : Z) : 4 <= Z.abs d -> 4 * Z.abs (Z.quot x d) <= Z.abs x.
Proof.
  intros Hd. rewrite <- Z.quot_abs by lia.
  rewrite Z.quot_div_nonneg by lia.
  pose proof (Z.mul_div_le (Z.abs x) (Z.abs d) ltac:(lia)).
  assert (0 <= Z.abs x / Z.abs d) by (apply Z.div_pos; lia). nia.
Qed.

Lemma sign_opp (a : Z) : pbio_int_math_sign (- a) = - pbio_int_math_sign a.
Proof.
  unfold pbio_int_math_sign.
  destruct (Z.eqb_spec (- a) 0); destruct (Z.eqb_spec a 0); try lia.
  destruct (Z.gtb_spec (- a) 0); destruct (Z.gtb_spec a 0); lia.
Qed.

Lemma sign_small (a : Z) : -1 <= pbio_int_math_sign a <= 1.
Proof.
  unfold pbio_int_math_sign.
  destruct (a =? 0); [lia|]. destruct (a >? 0); lia.
Qed.

(** X8: the feedforward torque is 0 for a zero reference rate and a zero
    reference acceleration, always lies within [MAX_NUM_TORQUE], and, for
    a 32-bit friction torque and model coefficients of magnitude 4 or
    more, changes sign with its two references. *)
Theorem feedforward_torque_shape
    (m : pbio_observer_model_t) (rate_ref acceleration_ref : Z) :
  pbio_observer_get_feedforward_torque m 0 0 = 0
  /\ - MAX_NUM_TORQUE
     <= pbio_observer_get_feedforward_torque m rate_ref acceleration_ref
     <= MAX_NUM_TORQUE
  /\ (Int32.in_range (torque_friction m) ->
      4 <= Z.abs (d_torque_d_speed m) ->
      4 <= Z.abs (d_torque_d_acceleration m) ->
      pbio_observer_get_feedforward_torque m (- rate_ref) (- acceleration_ref)
      = - pbio_observer_get_feedforward_torque m rate_ref acceleration_ref).
Proof.
  split; [|split].
  - unfold pbio_observer_get_feedforward_torque. cbn.
    unfold Int32.mul, Int32.div, Int32.add. rewrite !Z.mul_0_r.
    change (Int32.wrap 0) with 0.
    replace (Z.quot 0 (d_torque_d_speed m)) with 0
      by (destruct (d_torque_d_speed m); reflexivity).
    replace (Z.quot 0 (d_torque_d_acceleration m)) with 0
      by (destruct (d_torque_d_acceleration m); reflexivity).
    reflexivity.
  - apply clamp_bounds. unfold MAX_NUM_TORQUE. lia.
  - intros Htf Hs Ha. unfold pbio_observer_get_feedforward_torque. cbv zeta.
    destruct (scaled_exact PRESCALE_SPEED MAX_NUM_SPEED (d_torque_d_speed m)
                rate_ref) as [Es _];
      try (unfold PRESCALE_SPEED, MAX_NUM_SPEED, Int32.max_signed; lia).
    destruct (scaled_exact PRESCALE_SPEED MAX_NUM_SPEED (d_torque_d_speed m)
                (- rate_ref)) as [Esn _];
      try (unfold PRESCALE_SPEED, MAX_NUM_SPEED, Int32.max_signed; lia).
    destruct (scaled_exact PRESCALE_ACCELERATION MAX_NUM_ACCELERATION
                (d_torque_d_acceleration m) acceleration_ref) as [Ea _];
      try (unfold PRESCALE_ACCELERATION, MAX_NUM_ACCELERATION,
             Int32.max_signed; lia).
    destruct (scaled_exact PRESCALE_ACCELERATION MAX_NUM_ACCELERATION
                (d_torque_d_acceleration m) (- acceleration_ref)) as [Ean _];
      try (unfold PRESCALE_ACCELERATION, MAX_NUM_ACCELERATION,
             Int32.max_signed; lia).
    rewrite Es, Esn, Ea, Ean.
    rewrite !clamp_opp by (unfold MAX_NUM_SPEED, MAX_NUM_ACCELERATION; lia).
    rewrite !Z.mul_opp_r, !quot_opp_any, sign_opp.
    set (e := Z.quot (PRESCALE_SPEED
                      * pbio_int_math_clamp rate_ref MAX_NUM_SPEED)
                     (d_torque_d_speed m)).
    set (a := Z.quot (PRESCALE_ACCELERATION
                      * pbio_int_math_clamp acceleration_ref
                          MAX_NUM_ACCELERATION)
                     (d_torque_d_acceleration m)).
    assert (Be : 4 * Z.abs e <= 858 * 2500000).
    { pose proof (quot_quarter
                    (PRESCALE_SPEED
                     * pbio_int_math_clamp rate_ref MAX_NUM_SPEED)
                    (d_torque_d_speed m) Hs) as Q.
      pose proof (clamp_bounds rate_ref MAX_NUM_SPEED
                    ltac:(unfold MAX_NUM_SPEED; lia)) as B.
      fold e in Q. unfold PRESCALE_SPEED, MAX_NUM_SPEED in *. lia. }
    assert (Ba : 4 * Z.abs a <= 858 * 2500000).
    { pose proof (quot_quarter
                    (PRESCALE_ACCELERATION
                     * pbio_int_math_clamp acceleration_ref
                         MAX_NUM_ACCELERATION)
                    (d_torque_d_acceleration m) Ha) as Q.
      pose proof (clamp_bounds acceleration_ref MAX_NUM_ACCELERATION
                    ltac:(unfold MAX_NUM_ACCELERATION; lia)) as B.
      fold a in Q.
      unfold PRESCALE_ACCELERATION, MAX_NUM_ACCELERATION in *. lia. }
    set (h := Int32.div (torque_friction m) 2) in *.
    assert (Bh : Z.abs h <= 2 ^ 30).
    { subst h. unfold Int32.div.
      unfold Int32.in_range, Int32.min_signed, Int32.max_signed in Htf.
      pose proof (Z.quot_le_mono (- 2 ^ 31) (torque_friction m) 2
                    ltac:(lia) ltac:(lia)) as L.
      pose proof (Z.quot_le_mono (torque_friction m) (2 ^ 31 - 1) 2
                    ltac:(lia) ltac:(lia)) as U.
      change (Z.quot (- 2 ^ 31) 2) with (- 2 ^ 30) in L.
      change (Z.quot (2 ^ 31 - 1) 2) with (2 ^ 30 - 1) in U.
      rewrite wrap_small
        by (unfold Int32.in_range, Int32.min_signed, Int32.max_signed; lia).
      lia. }
    pose proof (sign_small rate_ref) as Bs.
    set (sg := pbio_int_math_sign rate_ref) in *.
    unfold Int32.add, Int32.mul.
    assert (Rf : Int32.in_range (h * sg))
      by (unfold Int32.in_range, Int32.min_signed, Int32.max_signed; nia).
    assert (Rfn : Int32.in_range (h * - sg))
      by (unfold Int32.in_range, Int32.min_signed, Int32.max_signed; nia).
    rewrite (wrap_small _ Rf), (wrap_small _ Rfn).
    rewrite !wrap_add_l.
    assert (Bf : Z.abs (h * sg) <= 2 ^ 30) by nia.
    rewrite !wrap_small
      by (unfold Int32.in_range, Int32.min_signed, Int32.max_signed; lia).
    replace (h * - sg + - e + - a) with (- (h * sg + e + a)) by lia.
    apply clamp_opp. unfold MAX_NUM_TORQUE. lia.
Qed.

Section ObserverExtras.

Context {collab : Collaborators}.

Implicit Types (obs : pbio_observer_t) (a : pbio_angle_t).

Lemma step_kept obs (c : update_call) : kept obs (step obs c).
Proof.
  unfold kept, step.
  destruct (update_stall_fields obs (call_time c) (call_angle c)
              (call_actuation c) (call_voltage c)) as (_ & _ & Es & Em).
  destruct (update_speed_current obs (call_time c) (call_angle c)
              (call_actuation c) (call_voltage c)) as [Hs Hc].
  cbv zeta in *. rewrite Hs, Hc.
  pose proof (clamp_bounds
                (speed_sum obs
                   (model_voltage obs (call_angle c) (call_voltage c)))
                MAX_NUM_SPEED ltac:(unfold MAX_NUM_SPEED; lia)) as Bs.
  pose proof (clamp_bounds
                (current_sum obs
                   (model_voltage obs (call_angle c) (call_voltage c)))
                MAX_NUM_CURRENT ltac:(unfold MAX_NUM_CURRENT; lia)) as Bc.
  repeat split; try assumption; try lia;
    destruct (zero_crossing obs _); unfold MAX_NUM_SPEED in *; lia.
Qed.

Lemma kept_trans obs o1 o2 : kept obs o1 -> kept o1 o2 -> kept obs o2.
Proof.
  unfold kept. intros (M1 & S1 & _) (M2 & S2 & B). rewrite M2, S2. auto.
Qed.

(** X1: through every sequence of updates, whatever the arguments, the
    observer keeps its model and its settings, and after each call the
    estimated speed lies within [MAX_NUM_SPEED] and the estimated current
    within [MAX_NUM_CURRENT]. *)
Theorem run_keeps_bounds (cs : list update_call) : forall obs,
  Forall (kept obs) (states obs cs).
Proof.
  induction cs as [|c cs IH]; intros obs; cbn; constructor.
  - apply step_kept.
  - eapply Forall_impl; [|apply IH].
    intros o Ho. eapply kept_trans; [apply step_kept|exact Ho].
Qed.

Lemma run_settings (cs : list update_call) : forall obs,
  settings (run obs cs) = settings obs.
Proof.
  induction cs as [|c cs IH]; intros obs; cbn; [reflexivity|].
  fold (run (step obs c) cs). rewrite IH. apply step_kept.
Qed.

(** X2: a drop of the stall flag resets the latch. When the flag is clear
    after some updates, is raised by the update at tick [T] and stays
    raised, [pbio_observer_is_stalled] counts from [T], whatever stalls
    came before: it returns true exactly when [t - T] exceeds
    [stall_time], with the duration [t - T]. *)
Theorem stall_relatch obs (before : list update_call) (c : update_call)
    (cs : list update_call) (t : Z) :
  stalled (run obs before) = false ->
  stalled_throughout (run obs before) (c :: cs) = true ->
  0 <= call_time c <= t -> t < 2 ^ 32 ->
  pbio_observer_is_stalled (run obs (before ++ c :: cs)) t
  = if t - call_time c >? stall_time (settings obs)
    then (true, t - call_time c)
    else (false, 0).
Proof.
  intros Hclear Hall Ht Hmax. unfold run at 1. rewrite fold_left_app.
  fold (run obs before). set (o := run obs before) in *.
  cbn in Hall. apply andb_prop in Hall. destruct Hall as [Hc Hrest].
  destruct (step_rising_edge o c Hclear Hc) as [L1 L2].
  destruct (run_keeps_latch cs (step o c) Hc Hrest) as (R1 & R2 & R3).
  unfold pbio_observer_is_stalled. cbn [fold_left].
  fold (run (step o c) cs).
  rewrite R1, R2, R3, L1, L2, usub_small by assumption.
  subst o. rewrite run_settings. reflexivity.
Qed.

(** X3: the elapsed stall time survives the wrap of the 32-bit tick
    counter. For a raised flag latched at [stall_start], at the tick that
    lies [e] ticks later modulo 2^32, [pbio_observer_is_stalled] returns
    true exactly when [e] exceeds [stall_time], with the duration [e]. *)
Theorem stall_duration_wraps obs (e : Z) :
  stalled obs = true ->
  0 <= stall_start obs < 2 ^ 32 ->
  0 <= e < 2 ^ 32 ->
  pbio_observer_is_stalled obs ((stall_start obs + e) mod 2 ^ 32)
  = if e >? stall_time (settings obs) then (true, e) else (false, 0).
Proof.
  intros Hs Hstart He. unfold pbio_observer_is_stalled, Int32.usub.
  rewrite Zminus_mod_idemp_l.
  replace (stall_start obs + e - stall_start obs) with e by lia.
  rewrite Z.mod_small by lia. rewrite Hs. reflexivity.
Qed.

(** X4: stall detection does not depend on the direction of rotation.
    For a commanded voltage other than 0, negating the estimated speed,
    the voltage and the feedback voltage together gives the same stall
    flag and the same latch. *)
Theorem stall_mirror obs (time voltage feedback_voltage : Z) :
  voltage <> 0 ->
  Z.abs (speed obs) <= Int32.max_signed ->
  Z.abs voltage <= Int32.max_signed ->
  Z.abs feedback_voltage <= Int32.max_signed ->
  update_stall_state (set_speed obs (- speed obs)) time
    PBIO_DCMOTOR_ACTUATION_VOLTAGE (- voltage) (- feedback_voltage)
  = set_speed
      (update_stall_state obs time PBIO_DCMOTOR_ACTUATION_VOLTAGE
         voltage feedback_voltage)
      (- speed obs).
Proof.
  intros Hv Rs Rv Rf. unfold update_stall_state. cbn [is_voltage negb].
  unfold Int32.max_signed in *.
  destruct (Z.ltb_spec voltage 0) as [Hneg|Hpos];
    destruct (Z.ltb_spec (- voltage) 0) as [Hneg'|Hpos']; try lia.
  - unfold Int32.mul.
    rewrite !wrap_small
      by (unfold Int32.in_range, Int32.min_signed, Int32.max_signed; lia).
    replace (speed obs * -1) with (- speed obs) by lia.
    replace (voltage * -1) with (- voltage) by lia.
    replace (feedback_voltage * -1) with (- feedback_voltage) by lia.
    cbn [speed set_speed].
    change (stall_conditions (set_speed obs (- speed obs)))
      with (stall_conditions obs).
    destruct (stall_conditions obs (- speed obs) (- voltage)
                (- feedback_voltage)); reflexivity.
  - unfold Int32.mul. cbn [speed set_speed].
    rewrite !wrap_small
      by (unfold Int32.in_range, Int32.min_signed, Int32.max_signed; lia).
    replace (- speed obs * -1) with (speed obs) by lia.
    replace (- voltage * -1) with voltage by lia.
    replace (- feedback_voltage * -1) with feedback_voltage by lia.
    change (stall_conditions (set_speed obs (- speed obs)))
      with (stall_conditions obs).
    destruct (stall_conditions obs (speed obs) voltage feedback_voltage);
      reflexivity.
Qed.

(** X7: an observer at rest does not stay at rest. With estimated speed
    0, estimated current 0 and a model voltage of 0, the update commits
    the friction term itself as the new speed when that term lies between
    0 and [MAX_NUM_SPEED], and 0 otherwise. *)
Theorem rest_friction_kick obs (time : Z) a actuation (voltage : Z) :
  speed obs = 0 ->
  current obs = 0 ->
  model_voltage obs a voltage = 0 ->
  speed (pbio_observer_update obs time a actuation voltage)
  = if (0 <=? friction_term obs) && (friction_term obs <=? MAX_NUM_SPEED)
    then friction_term obs else 0.
Proof.
  intros Hs Hc Hv.
  destruct (update_speed_current obs time a actuation voltage) as [-> _].
  rewrite Hv. unfold speed_sum, zero_crossing. cbv zeta. rewrite Hs, Hc.
  fold (friction_term obs).
  pose proof (div_in_range
                (Int32.mul PRESCALE_TORQUE (update_torque obs))
                (d_speed_d_torque (model obs))) as RD.
  fold (term PRESCALE_TORQUE (update_torque obs)
          (d_speed_d_torque (model obs))) in RD.
  fold (friction_term obs) in RD.
  set (D := friction_term obs) in *.
  assert (Z0 : forall P d, term P 0 d = 0).
  { intros P d. unfold term, Int32.mul, Int32.div. rewrite Z.mul_0_r.
    change (Int32.wrap 0) with 0. destruct d; reflexivity. }
  rewrite !Z0. rewrite (sum4_exact 0 0 0 D) by exact RD.
  change (0 + 0 + 0 + D) with D.
  unfold Int32.in_range, Int32.min_signed, Int32.max_signed in RD.
  unfold Int32.sub, pbio_int_math_clamp, MAX_NUM_SPEED.
  destruct (Z.gtb_spec D 2500000) as [H1|H1].
  - rewrite wrap_small
      by (unfold Int32.in_range, Int32.min_signed, Int32.max_signed; lia).
    destruct (Z.leb_spec 0 D); destruct (Z.leb_spec D 2500000); try lia.
    destruct (Z.ltb_spec (2500000 - D) 0); [reflexivity|lia].
  - destruct (Z.ltb_spec D (- (2500000))) as [H2|H2].
    + rewrite wrap_small
        by (unfold Int32.in_range, Int32.min_signed, Int32.max_signed; lia).
      destruct (Z.leb_spec 0 D); try lia.
      destruct (Z.ltb_spec (- (2500000) - D) 0); [lia|reflexivity].
    + rewrite Z.sub_diag. change (Int32.wrap 0) with 0.
      destruct (Z.leb_spec 0 D); destruct (Z.leb_spec D 2500000);
        destruct (Z.ltb_spec D 0); try lia; reflexivity.
Qed.

End ObserverExtras.

(** ** More about the tacho *)

Lemma wrap_shift (a k : Z) : Int32.wrap (a + k * 2 ^ 32) = Int32.wrap a.
Proof.
  unfold Int32.wrap.
  replace (a + k * 2 ^ 32 + 2 ^ 31) with (a + 2 ^ 31 + k * 2 ^ 32) by lia.
  now rewrite Z.mod_add by lia.
Qed.

Lemma wrap_decompose (a : Z) : exists k, Int32.wrap a = a + k * 2 ^ 32.
Proof.
  exists (- ((a + 2 ^ 31) / 2 ^ 32)). unfold Int32.wrap.
  pose proof (Z.div_mod (a + 2 ^ 31) (2 ^ 32) ltac:(lia)). lia.
Qed.

(** Reading back through an offset computed from the same raw count. *)
Lemma offset_round_trip (c off r : Z) :
  Int32.sub c (Int32.sub (Int32.add (Int32.sub c off) off) r) = Int32.wrap r.
Proof.
  unfold Int32.sub, Int32.add.
  destruct (wrap_decompose (c - off)) as [k1 ->].
  destruct (wrap_decompose (c - off + k1 * 2 ^ 32 + off)) as [k2 ->].
  destruct (wrap_decompose
              (c - off + k1 * 2 ^ 32 + off + k2 * 2 ^ 32 - r)) as [k3 ->].
  replace (c - (c - off + k1 * 2 ^ 32 + off + k2 * 2 ^ 32 - r + k3 * 2 ^ 32))
    with (r + (- (k1 + k2 + k3)) * 2 ^ 32) by lia.
  apply wrap_shift.
Qed.

Section TachoExtras.

Variables (driver counter_dev : Type).
Variable fix16_mul : Z -> Z -> Z.
Variable pbdrv_counter_get :
  Z -> counter_dev -> driver -> driver * (pbio_error_t * counter_dev).
Variables pbdrv_counter_get_abs_count pbdrv_counter_get_count :
  counter_dev -> driver -> driver * (pbio_error_t * Z).
Variables pbio_math_div_i32_fix16 pbio_math_mul_i32_fix16 : Z -> Z -> Z.
Variables first_port last_port : Z.

Local Abbreviation get_count :=
  (Tacho.pbio_tacho_get_count driver counter_dev pbdrv_counter_get_count).
Local Abbreviation reset_count :=
  (Tacho.pbio_tacho_reset_count driver counter_dev pbdrv_counter_get_count).
Local Abbreviation setup :=
  (Tacho.pbio_tacho_setup driver counter_dev fix16_mul pbdrv_counter_get
     pbdrv_counter_get_abs_count pbdrv_counter_get_count).
Local Abbreviation tacho_get :=
  (Tacho.pbio_tacho_get driver counter_dev fix16_mul pbdrv_counter_get
     pbdrv_counter_get_abs_count pbdrv_counter_get_count
     first_port last_port).
Local Abbreviation get_angle :=
  (TachoAngle.pbio_tacho_get_angle driver counter_dev pbdrv_counter_get_count
     pbio_math_div_i32_fix16).
Local Abbreviation reset_angle :=
  (TachoAngle.pbio_tacho_reset_angle driver counter_dev
     pbdrv_counter_get_count pbio_math_mul_i32_fix16).

Implicit Types (tacho : Tacho.pbio_tacho_t counter_dev) (s : Tacho.io driver).

(** What [pbio_tacho_get_count] returns when the counter reads [c]. *)
Lemma get_count_reads tacho s (d : driver) (c : Z) :
  pbdrv_counter_get_count (Tacho.counter tacho) (Tacho.devices s)
  = (d, (PBIO_SUCCESS, c)) ->
  get_count tacho s
  = ((PBIO_SUCCESS, TachoAngle.reported_count tacho c),
     {| Tacho.devices := d;
        Tacho.calls := Tacho.calls s ++ [Tacho.Call_counter_get_count] |}).
Proof.
  intros H. unfold Tacho.pbio_tacho_get_count, Tacho.bind, Tacho.call.
  rewrite H. cbn. unfold TachoAngle.reported_count, Tacho.ret.
  destruct (Tacho.is_counterclockwise (Tacho.direction tacho)); reflexivity.
Qed.

(** What [pbio_tacho_get_count] returns when the read fails. *)
Lemma get_count_fails tacho s (d : driver) (err : pbio_error_t) (c : Z) :
  pbdrv_counter_get_count (Tacho.counter tacho) (Tacho.devices s)
  = (d, (err, c)) ->
  err <> PBIO_SUCCESS ->
  get_count tacho s
  = ((err, c),
     {| Tacho.devices := d;
        Tacho.calls := Tacho.calls s ++ [Tacho.Call_counter_get_count] |}).
Proof.
  intros H Herr. unfold Tacho.pbio_tacho_get_count, Tacho.bind, Tacho.call.
  rewrite H. cbn. destruct err; try reflexivity. now elim Herr.
Qed.

(** What [pbio_tacho_get_count] returns when the counter always reads
    [c]. *)
Lemma get_count_stable tacho s (c : Z) :
  (forall d, snd (pbdrv_counter_get_count (Tacho.counter tacho) d)
             = (PBIO_SUCCESS, c)) ->
  fst (get_count tacho s)
  = (PBIO_SUCCESS, TachoAngle.reported_count tacho c).
Proof.
  intros Hread.
  destruct (pbdrv_counter_get_count (Tacho.counter tacho) (Tacho.devices s))
    as [d1 r1] eqn:E1.
  pose proof (Hread (Tacho.devices s)) as R1. rewrite E1 in R1. cbn in R1.
  subst r1. now rewrite (get_count_reads tacho s d1 c E1).
Qed.

(** What [pbio_tacho_reset_count] does when the counter always reads
    [c]: one driver call, a new offset, and a tacho that reports the count
    that was set for the raw count [c]. *)
Lemma reset_count_stable tacho s (c reset : Z) :
  (forall d, snd (pbdrv_counter_get_count (Tacho.counter tacho) d)
             = (PBIO_SUCCESS, c)) ->
  exists tacho' d',
    reset_count tacho reset s
    = ((PBIO_SUCCESS, tacho'),
       {| Tacho.devices := d';
          Tacho.calls := Tacho.calls s ++ [Tacho.Call_counter_get_count] |})
    /\ TachoAngle.same_configuration tacho' tacho
    /\ TachoAngle.reported_count tacho' c = Int32.wrap reset.
Proof.
  intros Hread.
  destruct (pbdrv_counter_get_count (Tacho.counter tacho) (Tacho.devices s))
    as [d1 r1] eqn:E1.
  pose proof (Hread (Tacho.devices s)) as R1. rewrite E1 in R1. cbn in R1.
  subst r1.
  unfold Tacho.pbio_tacho_reset_count, Tacho.bind.
  rewrite (get_count_reads tacho s d1 c E1). cbn.
  eexists. eexists. split; [reflexivity|].
  split; [unfold TachoAngle.same_configuration; cbn; auto|].
  unfold TachoAngle.reported_count. cbn [Tacho.direction Tacho.offset].
  apply offset_round_trip.
Qed.

(** X9: resetting the count and reading it back. When the counter reads
    the same raw count both times, [pbio_tacho_get_count] after
    [pbio_tacho_reset_count] returns the count that was set, for either
    direction and whatever the old offset, also when the intermediate
    sums wrap; the reset changes nothing but the offset. *)
Theorem reset_count_round_trip tacho s (c reset : Z) :
  (forall d, snd (pbdrv_counter_get_count (Tacho.counter tacho) d)
             = (PBIO_SUCCESS, c)) ->
  Int32.in_range reset ->
  exists tacho' s',
    reset_count tacho reset s = ((PBIO_SUCCESS, tacho'), s')
    /\ TachoAngle.same_configuration tacho' tacho
    /\ fst (get_count tacho' s') = (PBIO_SUCCESS, reset).
Proof.
  intros Hread Hr.
  destruct (reset_count_stable tacho s c reset Hread)
    as (tacho' & d' & Er & Hsame & Hrep).
  exists tacho'. eexists. split; [exact Er|]. split; [exact Hsame|].
  destruct Hsame as (_ & _ & _ & Hcounter).
  rewrite (get_count_stable tacho' _ c)
    by (rewrite Hcounter; exact Hread).
  rewrite Hrep. f_equal. now apply wrap_small.
Qed.

(** X10: an error of the counter read passes through. When the read
    fails, [pbio_tacho_get_count], [pbio_tacho_reset_count],
    [pbio_tacho_get_angle] and [pbio_tacho_reset_angle] all return the
    driver's error after that single call; the resets leave the tacho as it
    was and no angle is written. *)
Theorem count_error_passes_through tacho s (d : driver)
    (err : pbio_error_t) (c x : Z) :
  pbdrv_counter_get_count (Tacho.counter tacho) (Tacho.devices s)
  = (d, (err, c)) ->
  err <> PBIO_SUCCESS ->
  let s' := {| Tacho.devices := d;
               Tacho.calls := Tacho.calls s ++ [Tacho.Call_counter_get_count]
            |} in
  fst (fst (get_count tacho s)) = err
  /\ snd (get_count tacho s) = s'
  /\ reset_count tacho x s = ((err, tacho), s')
  /\ reset_angle tacho x s = ((err, tacho), s')
  /\ get_angle tacho s = ((err, None), s').
Proof.
  intros H Herr s'.
  pose proof (get_count_fails tacho s d err c H Herr) as G.
  assert (N : negb (is_success err) = true)
    by (destruct err; try reflexivity; now elim Herr).
  repeat split.
  - now rewrite G.
  - now rewrite G.
  - unfold Tacho.pbio_tacho_reset_count, Tacho.bind. rewrite G, N.
    reflexivity.
  - unfold TachoAngle.pbio_tacho_reset_angle, Tacho.pbio_tacho_reset_count,
      Tacho.bind. rewrite G, N. reflexivity.
  - unfold TachoAngle.pbio_tacho_get_angle, Tacho.bind. rewrite G, N.
    reflexivity.
Qed.

(** X11: a successful setup. With scale factors that are not negative,
    a counter device that is found and a counter that reads the same raw
    count every time, [pbio_tacho_setup] succeeds after exactly three
    driver calls, stores the direction, the counts per degree, their
    product with the gear ratio and the device, and sets the offset such
    that the count then reads the absolute count of the device (negated
    for a counterclockwise tacho), or 0 when the device has none. *)
Theorem setup_reads_absolute_count tacho s (counter_id : Z)
    (dir : Tacho.pbio_direction_t) (cpd gear_ratio : Z)
    (d1 d2 : driver) (dev : counter_dev) (abs_err : pbio_error_t)
    (abs_count c : Z) :
  0 <= gear_ratio -> 0 <= cpd ->
  pbdrv_counter_get counter_id (Tacho.counter tacho) (Tacho.devices s)
  = (d1, (PBIO_SUCCESS, dev)) ->
  pbdrv_counter_get_abs_count dev d1 = (d2, (abs_err, abs_count)) ->
  (forall d, snd (pbdrv_counter_get_count dev d) = (PBIO_SUCCESS, c)) ->
  Z.abs abs_count <= Int32.max_signed ->
  exists tacho' s',
    setup tacho counter_id dir cpd gear_ratio s
    = ((PBIO_SUCCESS, tacho'), s')
    /\ Tacho.direction tacho' = dir
    /\ Tacho.counts_per_degree tacho' = cpd
    /\ Tacho.counts_per_output_unit tacho' = fix16_mul cpd gear_ratio
    /\ Tacho.counter tacho' = dev
    /\ Tacho.calls s'
       = Tacho.calls s
         ++ [Tacho.Call_counter_get counter_id;
             Tacho.Call_counter_get_abs_count;
             Tacho.Call_counter_get_count]
    /\ fst (get_count tacho' s')
       = (PBIO_SUCCESS,
          if is_success abs_err
          then (if Tacho.is_counterclockwise dir
                then - abs_count else abs_count)
          else 0).
Proof.
  intros Hg Hc Hget Habs Hread Ha.
  set (target := if is_success abs_err
                 then (if Tacho.is_counterclockwise dir
                       then - abs_count else abs_count)
                 else 0).
  assert (Rt : Int32.in_range target).
  { subst target. unfold Int32.max_signed in Ha.
    unfold Int32.in_range, Int32.min_signed, Int32.max_signed.
    destruct (is_success abs_err);
      [destruct (Tacho.is_counterclockwise dir)|]; lia. }
  set (configured :=
         {| Tacho.direction := dir;
            Tacho.offset := Tacho.offset tacho;
            Tacho.counts_per_degree := cpd;
            Tacho.counts_per_output_unit := fix16_mul cpd gear_ratio;
            Tacho.counter := dev |}).
  set (s2 := {| Tacho.devices := d2;
                Tacho.calls :=
                  (Tacho.calls s ++ [Tacho.Call_counter_get counter_id])
                  ++ [Tacho.Call_counter_get_abs_count] |}).
  destruct (reset_count_stable configured s2 c target Hread) as
    (tacho' & d' & Er & (C1 & C2 & C3 & C4) & Hrep).
  set (s' := {| Tacho.devices := d';
                Tacho.calls :=
                  Tacho.calls s2 ++ [Tacho.Call_counter_get_count] |}) in *.
  assert (Eg : fst (get_count tacho' s') = (PBIO_SUCCESS, target)).
  { rewrite (get_count_stable tacho' s' c)
      by (rewrite C4; exact Hread).
    rewrite Hrep. f_equal. now apply wrap_small. }
  exists tacho', s'.
  assert (Es : setup tacho counter_id dir cpd gear_ratio s
               = ((PBIO_SUCCESS, tacho'), s')).
  { unfold Tacho.pbio_tacho_setup.
    destruct (Z.ltb_spec gear_ratio 0); [lia|].
    destruct (Z.ltb_spec cpd 0); [lia|].
    cbn [orb]. unfold Tacho.bind at 1. unfold Tacho.call at 1.
    cbn [Tacho.counter]. rewrite Hget. cbn [is_success negb fst snd].
    unfold Tacho.bind at 1. unfold Tacho.call at 1.
    cbn [Tacho.counter Tacho.devices Tacho.calls]. rewrite Habs.
    cbn [fst snd]. fold s2. rewrite <- Er. f_equal.
    subst target. unfold Int32.neg.
    destruct (is_success abs_err);
      (destruct (Tacho.is_counterclockwise dir); [|reflexivity]).
    + apply wrap_small. unfold Int32.max_signed in Ha.
      unfold Int32.in_range, Int32.min_signed, Int32.max_signed. lia.
    + reflexivity. }
  split; [exact Es|]. cbn in C1, C2, C3, C4.
  repeat (split; [assumption|]).
  split; [|exact Eg].
  subst s' s2. cbn. now rewrite <- !app_assoc.
Qed.

(** X12: a setup that fails half way. When the counter device cannot be
    obtained, [pbio_tacho_setup] returns the driver's error after that one
    call, but has already stored the direction and the two scale
    factors. *)
Theorem setup_fails_after_configuring tacho s (counter_id : Z)
    (dir : Tacho.pbio_direction_t) (cpd gear_ratio : Z)
    (d1 : driver) (dev : counter_dev) (err : pbio_error_t) :
  0 <= gear_ratio -> 0 <= cpd ->
  pbdrv_counter_get counter_id (Tacho.counter tacho) (Tacho.devices s)
  = (d1, (err, dev)) ->
  err <> PBIO_SUCCESS ->
  setup tacho counter_id dir cpd gear_ratio s
  = ((err,
      {| Tacho.direction := dir;
         Tacho.offset := Tacho.offset tacho;
         Tacho.counts_per_degree := cpd;
         Tacho.counts_per_output_unit := fix16_mul cpd gear_ratio;
         Tacho.counter := dev |}),
     {| Tacho.devices := d1;
        Tacho.calls := Tacho.calls s ++ [Tacho.Call_counter_get counter_id]
     |}).
Proof.
  intros Hg Hc Hget Herr. unfold Tacho.pbio_tacho_setup.
  destruct (Z.ltb_spec gear_ratio 0); [lia|].
  destruct (Z.ltb_spec cpd 0); [lia|].
  cbn [orb]. unfold Tacho.bind, Tacho.call. cbn [Tacho.counter].
  rewrite Hget. destruct err; try reflexivity. now elim Herr.
Qed.

Lemma store_length (l : list (Tacho.pbio_tacho_t counter_dev)) :
  forall i t, length (Tacho.store counter_dev i t l) = length l.
Proof.
  induction l as [|x l IH]; intros [|i] t; cbn; auto.
Qed.

Lemma store_other (l : list (Tacho.pbio_tacho_t counter_dev)) :
  forall i j t, j <> i ->
    nth_error (Tacho.store counter_dev i t l) j = nth_error l j.
Proof.
  induction l as [|x l IH]; intros [|i] [|j] t H; cbn; auto.
  now elim H.
Qed.

Lemma store_this (l : list (Tacho.pbio_tacho_t counter_dev)) :
  forall i t, (i < length l)%nat ->
    nth_error (Tacho.store counter_dev i t l) i = Some t.
Proof.
  induction l as [|x l IH]; intros [|i] t H; cbn in *; try lia; auto.
  apply IH. lia.
Qed.

(** X13: [pbio_tacho_get] and the array of tachos. A port outside the
    motor ports is rejected with [PBIO_ERROR_INVALID_PORT] before the
    scale factors are looked at, without a driver call and without
    writing the tacho pointer. For a motor port within the array the call
    returns the index [port - first], keeps the length of the array,
    replaces that entry by the result of the setup and leaves every other
    entry as it was. *)
Theorem tacho_get_touches_one_entry
    (tachos : list (Tacho.pbio_tacho_t counter_dev)) (port : Z)
    (dir : Tacho.pbio_direction_t) (cpd gear_ratio : Z) s :
  (port < first_port \/ last_port < port ->
   tacho_get tachos port dir cpd gear_ratio s
   = (Some (PBIO_ERROR_INVALID_PORT, None, tachos), s))
  /\ (first_port <= port <= last_port ->
      forall tacho,
        nth_error tachos (Z.to_nat (port - first_port)) = Some tacho ->
        exists tachos',
          tacho_get tachos port dir cpd gear_ratio s
          = (Some (fst (fst (setup tacho ((port - first_port) mod 256)
                               dir cpd gear_ratio s)),
                   Some (Z.to_nat (port - first_port)), tachos'),
             snd (setup tacho ((port - first_port) mod 256)
                    dir cpd gear_ratio s))
          /\ length tachos' = length tachos
          /\ nth_error tachos' (Z.to_nat (port - first_port))
             = Some (snd (fst (setup tacho ((port - first_port) mod 256)
                                 dir cpd gear_ratio s)))
          /\ forall j, j <> Z.to_nat (port - first_port) ->
               nth_error tachos' j = nth_error tachos j).
Proof.
  split.
  - intros Hport. unfold Tacho.pbio_tacho_get.
    destruct (Z.ltb_spec port first_port);
      destruct (Z.gtb_spec port last_port); try reflexivity; lia.
  - intros Hport tacho Hnth. unfold Tacho.pbio_tacho_get.
    destruct (Z.ltb_spec port first_port); [lia|].
    destruct (Z.gtb_spec port last_port); [lia|].
    cbn [orb]. rewrite Hnth. unfold Tacho.bind at 1.
    destruct (setup tacho ((port - first_port) mod 256) dir cpd gear_ratio s)
      as [[err tacho'] s'] eqn:Es.
    cbn [fst snd]. eexists. split; [reflexivity|].
    split; [apply store_length|]. split.
    + apply store_this. apply nth_error_Some. congruence.
    + intros j Hj. now apply store_other.
Qed.

(** X14: resetting the angle and reading it back. When the counter reads
    the same raw count both times and the count for the angle fits 32
    bits, [pbio_tacho_get_angle] after [pbio_tacho_reset_angle] returns the
    angle converted to counts and back with the tacho's counts per output
    unit. *)
Theorem reset_angle_then_get_angle tacho s (c angle : Z) :
  (forall d, snd (pbdrv_counter_get_count (Tacho.counter tacho) d)
             = (PBIO_SUCCESS, c)) ->
  Int32.in_range
    (pbio_math_mul_i32_fix16 angle (Tacho.counts_per_output_unit tacho)) ->
  exists tacho' s',
    reset_angle tacho angle s = ((PBIO_SUCCESS, tacho'), s')
    /\ fst (get_angle tacho' s')
       = (PBIO_SUCCESS,
          Some (pbio_math_div_i32_fix16
                  (pbio_math_mul_i32_fix16 angle
                     (Tacho.counts_per_output_unit tacho))
                  (Tacho.counts_per_output_unit tacho))).
Proof.
  intros Hread Hr.
  destruct (reset_count_stable tacho s c
              (pbio_math_mul_i32_fix16 angle
                 (Tacho.counts_per_output_unit tacho)) Hread)
    as (tacho' & d' & Er & (_ & _ & C3 & C4) & Hrep).
  exists tacho'. eexists. split; [exact Er|].
  unfold TachoAngle.pbio_tacho_get_angle, Tacho.bind.
  match goal with
  | |- context [get_count tacho' ?s'] =>
      pose proof (get_count_stable tacho' s' c) as Eg;
      destruct (get_count tacho' s') as [[err n] s'']
  end.
  rewrite C4 in Eg. specialize (Eg Hread). cbn in Eg.
  inversion Eg; subst. cbn. rewrite C3, Hrep. do 3 f_equal.
  now apply wrap_small.
Qed.

End TachoExtras.

(** ** More about the blocking wrappers *)

Section BlockingExtras.

Import Blocking.

Variable world : Type.
Variable mp_hal_ticks_ms : world -> Z.
Variable event_poll_hook : world -> world * option exn.
Variable vm_hook_loop : world -> world.

Section Remote.

Variable task_status : world -> pbio_error_t.
Variable scan_and_connect : world -> world.
Variable pbio_task_cancel : world -> world.

Local Abbreviation connect :=
  (pb_remote_connect world mp_hal_ticks_ms event_poll_hook vm_hook_loop
     task_status scan_and_connect pbio_task_cancel).


Lemma connect_poll_undisturbed (fuel : nat) (start : Z) :
  (forall w, snd (event_poll_hook w) = None) ->
  forall w p w' evs,
    connect_poll world mp_hal_ticks_ms event_poll_hook task_status
      fuel (-1) start w = Some (p, w', evs) ->
    p = Finished (task_status w').
Proof.
  intros Hquiet. induction fuel as [|fuel IH]; intros w p w' evs H;
    cbn in H; [discriminate|].
  pose proof (Hquiet w) as Q.
  destruct (event_poll_hook w) as [w1 pending]. cbn in Q. subst pending.
  destruct (is_again (task_status w1)); cbn in H.
  - destruct (connect_poll world mp_hal_ticks_ms event_poll_hook task_status
                fuel (-1) start w1) as [[[p2 w2] evs2]|] eqn:Hr;
      [|discriminate].
    inversion H; subst. eapply IH. exact Hr.
  - now inversion H.
Qed.

(** X16: without a timeout (the -1 of [timeout=None]) and without an
    exception delivered by the event loop, [pb_remote_connect] ends only
    when the task has left "again": it never calls the cancel function
    and passes the terminal status to [pb_assert]. *)
Theorem connect_without_timeout (fuel : nat) (w : world)
    (out : outcome) (w' : world) (evs : list event) :
  (forall v, snd (event_poll_hook v) = None) ->
  connect fuel (-1) w = Some (out, w', evs) ->
  is_again (task_status w') = false
  /\ out = pb_assert (task_status w')
  /\ no_cancel evs = true.
Proof.
  intros Hquiet H. unfold pb_remote_connect in H.
  destruct (connect_poll world mp_hal_ticks_ms event_poll_hook task_status
              fuel (-1) (mp_hal_ticks_ms (scan_and_connect w))
              (scan_and_connect w)) as [[[p w1] evs1]|] eqn:Hp;
    [|discriminate].
  pose proof (connect_poll_undisturbed _ _ Hquiet _ _ _ _ Hp) as ->.
  destruct (connect_poll_sound world mp_hal_ticks_ms event_poll_hook
              task_status _ _ _ _ _ _ _ Hp) as [Hc Hf].
  inversion H; subst.
  destruct (Hf _ eq_refl) as [_ Ha]. auto.
Qed.

End Remote.

Section Wait.

Variable end_ : world -> world * pbio_error_t.
Variable cancel : world -> world.

Local Abbreviation before :=
  (BlockingRuns.before_poll world event_poll_hook end_).

(** X17: an undisturbed wait. When the operation reports "again" [n]
    times and then the terminal [status], and no exception is delivered
    in between, [wait] with any fuel above [n] returns what [pb_assert]
    makes of that status, in the world of the last poll, having polled
    [n + 1] times and never cancelled. *)
Theorem wait_undisturbed (n : nat) : forall (w : world)
    (status : pbio_error_t) (fuel : nat),
  (forall i, (i < n)%nat ->
     snd (end_ (before i w)) = PBIO_ERROR_AGAIN
     /\ snd (event_poll_hook (fst (end_ (before i w)))) = None) ->
  snd (end_ (before n w)) = status ->
  is_again status = false ->
  (n < fuel)%nat ->
  wait world event_poll_hook vm_hook_loop end_ cancel fuel w
  = Some (pb_assert status, fst (end_ (before n w)),
          BlockingRuns.poll_events n status).
Proof.
  assert (G : forall n w status fuel,
            (forall i, (i < n)%nat ->
               snd (end_ (before i w)) = PBIO_ERROR_AGAIN
               /\ snd (event_poll_hook (fst (end_ (before i w)))) = None) ->
            snd (end_ (before n w)) = status ->
            is_again status = false ->
            (n < fuel)%nat ->
            wait_poll world event_poll_hook end_ fuel w
            = Some (Finished status, fst (end_ (before n w)),
                    BlockingRuns.poll_events n status)).
  { clear n. induction n as [|n IH]; intros w status fuel Hagain Hlast Hterm Hf;
      (destruct fuel as [|fuel]; [lia|]); cbn in *.
    - destruct (end_ w) as [w1 err]. cbn in *. subst err.
      now rewrite Hterm.
    - destruct (Hagain O ltac:(lia)) as [A0 Q0]. cbn in A0, Q0.
      destruct (end_ w) as [w1 err] eqn:Ew. cbn in *. subst err. cbn.
      destruct (event_poll_hook w1) as [w2 pending] eqn:Eh. cbn in *.
      subst pending.
      rewrite (IH w2 status fuel); [reflexivity| |exact Hlast|exact Hterm|lia].
      intros i Hi. specialize (Hagain (S i) ltac:(lia)). cbn in Hagain.
      rewrite Ew in Hagain. cbn in Hagain. rewrite Eh in Hagain.
      exact Hagain. }
  intros w status fuel Hagain Hlast Hterm Hf. unfold wait.
  now rewrite (G n w status fuel Hagain Hlast Hterm Hf).
Qed.

Variable mode : world -> Z.
Variable pbio_iodev_set_mode_begin : Z -> world -> world * pbio_error_t.

Local Abbreviation set_mode :=
  (BlockingRuns.pb_iodevice_set_mode world event_poll_hook vm_hook_loop
     end_ cancel mode pbio_iodev_set_mode_begin).

Local Abbreviation before_begin :=
  (BlockingRuns.before_begin world pbio_iodev_set_mode_begin).

(** The loop around the begin of a mode change, when the begin returns
    "again" [k] times and then [err]. *)
Lemma begin_spin_exact (k : nat) (new_mode : Z) : forall w fuel err,
  (forall i, (i < k)%nat ->
     snd (pbio_iodev_set_mode_begin new_mode (before_begin i new_mode w))
     = PBIO_ERROR_AGAIN) ->
  snd (pbio_iodev_set_mode_begin new_mode (before_begin k new_mode w))
  = err ->
  is_again err = false ->
  (k < fuel)%nat ->
  BlockingRuns.begin_spin world pbio_iodev_set_mode_begin fuel new_mode w
  = Some (fst (pbio_iodev_set_mode_begin new_mode
                 (before_begin k new_mode w)), err).
Proof.
  induction k as [|k IH]; intros w fuel err Hag Hlast Hterm Hf;
    (destruct fuel as [|fuel]; [lia|]); cbn [BlockingRuns.begin_spin].
  - cbn [BlockingRuns.before_begin] in *.
    destruct (pbio_iodev_set_mode_begin new_mode w) as [w1 e1].
    cbn [fst snd] in *. subst e1. now rewrite Hterm.
  - pose proof (Hag O ltac:(lia)) as H0.
    cbn [BlockingRuns.before_begin] in *.
    destruct (pbio_iodev_set_mode_begin new_mode w) as [w1 e1] eqn:Eb.
    cbn [fst snd] in *. subst e1. cbn [is_again].
    apply IH; [|exact Hlast|exact Hterm|lia].
    intros i Hi. specialize (Hag (S i) ltac:(lia)).
    cbn [BlockingRuns.before_begin] in Hag. rewrite Eb in Hag. exact Hag.
Qed.

(** X18: [pb_iodevice_set_mode]. Setting the mode the device already has
    returns at once with nothing done, whatever the fuel. For another
    mode, when [pbio_iodev_set_mode_begin] returns "again" [k] times and
    then [err]: an [err] other than success is raised in the world that
    call left, without a single poll of the end of the change; after
    success the setter does what [wait] does from the world that call
    left. *)
Theorem set_mode_settles (new_mode : Z) (w : world) (k : nat)
    (err : pbio_error_t) (fuel : nat) :
  (mode w = new_mode ->
   set_mode fuel new_mode w = Some (Returned, w, []))
  /\ (mode w <> new_mode ->
      (forall i, (i < k)%nat ->
         snd (pbio_iodev_set_mode_begin new_mode (before_begin i new_mode w))
         = PBIO_ERROR_AGAIN) ->
      snd (pbio_iodev_set_mode_begin new_mode (before_begin k new_mode w))
      = err ->
      is_again err = false ->
      (k < fuel)%nat ->
      (err <> PBIO_SUCCESS ->
       set_mode fuel new_mode w
       = Some (AssertRaised err,
               fst (pbio_iodev_set_mode_begin new_mode
                      (before_begin k new_mode w)), []))
      /\ (err = PBIO_SUCCESS ->
          set_mode fuel new_mode w
          = wait world event_poll_hook vm_hook_loop end_ cancel fuel
              (fst (pbio_iodev_set_mode_begin new_mode
                      (before_begin k new_mode w))))).
Proof.
  unfold BlockingRuns.pb_iodevice_set_mode. split.
  - intros E. apply Z.eqb_eq in E. now rewrite E.
  - intros E Hag Hlast Hterm Hf. apply Z.eqb_neq in E. rewrite E.
    rewrite (begin_spin_exact k new_mode w fuel err Hag Hlast Hterm Hf).
    split.
    + intros Hne. destruct err; try reflexivity. now elim Hne.
    + intros ->. reflexivity.
Qed.

End Wait.

End BlockingExtras.

(** ** The handset *)

Section RemoteExtras.

Import Remote.

Variables LWP3_MSG_TYPE_HW_NET_CMDS LWP3_HW_NET_CMD_CONNECTION_REQ
  LWP3_MSG_TYPE_PORT_VALUE : Z.

Local Abbreviation handle :=
  (handle_notification LWP3_MSG_TYPE_HW_NET_CMDS
     LWP3_HW_NET_CMD_CONNECTION_REQ LWP3_MSG_TYPE_PORT_VALUE).

(** X19: [handle_notification] and the bounds of the message. The
    handler never looks at the size it is given, yet when the first byte
    of a message is its length, as the protocol has it, every byte the
    handler reads lies within the message. An empty message, and one
    whose first byte promises more than it holds, is read beyond its
    end. *)
Theorem notification_reads_within_message
    (remote : pb_remote_t) (value : list Z) :
  (nth_error value 0 = Some (Z.of_nat (length value)) ->
   exists remote', handle remote value = Some remote')
  /\ handle remote [] = None
  /\ handle remote [5] = None
  /\ handle remote [7] = None.
Proof.
  split; [|repeat split].
  intros H. unfold handle_notification, is_connection_request,
    is_port_value, copy3.
  destruct value as [|v0 [|v1 [|v2 [|v3 [|v4 [|v5 [|v6 [|v7 rest]]]]]]]];
    cbn [nth_error] in *; try discriminate;
    injection H as Hv0; cbn [length] in Hv0;
    destruct (Z.eqb_spec v0 5); destruct (Z.eqb_spec v0 7); try lia;
    eauto.
  - (* five bytes *)
    destruct (v2 =? LWP3_MSG_TYPE_HW_NET_CMDS);
      [destruct (v3 =? LWP3_HW_NET_CMD_CONNECTION_REQ)|]; eauto.
  - (* seven bytes *)
    destruct (v2 =? LWP3_MSG_TYPE_PORT_VALUE); [|eauto].
    destruct (v3 =? 0); [eauto|]. destruct (v3 =? 1); eauto.
Qed.

Variables k_left_up k_left k_left_down k_right_up k_right k_right_down
  k_center : Z.

Local Abbreviation buttons :=
  (remote_button_is_pressed (2 ^ k_left_up) (2 ^ k_left) (2 ^ k_left_down)
     (2 ^ k_right_up) (2 ^ k_right) (2 ^ k_right_down) (2 ^ k_center)).

Lemma press_bit (pressed byte k n : Z) :
  0 <= k -> 0 <= n ->
  Z.testbit (press pressed byte (2 ^ k)) n
  = Z.testbit pressed n || (held byte && (n =? k)).
Proof.
  intros Hk Hn. unfold press, held.
  destruct (byte =? 0); cbn [negb andb].
  - now rewrite orb_false_r.
  - rewrite Z.lor_spec, Z.pow2_bits_eqb by assumption.
    now rewrite (Z.eqb_sym k n).
Qed.

(** X20: what [remote_button_is_pressed] reports. Without a connection
    to the handset it raises [ENODEV]. With one, and button flags that are
    single bits, bit [n] of the result is set exactly when a button whose
    flag is bit [n] has a byte other than 0 in the stored state; a
    cleared state reports no button. *)
Theorem buttons_report_held_bytes (remote : pb_remote_t) :
  0 <= k_left_up -> 0 <= k_left -> 0 <= k_left_down ->
  0 <= k_right_up -> 0 <= k_right -> 0 <= k_right_down -> 0 <= k_center ->
  buttons false remote = Raised_ENODEV
  /\ buttons true cleared = Pressed 0
  /\ exists pressed,
       buttons true remote = Pressed pressed
       /\ forall n, 0 <= n ->
            Z.testbit pressed n
            = (held (b0 (left remote)) && (n =? k_left_up))
              || (held (b1 (left remote)) && (n =? k_left))
              || (held (b2 (left remote)) && (n =? k_left_down))
              || (held (b0 (right remote)) && (n =? k_right_up))
              || (held (b1 (right remote)) && (n =? k_right))
              || (held (b2 (right remote)) && (n =? k_right_down))
              || (held (center remote) && (n =? k_center)).
Proof.
  intros H1 H2 H3 H4 H5 H6 H7.
  split; [reflexivity|]. split; [reflexivity|].
  eexists. split; [reflexivity|].
  intros n Hn. rewrite !press_bit by assumption.
  now rewrite Z.bits_0.
Qed.

Lemma buttons_reported (remote : pb_remote_t) :
  0 <= k_left_up -> 0 <= k_left -> 0 <= k_left_down ->
  0 <= k_right_up -> 0 <= k_right -> 0 <= k_right_down -> 0 <= k_center ->
  exists pressed,
    buttons true remote = Pressed pressed
    /\ forall n, 0 <= n ->
         Z.testbit pressed n
         = reported [k_left_up; k_left; k_left_down; k_right_up; k_right;
                     k_right_down; k_center]
             (left remote) (right remote) (center remote) n.
Proof.
  intros H1 H2 H3 H4 H5 H6 H7.
  eexists. split; [reflexivity|].
  intros n Hn. rewrite !press_bit by assumption.
  now rewrite Z.bits_0.
Qed.

(** X21: from a notification to the buttons. With button flags that are
    single bits, after a seven-byte port value message for port 0 the
    button read reports the left buttons by the three bytes of the message
    and the other buttons as before; port 1 does the same for the right
    buttons, and a five-byte connection request for the center button. *)
Theorem notification_then_buttons (remote : pb_remote_t) (h x y z : Z) :
  0 <= k_left_up -> 0 <= k_left -> 0 <= k_left_down ->
  0 <= k_right_up -> 0 <= k_right -> 0 <= k_right_down -> 0 <= k_center ->
  let k := [k_left_up; k_left; k_left_down; k_right_up; k_right;
            k_right_down; k_center] in
  let sent := {| b0 := x; b1 := y; b2 := z |} in
  (exists remote' pressed,
     handle remote [7; h; LWP3_MSG_TYPE_PORT_VALUE; 0; x; y; z]
     = Some remote'
     /\ buttons true remote' = Pressed pressed
     /\ forall n, 0 <= n ->
          Z.testbit pressed n
          = reported k sent (right remote) (center remote) n)
  /\ (exists remote' pressed,
        handle remote [7; h; LWP3_MSG_TYPE_PORT_VALUE; 1; x; y; z]
        = Some remote'
        /\ buttons true remote' = Pressed pressed
        /\ forall n, 0 <= n ->
             Z.testbit pressed n
             = reported k (left remote) sent (center remote) n)
  /\ (exists remote' pressed,
        handle remote
          [5; h; LWP3_MSG_TYPE_HW_NET_CMDS; LWP3_HW_NET_CMD_CONNECTION_REQ; x]
        = Some remote'
        /\ buttons true remote' = Pressed pressed
        /\ forall n, 0 <= n ->
             Z.testbit pressed n
             = reported k (left remote) (right remote) x n).
Proof.
  intros H1 H2 H3 H4 H5 H6 H7 k sent.
  unfold handle_notification, is_connection_request, is_port_value, copy3.
  cbn [nth_error]. change (7 =? 5) with false. change (7 =? 7) with true.
  change (5 =? 5) with true. cbv iota.
  rewrite !Z.eqb_refl. change (0 =? 0) with true. change (1 =? 0) with false.
  change (1 =? 1) with true. cbv iota.
  split; [|split].
  - destruct (buttons_reported
                {| left := sent; right := right remote;
                   center := center remote |} H1 H2 H3 H4 H5 H6 H7)
      as [pressed [E B]].
    eexists. exists pressed. split; [reflexivity|]. split; [exact E|exact B].
  - destruct (buttons_reported
                {| left := left remote; right := sent;
                   center := center remote |} H1 H2 H3 H4 H5 H6 H7)
      as [pressed [E B]].
    eexists. exists pressed. split; [reflexivity|]. split; [exact E|exact B].
  - destruct (buttons_reported
                {| left := left remote; right := right remote;
                   center := x |} H1 H2 H3 H4 H5 H6 H7)
      as [pressed [E B]].
    eexists. exists pressed. split; [reflexivity|]. split; [exact E|exact B].
Qed.

End RemoteExtras.

(** ** Light animations *)

Section AnimationExtras.

Import Animation.

Ltac listed := cbn in *; intuition (subst; auto; congruence).

Lemma link_eqb_eq (p q : link) : link_eqb p q = true <-> p = q.
Proof.
  destruct p, q; cbn; try (split; [discriminate|congruence]);
    try (split; reflexivity).
  rewrite Nat.eqb_eq. split; congruence.
Qed.

Lemma link_eqb_refl (p : link) : link_eqb p p = true.
Proof. now apply link_eqb_eq. Qed.

Lemma link_eqb_neq (p q : link) : p <> q -> link_eqb p q = false.
Proof.
  intros H. destruct (link_eqb p q) eqn:E; [|reflexivity].
  apply link_eqb_eq in E. contradiction.
Qed.

Lemma upd_same {A : Type} (f : nat -> A) (a : nat) (v : A) : upd f a v a = v.
Proof. unfold upd. now rewrite Nat.eqb_refl. Qed.

Lemma upd_other {A : Type} (f : nat -> A) (a x : nat) (v : A) :
  x <> a -> upd f a v x = f x.
Proof.
  intros H. unfold upd. destruct (Nat.eqb_spec x a); [contradiction|].
  reflexivity.
Qed.

(** A chain does not notice a change outside of it. *)
Lemma chain_upd (nx : nat -> link) (a : nat) (v : link) (l : list nat) :
  forall p, ~ In a l -> chain nx p l -> chain (upd nx a v) p l.
Proof.
  induction l as [|x l IH]; intros p Hn H; cbn in *; [exact H|].
  destruct H as [Hp Hc]. split; [exact Hp|].
  rewrite upd_other by tauto. apply IH; tauto.
Qed.

Lemma chain_not_stopped (nx : nat -> link) (p : link) (l : list nat) :
  chain nx p l -> p <> Stopped.
Proof. destruct l; cbn; [intros ->|intros [-> _]]; discriminate. Qed.

Lemma chain_null (nx : nat -> link) (p : link) (l : list nat) :
  chain nx p l -> (p = Null <-> l = []).
Proof.
  destruct l; cbn; [intros ->; tauto|].
  intros [-> _]. split; discriminate.
Qed.

Lemma remove_NoDup (a : nat) (l : list nat) :
  NoDup l -> NoDup (remove Nat.eq_dec a l).
Proof.
  induction 1 as [|x l Hx Hl IH]; cbn; [constructor|].
  destruct (Nat.eq_dec a x); [exact IH|].
  constructor; [|exact IH].
  intros Hin. apply in_remove in Hin. tauto.
Qed.

Lemma is_started_iff_listed_helper (st : state) (l : list nat) (a : nat) :
  represents st l ->
  (pbio_light_animation_is_started st a = true <-> In a l).
Proof.
  intros (Hc & Hd & Hs). unfold pbio_light_animation_is_started. split.
  - intros H. destruct (in_dec Nat.eq_dec a l) as [|Hn]; [assumption|].
    rewrite (Hs a Hn) in H. discriminate.
  - intros Hin.
    assert (G : forall l p, chain (next_animation st) p l -> In a l ->
                next_animation st a <> Stopped).
    { clear. induction l as [|x l IH]; intros p H Hin; cbn in *;
        [contradiction|].
      destruct H as [_ H]. destruct Hin as [->|Hin].
      - eapply chain_not_stopped. exact H.
      - eapply IH; eassumption. }
    rewrite link_eqb_neq; [reflexivity|].
    eapply G; eassumption.
Qed.

(** X22: whether an animation is started can be read off the list:
    in a state that holds the started animations [l],
    [pbio_light_animation_is_started] is true exactly for the members of
    [l]; an animation that was just initialized is not started. *)
Theorem is_started_iff_listed (st : state) (l : list nat) (a cb : nat) :
  represents st l ->
  (pbio_light_animation_is_started st a = true <-> In a l)
  /\ (~ In a l ->
      represents (pbio_light_animation_init st a cb) l
      /\ pbio_light_animation_is_started
           (pbio_light_animation_init st a cb) a = false).
Proof.
  intros Hr. split; [now apply is_started_iff_listed_helper|].
  destruct Hr as (Hc & Hd & Hs). intros Hn. split.
  - unfold represents, pbio_light_animation_init. cbn.
    split; [now apply chain_upd|]. split; [exact Hd|].
    intros x Hx. unfold upd. destruct (Nat.eqb x a); auto.
  - unfold pbio_light_animation_is_started. cbn. now rewrite upd_same.
Qed.

(** X23: starting an animation. In a state that holds the started
    animations [l], starting an animation that is not among them passes
    both assertions, puts it in front of the list, starts the process and
    sets its timer to 0. *)
Theorem start_pushes (st : state) (l : list nat) (a : nat) :
  represents st l ->
  ~ In a l ->
  exists st',
    pbio_light_animation_start st a = Done st'
    /\ represents st' (a :: l)
    /\ calls st' = calls st ++ [Call_process_start; Call_etimer_set a 0]
    /\ forall x, next st' x = next st x.
Proof.
  intros (Hc & Hd & Hs) Hn. unfold pbio_light_animation_start.
  rewrite (Hs a Hn). cbn [link_eqb negb next_animation].
  rewrite upd_same.
  rewrite (link_eqb_neq (list_head st) Stopped)
    by (eapply chain_not_stopped; exact Hc).
  eexists. split; [reflexivity|]. split; [|cbn; auto].
  unfold represents. cbn. rewrite upd_same. split; [|split].
  - split; [reflexivity|]. now apply chain_upd.
  - now constructor.
  - intros x Hx. rewrite upd_other by (intros ->; apply Hx; now left).
    apply Hs. intros N. apply Hx. now right.
Qed.

(** The loop finds the animation in front of [a] and bends its pointer
    around [a]. *)
Lemma unlink_bypasses (a : nat) (l : list nat) : forall (st : state)
    (h : nat) (fuel : nat),
  chain (next_animation st) (Anim h) (h :: l) ->
  NoDup (h :: l) -> In a l -> h <> a ->
  (length l <= fuel)%nat ->
  exists st',
    unlink fuel st (Anim h) a = Done st'
    /\ list_head st' = list_head st
    /\ calls st' = calls st
    /\ next st' = next st
    /\ chain (upd (next_animation st') a Stopped) (Anim h)
         (h :: remove Nat.eq_dec a l)
    /\ forall x, ~ In x (h :: l) ->
         next_animation st' x = next_animation st x.
Proof.
  induction l as [|y l IH]; intros st h fuel Hc Hd Hin Hne Hf;
    [contradiction|].
  destruct fuel as [|fuel]; [cbn in Hf; lia|]. cbn in Hf.
  destruct Hc as [_ [Hy Hc]]. cbn [unlink].
  inversion Hd as [|? ? Hh Hd']; subst. inversion Hd' as [|? ? Hyl Hdl]; subst.
  destruct (Nat.eq_dec a y) as [->|Hay].
  - (* [h] is in front of [a] *)
    rewrite Hy, link_eqb_refl.
    eexists. split; [reflexivity|]. cbn [list_head calls next next_animation].
    split; [reflexivity|]. split; [reflexivity|]. split; [reflexivity|].
    split.
    + cbn [remove]. destruct (Nat.eq_dec y y) as [_|N]; [|now elim N].
      rewrite notin_remove by assumption.
      split; [reflexivity|].
      rewrite upd_other by congruence. rewrite upd_same.
      apply chain_upd; [assumption|]. apply chain_upd; [|assumption].
      intros Hin'. apply Hh. now right.
    + intros x Hx. apply upd_other. listed.
  - (* keep looking behind [y] *)
    rewrite Hy. rewrite (link_eqb_neq (Anim y) (Anim a)) by congruence.
    destruct Hin as [E|Hin]; [now elim Hay|].
    destruct (IH st y fuel) as (st' & E & Eh & Ec & En & Hch & Hout);
      [split; [reflexivity|assumption]|assumption|assumption|congruence|lia|].
    exists st'. split; [exact E|]. split; [exact Eh|]. split; [exact Ec|].
    split; [exact En|]. split.
    + cbn [remove]. destruct (Nat.eq_dec a y) as [N|_]; [now elim Hay|].
      split; [reflexivity|].
      rewrite upd_other by congruence.
      rewrite Hout by listed.
      rewrite Hy. exact Hch.
    + intros x Hx. apply Hout. listed.
Qed.

(** X24: stopping an animation. In a state that holds the started
    animations [l], stopping one of them passes both assertions, stops its
    timer and removes it from the list, wherever it stands, keeping the
    order of the others; the process is told to exit exactly when the
    list becomes empty. As many units of fuel as the list is long are
    enough for the search. *)
Theorem stop_removes (st : state) (l : list nat) (a : nat) (fuel : nat) :
  represents st l ->
  In a l ->
  (length l <= fuel)%nat ->
  exists st',
    pbio_light_animation_stop fuel st a = Done st'
    /\ represents st' (remove Nat.eq_dec a l)
    /\ calls st'
       = calls st ++ [Call_etimer_stop a]
         ++ (if list_eq_dec Nat.eq_dec l [a] then [Call_process_exit] else [])
    /\ forall x, next st' x = next st x.
Proof.
  intros (Hc & Hd & Hs) Hin Hf. unfold pbio_light_animation_stop.
  destruct l as [|h l]; [contradiction|].
  destruct Hc as [Hh Hc].
  cbn [list_head next_animation calls next].
  rewrite Hh. cbn [link_eqb].
  assert (Ha : next_animation st a <> Stopped).
  { assert (G : forall l p, chain (next_animation st) p l -> In a l ->
                next_animation st a <> Stopped).
    { clear. induction l as [|x l IH]; intros p H Hin; cbn in *;
        [contradiction|].
      destruct H as [_ H]. destruct Hin as [->|Hin].
      - eapply chain_not_stopped. exact H.
      - eapply IH; eassumption. }
    apply (G (h :: l) (Anim h)); [split; [reflexivity|exact Hc]|exact Hin]. }
  rewrite (link_eqb_neq _ _ Ha).
  inversion Hd as [|? ? Hhl Hdl]; subst.
  destruct (Nat.eq_dec h a) as [->|Hne].
  - (* the head of the list *)
    rewrite Nat.eqb_refl. eexists. split; [reflexivity|].
    cbn [list_head next_animation calls next].
    split; [|split; [|auto]].
    + unfold represents. cbn [list_head next_animation remove].
      destruct (Nat.eq_dec a a) as [_|N]; [|now elim N].
      rewrite notin_remove by assumption.
      split; [now apply chain_upd|]. split; [assumption|].
      intros x Hx. unfold upd. destruct (Nat.eqb_spec x a); [reflexivity|].
      apply Hs. cbn. intros [E|E]; [congruence|contradiction].
    + destruct (list_eq_dec Nat.eq_dec (a :: l) [a]) as [E|E].
      * inversion E; subst. cbn in Hc. rewrite Hc. cbn.
        now rewrite <- app_assoc.
      * rewrite link_eqb_neq; [now rewrite app_nil_r|].
        intros N. apply (chain_null _ _ _ Hc) in N. subst. now elim E.
  - (* further down the list *)
    destruct (Nat.eqb_spec h a) as [|_]; [contradiction|].
    destruct Hin as [E|Hin]; [contradiction|].
    destruct (unlink_bypasses a l
                {| list_head := Anim h;
                   next_animation := next_animation st;
                   next := next st;
                   calls := calls st ++ [Call_etimer_stop a] |} h fuel)
      as (st' & E & Eh & Ec & En & Hch & Hout);
      [split; [reflexivity|exact Hc]|assumption|assumption|assumption|
       cbn in Hf; lia|].
    rewrite E. eexists. split; [reflexivity|].
    cbn [list_head next_animation calls next] in *.
    split; [|split].
    + unfold represents. cbn [list_head next_animation remove].
      destruct (Nat.eq_dec a h) as [N|_]; [now elim Hne|].
      rewrite Eh. split; [exact Hch|].
      split; [constructor; [|now apply remove_NoDup]|].
      * intros N. apply in_remove in N. tauto.
      * intros x Hx. unfold upd. destruct (Nat.eqb_spec x a); [reflexivity|].
        rewrite Hout.
        -- apply Hs. cbn in *. intros [N|N]; [tauto|].
           apply Hx. right. now apply in_in_remove.
        -- cbn in *. intros [N|N]; [tauto|].
           apply Hx. right. now apply in_in_remove.
    + rewrite Ec.
      destruct (list_eq_dec Nat.eq_dec (h :: l) [a]) as [N|_];
        [inversion N; contradiction|].
      now rewrite app_nil_r.
    + intros x. now rewrite En.
Qed.

(** Stopping the animation at the head of the list needs no search. *)
Lemma stop_head (st : state) (l : list nat) (a : nat) (fuel : nat) :
  represents st (a :: l) ->
  exists st',
    pbio_light_animation_stop fuel st a = Done st'
    /\ represents st' l
    /\ forall x, next st' x = next st x.
Proof.
  intros ([Hh Hc] & Hd & Hs). inversion Hd as [|? ? Ha Hl]; subst.
  pose proof (chain_not_stopped _ _ _ Hc) as Hn.
  unfold pbio_light_animation_stop.
  cbn [list_head next_animation calls next].
  rewrite Hh. cbn [link_eqb]. rewrite (link_eqb_neq _ _ Hn), Nat.eqb_refl.
  eexists. split; [reflexivity|]. split; [|reflexivity].
  unfold represents. cbn [list_head next_animation].
  split; [now apply chain_upd|]. split; [assumption|].
  intros x Hx. unfold upd. destruct (Nat.eqb_spec x a); [reflexivity|].
  apply Hs. cbn. intros [E|E]; [congruence|contradiction].
Qed.

(** X25: stopping all animations. In a state that holds the started
    animations [l], [pbio_light_animation_stop_all] with more fuel than the
    list is long ends with an empty list: no animation is started any
    more, and the callbacks are as before. *)
Theorem stop_all_empties (l : list nat) : forall (st : state) (fuel : nat),
  represents st l ->
  (length l < fuel)%nat ->
  exists st',
    pbio_light_animation_stop_all fuel st = Done st'
    /\ represents st' []
    /\ (forall x, pbio_light_animation_is_started st' x = false)
    /\ forall x, next st' x = next st x.
Proof.
  induction l as [|a l IH]; intros st fuel Hr Hf;
    (destruct fuel as [|fuel]; [cbn in Hf; lia|]); cbn [pbio_light_animation_stop_all].
  - destruct Hr as (Hc & Hd & Hs). cbn in Hc. rewrite Hc.
    exists st. split; [reflexivity|]. split.
    + unfold represents. cbn. rewrite Hc. auto.
    + split; [|auto]. intros x. unfold pbio_light_animation_is_started.
      rewrite Hs by (intros []). reflexivity.
  - pose proof Hr as (Hc & Hd & Hs). destruct Hc as [Hh Hc]. rewrite Hh.
    destruct (stop_head st l a fuel Hr) as (st1 & E1 & R1 & N1).
    rewrite E1.
    destruct (IH st1 fuel R1) as (st' & E & R & S & N); [cbn in Hf; lia|].
    exists st'. split; [exact E|]. split; [exact R|]. split; [exact S|].
    intros x. now rewrite N, N1.
Qed.

(** X26: what the assertions catch. In a state that holds the started
    animations [l], starting an animation that is already started fails
    the first assertion of [pbio_light_animation_start], and stopping one
    that is not started fails an assertion of [pbio_light_animation_stop],
    whatever the fuel. *)
Theorem assertions_catch_misuse (st : state) (l : list nat) (a : nat) :
  represents st l ->
  (In a l -> pbio_light_animation_start st a = AssertFailed)
  /\ (~ In a l ->
      forall fuel, pbio_light_animation_stop fuel st a = AssertFailed).
Proof.
  intros Hr. split.
  - intros Hin.
    destruct (is_started_iff_listed_helper st l a Hr) as [_ H].
    specialize (H Hin). unfold pbio_light_animation_start.
    unfold pbio_light_animation_is_started in H. now rewrite H.
  - intros Hn fuel. destruct Hr as (_ & _ & Hs).
    unfold pbio_light_animation_stop. rewrite (Hs a Hn).
    destruct (link_eqb (list_head st) Null); reflexivity.
Qed.

(** X27: starting and then stopping an animation restores the list. In
    a state that holds the started animations [l], starting an animation
    that is not among them and stopping it again, with any fuel, leaves the
    list head, every pointer and every callback as they were. *)
Theorem start_then_stop_restores (st : state) (l : list nat) (a : nat)
    (fuel : nat) :
  represents st l ->
  ~ In a l ->
  exists st1 st2,
    pbio_light_animation_start st a = Done st1
    /\ pbio_light_animation_stop fuel st1 a = Done st2
    /\ same_pointers st st2.
Proof.
  intros (Hc & Hd & Hs) Hn.
  pose proof (chain_not_stopped _ _ _ Hc) as Hh.
  unfold pbio_light_animation_start.
  rewrite (Hs a Hn). cbn [link_eqb negb next_animation].
  rewrite upd_same, (link_eqb_neq _ _ Hh).
  eexists. eexists. split; [reflexivity|].
  unfold pbio_light_animation_stop.
  cbn [list_head next_animation calls next link_eqb].
  rewrite upd_same, (link_eqb_neq _ _ Hh), Nat.eqb_refl.
  split; [reflexivity|].
  unfold same_pointers. cbn [list_head next_animation calls next].
  split; [reflexivity|]. split; [|reflexivity].
  intros x. unfold upd. destruct (Nat.eqb_spec x a) as [->|_];
    [now rewrite (Hs a Hn)|reflexivity].
Qed.

End AnimationExtras.

(** ** More concrete runs *)

Section ExtraRuns.

Import Sample SampleRuns SampleTacho.

Lemma stall_relatch_witness :
  stalled (run held_observer held_twice) = false
  /\ stalled_throughout (run held_observer held_twice)
       [held_call 1000; held_call 1100] = true
  /\ 0 <= call_time (held_call 1000) <= 1300
  /\ 1300 < 2 ^ 32
  /\ pbio_observer_is_stalled
       (run held_observer (held_twice ++ [held_call 1000; held_call 1100]))
       1300
     = (true, 300).
Proof.
  assert (H1 : stalled (run held_observer held_twice) = false)
    by reflexivity.
  assert (H2 : stalled_throughout (run held_observer held_twice)
                 [held_call 1000; held_call 1100] = true) by reflexivity.
  assert (H3 : 0 <= call_time (held_call 1000) <= 1300)
    by (split; discriminate).
  assert (H4 : 1300 < 2 ^ 32) by reflexivity.
  repeat (split; [assumption|]).
  exact (stall_relatch held_observer held_twice (held_call 1000)
           [held_call 1100] 1300 H1 H2 H3 H4).
Defined.

Lemma stall_duration_wraps_witness :
  stalled late_observer = true
  /\ 0 <= stall_start late_observer < 2 ^ 32
  /\ 0 <= 300 < 2 ^ 32
  /\ pbio_observer_is_stalled late_observer 294 = (true, 300).
Proof.
  assert (H1 : stalled late_observer = true) by reflexivity.
  assert (H2 : 0 <= stall_start late_observer < 2 ^ 32)
    by (split; [discriminate|reflexivity]).
  assert (H3 : 0 <= 300 < 2 ^ 32) by (split; [discriminate|reflexivity]).
  repeat (split; [assumption|]).
  exact (stall_duration_wraps late_observer 300 H1 H2 H3).
Defined.

Lemma stall_mirror_witness :
  6000 <> 0
  /\ Z.abs (speed slow_observer) <= Int32.max_signed
  /\ Z.abs 6000 <= Int32.max_signed
  /\ Z.abs (-10000) <= Int32.max_signed
  /\ stalled
       (update_stall_state (set_speed slow_observer (-100)) 7
          PBIO_DCMOTOR_ACTUATION_VOLTAGE (-6000) 10000) = true
  /\ stalled
       (update_stall_state slow_observer 7
          PBIO_DCMOTOR_ACTUATION_VOLTAGE 6000 (-10000)) = true.
Proof.
  assert (H1 : 6000 <> 0) by discriminate.
  assert (H2 : Z.abs (speed slow_observer) <= Int32.max_signed)
    by discriminate.
  assert (H3 : Z.abs 6000 <= Int32.max_signed) by discriminate.
  assert (H4 : Z.abs (-10000) <= Int32.max_signed) by discriminate.
  repeat (split; [assumption|]).
  split; [|reflexivity].
  exact (f_equal stalled
           (stall_mirror slow_observer 7 6000 (-10000) H1 H2 H3 H4)).
Defined.

Lemma rest_friction_kick_witness :
  speed resting_observer = 0
  /\ current resting_observer = 0
  /\ model_voltage resting_observer origin 0 = 0
  /\ speed (pbio_observer_update resting_observer 0 origin
              PBIO_DCMOTOR_ACTUATION_VOLTAGE 0) = 200.
Proof.
  assert (H1 : speed resting_observer = 0) by reflexivity.
  assert (H2 : current resting_observer = 0) by reflexivity.
  assert (H3 : model_voltage resting_observer origin 0 = 0) by reflexivity.
  repeat (split; [assumption|]).
  exact (rest_friction_kick resting_observer 0 origin
           PBIO_DCMOTOR_ACTUATION_VOLTAGE 0 H1 H2 H3).
Defined.

Lemma torque_to_voltage_shape_witness :
  0 < d_voltage_d_torque geared_model
  /\ 100000 <= 5000000
  /\ pbio_observer_torque_to_voltage geared_model 100000
     <= pbio_observer_torque_to_voltage geared_model 5000000.
Proof.
  assert (H1 : 0 < d_voltage_d_torque geared_model) by reflexivity.
  assert (H2 : 100000 <= 5000000) by discriminate.
  repeat (split; [assumption|]).
  exact (proj2 (proj2 (proj2 (proj2
           (torque_to_voltage_shape geared_model 100000)))) H1 5000000 H2).
Defined.

Lemma voltage_to_torque_shape_witness :
  0 < d_torque_d_voltage geared_model
  /\ -3000 <= 20000
  /\ pbio_observer_voltage_to_torque geared_model (-3000)
     <= pbio_observer_voltage_to_torque geared_model 20000.
Proof.
  assert (H1 : 0 < d_torque_d_voltage geared_model) by reflexivity.
  assert (H2 : -3000 <= 20000) by discriminate.
  repeat (split; [assumption|]).
  exact (proj2 (proj2 (proj2 (proj2
           (voltage_to_torque_shape geared_model (-3000))))) H1 20000 H2).
Defined.

Lemma feedforward_torque_shape_witness :
  Int32.in_range (torque_friction geared_model)
  /\ 4 <= Z.abs (d_torque_d_speed geared_model)
  /\ 4 <= Z.abs (d_torque_d_acceleration geared_model)
  /\ pbio_observer_get_feedforward_torque geared_model (- 500000) (- 1000)
     = - pbio_observer_get_feedforward_torque geared_model 500000 1000.
Proof.
  assert (H1 : Int32.in_range (torque_friction geared_model))
    by (split; discriminate).
  assert (H2 : 4 <= Z.abs (d_torque_d_speed geared_model)) by discriminate.
  assert (H3 : 4 <= Z.abs (d_torque_d_acceleration geared_model))
    by discriminate.
  repeat (split; [assumption|]).
  exact (proj2 (proj2 (feedforward_torque_shape geared_model 500000 1000))
           H1 H2 H3).
Defined.

Lemma reset_count_round_trip_witness :
  (forall d, snd (counter_read 90 (Tacho.counter reversed_tacho) d)
             = (PBIO_SUCCESS, 90))
  /\ Int32.in_range 1000
  /\ exists tacho' s',
       Tacho.pbio_tacho_reset_count nat Z (counter_read 90) reversed_tacho
         1000 fresh_io = ((PBIO_SUCCESS, tacho'), s')
       /\ TachoAngle.same_configuration tacho' reversed_tacho
       /\ fst (Tacho.pbio_tacho_get_count nat Z (counter_read 90) tacho' s')
          = (PBIO_SUCCESS, 1000).
Proof.
  assert (H1 : forall d, snd (counter_read 90 (Tacho.counter reversed_tacho) d)
                         = (PBIO_SUCCESS, 90)) by reflexivity.
  assert (H2 : Int32.in_range 1000) by (split; discriminate).
  repeat (split; [assumption|]).
  exact (reset_count_round_trip nat Z (counter_read 90) reversed_tacho
           fresh_io 90 1000 H1 H2).
Defined.

Lemma count_error_passes_through_witness :
  failing_read PBIO_ERROR_NO_DEV (Tacho.counter reversed_tacho)
    (Tacho.devices fresh_io) = (1%nat, (PBIO_ERROR_NO_DEV, 0))
  /\ PBIO_ERROR_NO_DEV <> PBIO_SUCCESS
  /\ Tacho.pbio_tacho_reset_count nat Z (failing_read PBIO_ERROR_NO_DEV)
       reversed_tacho 5 fresh_io
     = ((PBIO_ERROR_NO_DEV, reversed_tacho),
        {| Tacho.devices := 1%nat;
           Tacho.calls := [Tacho.Call_counter_get_count] |}).
Proof.
  assert (H1 : failing_read PBIO_ERROR_NO_DEV (Tacho.counter reversed_tacho)
                 (Tacho.devices fresh_io) = (1%nat, (PBIO_ERROR_NO_DEV, 0)))
    by reflexivity.
  assert (H2 : PBIO_ERROR_NO_DEV <> PBIO_SUCCESS) by discriminate.
  repeat (split; [assumption|]).
  exact (proj1 (proj2 (proj2
           (count_error_passes_through nat Z (failing_read PBIO_ERROR_NO_DEV)
              div_i32_fix16 mul_i32_fix16 reversed_tacho fresh_io 1%nat
              PBIO_ERROR_NO_DEV 0 5 H1 H2)))).
Defined.

Lemma setup_reads_absolute_count_witness :
  0 <= 65536 /\ 0 <= 131072
  /\ counter_get 3 (Tacho.counter blank_tacho) (Tacho.devices fresh_io)
     = (1%nat, (PBIO_SUCCESS, 3))
  /\ counter_read 250 3 1%nat = (2%nat, (PBIO_SUCCESS, 250))
  /\ (forall d, snd (counter_read 90 3 d) = (PBIO_SUCCESS, 90))
  /\ Z.abs 250 <= Int32.max_signed
  /\ exists tacho' s',
       Tacho.pbio_tacho_setup nat Z fix16_mul counter_get (counter_read 250)
         (counter_read 90) blank_tacho 3
         Tacho.PBIO_DIRECTION_COUNTERCLOCKWISE 131072 65536 fresh_io
       = ((PBIO_SUCCESS, tacho'), s')
       /\ fst (Tacho.pbio_tacho_get_count nat Z (counter_read 90) tacho' s')
          = (PBIO_SUCCESS, -250).
Proof.
  assert (H1 : 0 <= 65536) by discriminate.
  assert (H2 : 0 <= 131072) by discriminate.
  assert (H3 : counter_get 3 (Tacho.counter blank_tacho)
                 (Tacho.devices fresh_io) = (1%nat, (PBIO_SUCCESS, 3)))
    by reflexivity.
  assert (H4 : counter_read 250 3 1%nat = (2%nat, (PBIO_SUCCESS, 250)))
    by reflexivity.
  assert (H5 : forall d, snd (counter_read 90 3 d) = (PBIO_SUCCESS, 90))
    by reflexivity.
  assert (H6 : Z.abs 250 <= Int32.max_signed) by discriminate.
  repeat (split; [assumption|]).
  destruct (setup_reads_absolute_count nat Z fix16_mul counter_get
              (counter_read 250) (counter_read 90) blank_tacho fresh_io 3
              Tacho.PBIO_DIRECTION_COUNTERCLOCKWISE 131072 65536
              1%nat 2%nat 3 PBIO_SUCCESS 250 90 H1 H2 H3 H4 H5 H6)
    as (tacho' & s' & E & _ & _ & _ & _ & _ & G).
  exists tacho', s'. split; [exact E|exact G].
Defined.

Lemma setup_fails_after_configuring_witness :
  0 <= 65536 /\ 0 <= 131072
  /\ failing_get PBIO_ERROR_NO_DEV 3 (Tacho.counter blank_tacho)
       (Tacho.devices fresh_io) = (1%nat, (PBIO_ERROR_NO_DEV, 0))
  /\ PBIO_ERROR_NO_DEV <> PBIO_SUCCESS
  /\ Tacho.pbio_tacho_setup nat Z fix16_mul (failing_get PBIO_ERROR_NO_DEV)
       (counter_read 250) (counter_read 90) blank_tacho 3
       Tacho.PBIO_DIRECTION_COUNTERCLOCKWISE 131072 65536 fresh_io
     = ((PBIO_ERROR_NO_DEV,
         {| Tacho.direction := Tacho.PBIO_DIRECTION_COUNTERCLOCKWISE;
            Tacho.offset := 0;
            Tacho.counts_per_degree := 131072;
            Tacho.counts_per_output_unit := 131072;
            Tacho.counter := 0 |}),
        {| Tacho.devices := 1%nat;
           Tacho.calls := [Tacho.Call_counter_get 3] |}).
Proof.
  assert (H1 : 0 <= 65536) by discriminate.
  assert (H2 : 0 <= 131072) by discriminate.
  assert (H3 : failing_get PBIO_ERROR_NO_DEV 3 (Tacho.counter blank_tacho)
                 (Tacho.devices fresh_io) = (1%nat, (PBIO_ERROR_NO_DEV, 0)))
    by reflexivity.
  assert (H4 : PBIO_ERROR_NO_DEV <> PBIO_SUCCESS) by discriminate.
  repeat (split; [assumption|]).
  exact (setup_fails_after_configuring nat Z fix16_mul
           (failing_get PBIO_ERROR_NO_DEV) (counter_read 250)
           (counter_read 90) blank_tacho fresh_io 3
           Tacho.PBIO_DIRECTION_COUNTERCLOCKWISE 131072 65536
           1%nat 0 PBIO_ERROR_NO_DEV H1 H2 H3 H4).
Defined.

Lemma tacho_get_touches_one_entry_witness :
  (64 < 65 \/ 68 < 64)
  /\ tacho_get [blank_tacho; reversed_tacho] 64
       Tacho.PBIO_DIRECTION_CLOCKWISE 65536 (-65536) fresh_io
     = (Some (PBIO_ERROR_INVALID_PORT, None, [blank_tacho; reversed_tacho]),
        fresh_io).
Proof.
  assert (H : 64 < 65 \/ 68 < 64) by (left; reflexivity).
  split; [exact H|].
  exact (proj1 (tacho_get_touches_one_entry nat Z
                  (fun a b => Z.shiftr (a * b) 16) counter_get
                  (counter_read 0) (counter_read 90) 65 68
                  [blank_tacho; reversed_tacho] 64
                  Tacho.PBIO_DIRECTION_CLOCKWISE 65536 (-65536) fresh_io) H).
Defined.

Lemma reset_angle_then_get_angle_witness :
  (forall d, snd (counter_read 90 (Tacho.counter reversed_tacho) d)
             = (PBIO_SUCCESS, 90))
  /\ Int32.in_range
       (mul_i32_fix16 45 (Tacho.counts_per_output_unit reversed_tacho))
  /\ exists tacho' s',
       TachoAngle.pbio_tacho_reset_angle nat Z (counter_read 90)
         mul_i32_fix16 reversed_tacho 45 fresh_io
       = ((PBIO_SUCCESS, tacho'), s')
       /\ fst (TachoAngle.pbio_tacho_get_angle nat Z (counter_read 90)
                 div_i32_fix16 tacho' s')
          = (PBIO_SUCCESS, Some 45).
Proof.
  assert (H1 : forall d, snd (counter_read 90 (Tacho.counter reversed_tacho) d)
                         = (PBIO_SUCCESS, 90)) by reflexivity.
  assert (H2 : Int32.in_range
                 (mul_i32_fix16 45
                    (Tacho.counts_per_output_unit reversed_tacho)))
    by (split; discriminate).
  repeat (split; [assumption|]).
  exact (reset_angle_then_get_angle nat Z (counter_read 90) div_i32_fix16
           mul_i32_fix16 reversed_tacho fresh_io 90 45 H1 H2).
Defined.


Lemma connect_without_timeout_witness :
  (forall v, snd (countdown_hook v) = None)
  /\ countdown_connect 10 (-1) 3
     = Some (Blocking.Returned, 0%nat,
             [Blocking.EvPollHook; Blocking.EvStatus PBIO_ERROR_AGAIN;
              Blocking.EvPollHook; Blocking.EvStatus PBIO_ERROR_AGAIN;
              Blocking.EvPollHook; Blocking.EvStatus PBIO_SUCCESS])
  /\ Blocking.Returned = Blocking.pb_assert (countdown_status 0).
Proof.
  assert (H1 : forall v, snd (countdown_hook v) = None) by reflexivity.
  assert (H2 : countdown_connect 10 (-1) 3
               = Some (Blocking.Returned, 0%nat,
                       [Blocking.EvPollHook; Blocking.EvStatus PBIO_ERROR_AGAIN;
                        Blocking.EvPollHook; Blocking.EvStatus PBIO_ERROR_AGAIN;
                        Blocking.EvPollHook; Blocking.EvStatus PBIO_SUCCESS]))
    by reflexivity.
  split; [exact H1|]. split; [exact H2|].
  exact (proj1 (proj2
           (connect_without_timeout nat (fun _ => 0) countdown_hook
              (fun n => n) countdown_status (fun n => n) (fun n => n)
              10%nat 3%nat _ _ _ H1 H2))).
Defined.

Lemma wait_undisturbed_witness :
  (forall i, (i < 3)%nat ->
     snd (countdown_end
            (BlockingRuns.before_poll nat countdown_hook countdown_end i
               3%nat)) = PBIO_ERROR_AGAIN
     /\ snd (countdown_hook
               (fst (countdown_end
                       (BlockingRuns.before_poll nat countdown_hook
                          countdown_end i 3%nat)))) = None)
  /\ is_again PBIO_SUCCESS = false
  /\ (3 < 10)%nat
  /\ countdown_wait 10 3
     = Some (Blocking.Returned, 0%nat,
             BlockingRuns.poll_events 3 PBIO_SUCCESS).
Proof.
  assert (H1 : forall i, (i < 3)%nat ->
             snd (countdown_end
                    (BlockingRuns.before_poll nat countdown_hook
                       countdown_end i 3%nat)) = PBIO_ERROR_AGAIN
             /\ snd (countdown_hook
                       (fst (countdown_end
                               (BlockingRuns.before_poll nat countdown_hook
                                  countdown_end i 3%nat)))) = None).
  { intros i Hi. destruct i as [|[|[|i]]]; [split; reflexivity ..|lia]. }
  assert (H2 : is_again PBIO_SUCCESS = false) by reflexivity.
  assert (H3 : (3 < 10)%nat) by lia.
  split; [exact H1|]. split; [exact H2|]. split; [exact H3|].
  exact (wait_undisturbed nat countdown_hook (fun n => n) countdown_end
           (fun n => n) 3%nat 3%nat PBIO_SUCCESS 10%nat H1 eq_refl H2 H3).
Defined.

Lemma set_mode_settles_witness :
  countdown_set_mode 10 0 3 = Some (Blocking.Returned, 3%nat, [])
  /\ 0 <> 2
  /\ (0 < 10)%nat
  /\ countdown_set_mode 10 2 3 = countdown_wait 10 3
  /\ countdown_wait 10 3
     = Some (Blocking.Returned, 0%nat,
             BlockingRuns.poll_events 3 PBIO_SUCCESS)
  /\ (forall i, (i < 2)%nat ->
        snd (vanishing_begin 2
               (BlockingRuns.before_begin nat vanishing_begin i 2 2%nat))
        = PBIO_ERROR_AGAIN)
  /\ snd (vanishing_begin 2
            (BlockingRuns.before_begin nat vanishing_begin 2 2 2%nat))
     = PBIO_ERROR_NO_DEV
  /\ (2 < 10)%nat
  /\ vanishing_set_mode 10 2 2
     = Some (Blocking.AssertRaised PBIO_ERROR_NO_DEV, 0%nat, []).
Proof.
  assert (H1 : 0 <> 2) by discriminate.
  assert (H2 : (0 < 10)%nat) by lia.
  assert (H4 : forall i, (i < 0)%nat ->
             snd ((fun (_ : Z) (n : nat) => (n, PBIO_SUCCESS)) 2
                    (BlockingRuns.before_begin nat
                       (fun _ n => (n, PBIO_SUCCESS)) i 2 3%nat))
             = PBIO_ERROR_AGAIN) by (intros i Hi; lia).
  assert (H5 : forall i, (i < 2)%nat ->
             snd (vanishing_begin 2
                    (BlockingRuns.before_begin nat vanishing_begin i 2
                       2%nat))
             = PBIO_ERROR_AGAIN).
  { intros i Hi. destruct i as [|[|i]]; [reflexivity ..|lia]. }
  assert (H6 : (2 < 10)%nat) by lia.
  assert (H7 : PBIO_ERROR_NO_DEV <> PBIO_SUCCESS) by discriminate.
  split.
  - exact (proj1 (set_mode_settles nat countdown_hook (fun n => n)
                    countdown_end (fun n => n) (fun _ => 0)
                    (fun _ n => (n, PBIO_SUCCESS)) 0 3%nat 0%nat
                    PBIO_SUCCESS 10%nat) eq_refl).
  - split; [exact H1|]. split; [exact H2|]. split.
    + exact (proj2 (proj2 (set_mode_settles nat countdown_hook (fun n => n)
                             countdown_end (fun n => n) (fun _ => 0)
                             (fun _ n => (n, PBIO_SUCCESS)) 2 3%nat 0%nat
                             PBIO_SUCCESS 10%nat)
                      H1 H4 eq_refl eq_refl H2) eq_refl).
    + split; [reflexivity|]. split; [exact H5|]. split; [reflexivity|].
      split; [exact H6|].
      exact (proj1 (proj2 (set_mode_settles nat countdown_hook (fun n => n)
                             countdown_end (fun n => n) (fun _ => 0)
                             vanishing_begin 2 2%nat 2%nat
                             PBIO_ERROR_NO_DEV 10%nat)
                      H1 H5 eq_refl eq_refl H6) H7).
Defined.

Lemma notification_reads_within_message_witness :
  nth_error [7; 0; 69; 0; 1; 0; 1] 0
  = Some (Z.of_nat (length [7; 0; 69; 0; 1; 0; 1]))
  /\ exists remote',
       handset_handle Remote.cleared [7; 0; 69; 0; 1; 0; 1] = Some remote'.
Proof.
  assert (H : nth_error [7; 0; 69; 0; 1; 0; 1] 0
              = Some (Z.of_nat (length [7; 0; 69; 0; 1; 0; 1])))
    by reflexivity.
  split; [exact H|].
  exact (proj1 (notification_reads_within_message 8 2 69 Remote.cleared
                  [7; 0; 69; 0; 1; 0; 1]) H).
Defined.

Lemma buttons_report_held_bytes_witness :
  0 <= 7 /\ 0 <= 4 /\ 0 <= 1 /\ 0 <= 9 /\ 0 <= 6 /\ 0 <= 3 /\ 0 <= 5
  /\ handset_buttons false Remote.cleared = Remote.Raised_ENODEV
  /\ handset_buttons true Remote.cleared = Remote.Pressed 0.
Proof.
  assert (H1 : 0 <= 7) by discriminate.
  assert (H2 : 0 <= 4) by discriminate.
  assert (H3 : 0 <= 1) by discriminate.
  assert (H4 : 0 <= 9) by discriminate.
  assert (H5 : 0 <= 6) by discriminate.
  assert (H6 : 0 <= 3) by discriminate.
  assert (H7 : 0 <= 5) by discriminate.
  repeat (split; [assumption|]).
  destruct (buttons_report_held_bytes 7 4 1 9 6 3 5 Remote.cleared
              H1 H2 H3 H4 H5 H6 H7) as (A & B & _).
  split; [exact A|exact B].
Defined.

Lemma notification_then_buttons_witness :
  0 <= 7 /\ 0 <= 4 /\ 0 <= 1 /\ 0 <= 9 /\ 0 <= 6 /\ 0 <= 3 /\ 0 <= 5
  /\ exists remote' pressed,
       handset_handle Remote.cleared [7; 0; 69; 0; 1; 0; 1] = Some remote'
       /\ handset_buttons true remote' = Remote.Pressed pressed
       /\ Z.testbit pressed 7 = true
       /\ Z.testbit pressed 4 = false
       /\ Z.testbit pressed 1 = true.
Proof.
  assert (H1 : 0 <= 7) by discriminate.
  assert (H2 : 0 <= 4) by discriminate.
  assert (H3 : 0 <= 1) by discriminate.
  assert (H4 : 0 <= 9) by discriminate.
  assert (H5 : 0 <= 6) by discriminate.
  assert (H6 : 0 <= 3) by discriminate.
  assert (H7 : 0 <= 5) by discriminate.
  repeat (split; [assumption|]).
  destruct (proj1 (notification_then_buttons 8 2 69 7 4 1 9 6 3 5
                     Remote.cleared 0 1 0 1 H1 H2 H3 H4 H5 H6 H7))
    as (remote' & pressed & E & P & B).
  exists remote', pressed. split; [exact E|]. split; [exact P|].
  split; [exact (B 7 H1)|]. split; [exact (B 4 H2)|exact (B 1 H3)].
Defined.

Lemma three_started_represented :
  Animation.represents three_started [9; 5; 2]%nat.
Proof.
  unfold Animation.represents. cbn. split; [auto|]. split.
  - repeat constructor; cbn; intros H; intuition discriminate.
  - intros x Hx.
    do 10 (destruct x as [|x];
           [try reflexivity; exfalso; apply Hx; auto|]).
    reflexivity.
Qed.

Lemma is_started_iff_listed_witness :
  Animation.represents three_started [9; 5; 2]%nat
  /\ Animation.pbio_light_animation_is_started three_started 5 = true
  /\ Animation.pbio_light_animation_is_started three_started 4 = false.
Proof.
  split; [exact three_started_represented|]. split; [|reflexivity].
  apply (proj1 (is_started_iff_listed three_started [9; 5; 2]%nat 5 0
                  three_started_represented)).
  right. left. reflexivity.
Defined.

Lemma start_pushes_witness :
  Animation.represents three_started [9; 5; 2]%nat
  /\ ~ In 4%nat [9; 5; 2]%nat
  /\ exists st',
       Animation.pbio_light_animation_start three_started 4
       = Animation.Done st'
       /\ Animation.represents st' [4; 9; 5; 2]%nat.
Proof.
  assert (H : ~ In 4%nat [9; 5; 2]%nat)
    by (cbn; intros N; intuition discriminate).
  split; [exact three_started_represented|]. split; [exact H|].
  destruct (start_pushes three_started [9; 5; 2]%nat 4
              three_started_represented H) as (st' & E & R & _).
  exists st'. split; [exact E|exact R].
Defined.

Lemma stop_removes_witness :
  Animation.represents three_started [9; 5; 2]%nat
  /\ In 5%nat [9; 5; 2]%nat
  /\ (length [9; 5; 2]%nat <= 3)%nat
  /\ exists st',
       Animation.pbio_light_animation_stop 3 three_started 5
       = Animation.Done st'
       /\ Animation.represents st' [9; 2]%nat
       /\ Animation.calls st' = [Animation.Call_etimer_stop 5].
Proof.
  assert (H1 : In 5%nat [9; 5; 2]%nat) by (right; left; reflexivity).
  assert (H2 : (length [9; 5; 2]%nat <= 3)%nat) by (cbn; lia).
  split; [exact three_started_represented|]. split; [exact H1|].
  split; [exact H2|].
  destruct (stop_removes three_started [9; 5; 2]%nat 5 3
              three_started_represented H1 H2) as (st' & E & R & C & _).
  exists st'. split; [exact E|]. split; [exact R|exact C].
Defined.

Lemma stop_all_empties_witness :
  Animation.represents three_started [9; 5; 2]%nat
  /\ (length [9; 5; 2]%nat < 4)%nat
  /\ exists st',
       Animation.pbio_light_animation_stop_all 4 three_started
       = Animation.Done st'
       /\ Animation.represents st' [].
Proof.
  assert (H : (length [9; 5; 2]%nat < 4)%nat) by (cbn; lia).
  split; [exact three_started_represented|]. split; [exact H|].
  destruct (stop_all_empties [9; 5; 2]%nat three_started 4
              three_started_represented H) as (st' & E & R & _).
  exists st'. split; [exact E|exact R].
Defined.

Lemma assertions_catch_misuse_witness :
  Animation.represents three_started [9; 5; 2]%nat
  /\ In 5%nat [9; 5; 2]%nat
  /\ Animation.pbio_light_animation_start three_started 5
     = Animation.AssertFailed.
Proof.
  assert (H : In 5%nat [9; 5; 2]%nat) by (right; left; reflexivity).
  split; [exact three_started_represented|]. split; [exact H|].
  exact (proj1 (assertions_catch_misuse three_started [9; 5; 2]%nat 5
                  three_started_represented) H).
Defined.

Lemma start_then_stop_restores_witness :
  Animation.represents three_started [9; 5; 2]%nat
  /\ ~ In 4%nat [9; 5; 2]%nat
  /\ exists st1 st2,
       Animation.pbio_light_animation_start three_started 4
       = Animation.Done st1
       /\ Animation.pbio_light_animation_stop 0 st1 4 = Animation.Done st2
       /\ Animation.same_pointers three_started st2.
Proof.
  assert (H : ~ In 4%nat [9; 5; 2]%nat)
    by (cbn; intros N; intuition discriminate).
  split; [exact three_started_represented|]. split; [exact H|].
  exact (start_then_stop_restores three_started [9; 5; 2]%nat 4 0
           three_started_represented H).
Defined.

End ExtraRuns.
